(** * audero-sticky: a shallow embedding of the sticky controller

    The library simulates CSS [position: sticky] for one DOM element: on every
    [scroll]/[resize] event it measures the page, decides whether the element
    is inside its sticking range, and switches the element between its natural
    position and [position: fixed], keeping a hidden placeholder in the flow.

    The embedding follows [src/audero-sticky.js] (the ES module variant) with
    its helpers [helpers/store.js] and [helpers/style.js]:

    - JavaScript numbers are IEEE 754 doubles: [float] with the kernel's
      primitive operations, so [NaN], signed zeros and comparisons behave as
      they do in the browser;
    - the element, its placeholder, the per-element data bag and the window
      are fields of one [World] record that the code reads and writes;
    - a style object is a finite map from property names to strings, holding
      whatever string the code assigns (the browser's validation of values
      is not modelled);
    - what the browser computes (computed styles, bounding rectangles, the
      number/string conversions) is not code of the library: it is the
      interface [Browser], whose layout functions read the current [World];
    - code that can throw runs in a small state-and-exception monad [Js], in
      which a throw keeps the writes made before it;
    - scroll, load and resize events reach the library through the listeners
      it registered on the window. Between two events only the viewport and
      the rest of the page change: no other script writes the element's
      inline style, class list or data.

    The earlier, single-file variant of the library carries its own copies
    of these functions. It is embedded in [Module Legacy] on a page of its
    own: the class attribute is a string edited with regular expressions, the
    data are a plain object on the element, margins and heights go through
    [~~], [cleanUp] resets eight properties, the listeners take no options
    and [init] does not call the scroll handler. The settings of both
    variants are also given on a heap of objects, where a constructor can be
    seen to leave its arguments alone. *)

From Stdlib Require Import ZArith Floats Uint63 Ascii String.
From stdpp Require Import base option strings pretty list gmap.

Local Open Scope string_scope.

(** ** Numbers *)

(** [x || 0] on a number: [NaN], [+0] and [-0] are falsy. *)
Definition orZero (x : float) : float :=
  if PrimFloat.is_nan x || PrimFloat.is_zero x then 0%float else x.

(** ** The DOM objects the library touches *)

(** The fields of a [DOMRect] that the library reads. *)
Record Rect := {
  rect_top : float;
  rect_bottom : float;
  rect_left : float;
  rect_width : float;
  rect_height : float }.

Record Boundaries := { b_start : float; b_end : float }.

Record StickyMargins := { marginBottom : string; marginTop : string }.

(** [new Sticky(element, options)]: the world holds the one element, so an
    instance is its settings. *)
Record Sticky := { settings : gmap string string }.

Inductive Side := StickToTop | StickToBottom.

(** The closure returned by [onScroll(sticky)]: which of [stickToTop] and
    [stickToBottom] it is, and the variables it captured. [sh_id] is the
    identity of the function object. *)
Record ScrollHandler := {
  sh_id : nat;
  sh_sticky : Sticky;
  sh_side : Side;
  sh_stickyMargins : StickyMargins;
  sh_distanceFromSide : float }.

(** The closure returned by [onResize(sticky)]. *)
Record ResizeHandler := { rh_id : nat; rh_sticky : Sticky }.

Record Handlers := { scroll : ScrollHandler; resize : ResizeHandler }.

(** The placeholder element: its inline style and whether it has a parent
    node (when it has one, it is the element's parent). *)
Record PlaceholderNode := {
  ph_nodeName : string;
  ph_style : gmap string string;
  ph_parentNode : bool }.

(** The object stored on the element under the library's namespace. *)
Record Data := {
  placeholder : PlaceholderNode;
  handlers : Handlers;
  position : string }.

Inductive Callback := ScrollCallback (h : ScrollHandler) | ResizeCallback (r : ResizeHandler).

Definition callback_id (c : Callback) : nat :=
  match c with ScrollCallback h => sh_id h | ResizeCallback r => rh_id r end.

(** Third argument of [addEventListener]: omitted, the boolean [false]
    (capture flag), or the [scrollOptions] object [{ passive: true }]. *)
Inductive ListenerOptions := Omitted | UseCapture (capture : bool) | PassiveOptions (passive : bool).

Record Listener := {
  l_type : string;
  l_callback : Callback;
  l_options : ListenerOptions }.

(** The part of the page the library reads and writes. *)
Record World := {
  el_nodeName : string;               (* element.nodeName *)
  el_style : gmap string string;      (* element.style *)
  el_classList : list string;         (* element.classList *)
  el_store : option Data;             (* element[namespace] *)
  el_dispatched : list string;        (* events dispatched on the element, oldest first *)
  pageYOffset : float;                (* window.pageYOffset *)
  innerHeight : float;                (* window.innerHeight *)
  page_rev : nat;                     (* the rest of the page: style sheets, content *)
  listeners : list Listener;          (* listeners registered on window *)
  passiveSupported : bool;            (* does the browser read [options.passive]? *)
  next_id : nat                       (* identity given to the next function object *)
}.

Definition set_el_style (f : gmap string string → gmap string string) (w : World) : World :=
  {| el_nodeName := el_nodeName w; el_style := f (el_style w);
     el_classList := el_classList w; el_store := el_store w;
     el_dispatched := el_dispatched w; pageYOffset := pageYOffset w;
     innerHeight := innerHeight w; page_rev := page_rev w;
     listeners := listeners w; passiveSupported := passiveSupported w;
     next_id := next_id w |}.

Definition set_el_classList (f : list string → list string) (w : World) : World :=
  {| el_nodeName := el_nodeName w; el_style := el_style w;
     el_classList := f (el_classList w); el_store := el_store w;
     el_dispatched := el_dispatched w; pageYOffset := pageYOffset w;
     innerHeight := innerHeight w; page_rev := page_rev w;
     listeners := listeners w; passiveSupported := passiveSupported w;
     next_id := next_id w |}.

Definition set_el_store (f : option Data → option Data) (w : World) : World :=
  {| el_nodeName := el_nodeName w; el_style := el_style w;
     el_classList := el_classList w; el_store := f (el_store w);
     el_dispatched := el_dispatched w; pageYOffset := pageYOffset w;
     innerHeight := innerHeight w; page_rev := page_rev w;
     listeners := listeners w; passiveSupported := passiveSupported w;
     next_id := next_id w |}.

Definition set_el_dispatched (f : list string → list string) (w : World) : World :=
  {| el_nodeName := el_nodeName w; el_style := el_style w;
     el_classList := el_classList w; el_store := el_store w;
     el_dispatched := f (el_dispatched w); pageYOffset := pageYOffset w;
     innerHeight := innerHeight w; page_rev := page_rev w;
     listeners := listeners w; passiveSupported := passiveSupported w;
     next_id := next_id w |}.

Definition set_listeners (f : list Listener → list Listener) (w : World) : World :=
  {| el_nodeName := el_nodeName w; el_style := el_style w;
     el_classList := el_classList w; el_store := el_store w;
     el_dispatched := el_dispatched w; pageYOffset := pageYOffset w;
     innerHeight := innerHeight w; page_rev := page_rev w;
     listeners := f (listeners w); passiveSupported := passiveSupported w;
     next_id := next_id w |}.

Definition set_next_id (f : nat → nat) (w : World) : World :=
  {| el_nodeName := el_nodeName w; el_style := el_style w;
     el_classList := el_classList w; el_store := el_store w;
     el_dispatched := el_dispatched w; pageYOffset := pageYOffset w;
     innerHeight := innerHeight w; page_rev := page_rev w;
     listeners := listeners w; passiveSupported := passiveSupported w;
     next_id := f (next_id w) |}.

(** What the user and the rest of the page change between two events: the
    scroll offset, the viewport height and the page itself. *)
Record Viewport := { vp_pageYOffset : float; vp_innerHeight : float; vp_rev : nat }.

Definition set_viewport (v : Viewport) (w : World) : World :=
  {| el_nodeName := el_nodeName w; el_style := el_style w;
     el_classList := el_classList w; el_store := el_store w;
     el_dispatched := el_dispatched w; pageYOffset := vp_pageYOffset v;
     innerHeight := vp_innerHeight v; page_rev := vp_rev v;
     listeners := listeners w; passiveSupported := passiveSupported w;
     next_id := next_id w |}.

(** ** Control: normal return or exception, over the world *)

Inductive Exception := Error (message : string) | TypeError.

Inductive Outcome (A : Type) :=
| Returns (a : A) (w : World)
| Throws (e : Exception) (w : World).
Arguments Returns {A} a w.
Arguments Throws {A} e w.

Definition Js (A : Type) : Type := World → Outcome A.

Definition ret {A} (a : A) : Js A := λ w, Returns a w.
Definition throw {A} (e : Exception) : Js A := λ w, Throws e w.
Definition bind {A B} (m : Js A) (k : A → Js B) : Js B :=
  λ w, match m w with
       | Returns a w' => k a w'
       | Throws e w' => Throws e w'
       end.
Definition gets {A} (f : World → A) : Js A := λ w, Returns (f w) w.
Definition modify (f : World → World) : Js unit := λ w, Returns tt (f w).

Declare Scope js_scope.
Delimit Scope js_scope with js.
Notation "x <- m ;; k" := (bind m (λ x, k))
  (at level 100, m at next level, right associativity) : js_scope.
Notation "m ;; k" := (bind m (λ _, k))
  (at level 100, right associativity) : js_scope.

Definition final_world {A} (o : Outcome A) : World :=
  match o with Returns _ w => w | Throws _ w => w end.

Definition returned {A} (o : Outcome A) : bool :=
  match o with Returns _ _ => true | Throws _ _ => false end.

(** ** helpers/store.js *)

Module Store.
(** [getData(object)]: the whole bag, [undefined] when there is none. *)
Definition getData (w : World) : option Data := el_store w.

(** [setData(object, value)]. *)
Definition setData (value : Data) : World → World := set_el_store (λ _, Some value).

(** [removeData(object)]. *)
Definition removeData : World → World := set_el_store (λ _, None).
End Store.

(** Reading a property of what [store.getData(element)] returned: a
    [TypeError] when the bag is [undefined]. *)
Definition theData : Js Data :=
  λ w, match Store.getData w with
       | Some data => Returns data w
       | None => Throws TypeError w
       end.

(** ** element.classList *)

(** The class list as the ordered set of its tokens; the tokens passed are
    taken to be valid class names. *)
Definition classList_add (c : string) (l : list string) : list string :=
  if decide (c ∈ l) then l else (l ++ [c])%list.

Definition classList_remove (c : string) (l : list string) : list string :=
  filter (λ x, x ≠ c) l.

(** ** Constants of audero-sticky.js *)

Definition defaults : gmap string string :=
  <["selector" := ".sticky"]> (<["activeClass" := "sticky--active"]> ∅).

Definition properties : list string :=
  ["width"; "height"; "left"; "marginLeft"; "marginRight"; "zIndex"].

(** [sticky.settings.activeClass]; a missing key reads [undefined], which
    [classList] turns into the token ["undefined"]. *)
Definition activeClass (sticky : Sticky) : string :=
  default "undefined" (settings sticky !! "activeClass").

Definition selector (sticky : Sticky) : string :=
  default "undefined" (settings sticky !! "selector").

(** [new Sticky(element, options)]: [Object.assign({}, defaults, options)].
    The target of the assignment is a new object and the options are only
    read. Option values are strings, as the [SettingsHash] typedef has them. *)
Definition Sticky_new (options : gmap string string) : Sticky :=
  {| settings := options ∪ defaults |}.

Inductive Node := TheElement | ThePlaceholder.

(** Updating the placeholder inside the data on the element. *)
Definition with_placeholder (f : PlaceholderNode → PlaceholderNode) (data : Data) : Data :=
  {| placeholder := f (placeholder data);
     handlers := handlers data;
     position := position data |}.

Definition set_placeholder (f : PlaceholderNode → PlaceholderNode) : World → World :=
  set_el_store (fmap (with_placeholder f)).

Definition set_ph_style (f : gmap string string → gmap string string)
    (p : PlaceholderNode) : PlaceholderNode :=
  {| ph_nodeName := ph_nodeName p; ph_style := f (ph_style p);
     ph_parentNode := ph_parentNode p |}.

Definition set_ph_parentNode (b : bool) (p : PlaceholderNode) : PlaceholderNode :=
  {| ph_nodeName := ph_nodeName p; ph_style := ph_style p; ph_parentNode := b |}.

(** References to the two style objects the library writes: writing through
    one updates that object in the world. *)
Definition StyleRef : Type := (gmap string string → gmap string string) → World → World.

Definition element_style : StyleRef := set_el_style.
Definition placeholder_style : StyleRef := λ f, set_placeholder (set_ph_style f).

(** ** helpers/style.js *)

Module Style.
(** Reading [style[property]]: the empty string when never set. *)
Definition getProperty (style : gmap string string) (property : string) : string :=
  default "" (style !! property).

(** [resetStyleProperties(style, properties)]. *)
Definition resetStyleProperties (style : StyleRef) (properties : list string)
    (w : World) : World :=
  foldl (λ w' property, style <[property := ""]> w') w properties.

(** [copyStyleProperties(style, blueprintStyle, properties)]. The blueprint
    may be a live object (a computed style), so it is read in the world of
    each assignment. Callers that leave [properties] out pass an object
    literal; its keys are given here. *)
Definition copyStyleProperties (style : StyleRef)
    (blueprintStyle : World → string → string) (properties : list string)
    (w : World) : World :=
  foldl (λ w' property, style <[property := blueprintStyle w' property]> w') w properties.
End Style.

(** ** The browser *)

(** What the library asks of the browser. Layout is a function of the whole
    world: it may depend on the scroll offset, the inline styles, the class
    list, the placeholder and the rest of the page. [parentRect w n] is
    [n.parentNode.getBoundingClientRect()]: the element is taken to be in the
    document, and the library measures the placeholder only while it is
    attached, so the parent node is there. [selectorIndexOf w sel] is
    [[].slice.call(document.querySelectorAll(sel)).indexOf(element)].
    [numberToString] is the conversion a template literal applies to a
    number, [toNumber] is [Number] on a string. *)
Class Browser := {
  parseFloat : string → float;
  numberToString : float → string;
  toNumber : string → float;
  getComputedStyle : World → Node → string → string;
  getBoundingClientRect : World → Node → Rect;
  parentRect : World → Node → Rect;
  selectorIndexOf : World → string → float }.

(** Modelled from the spec: [EventEmitter.fireEvent(event, element)] of
    [helpers/event-emitter.js], which is not among the sources. The spec has
    the events dispatched on the target element, bubbling and cancelable, with
    no payload, one per call; the world records the name passed by each call,
    in order. *)
Definition fireEvent (event : string) : World → World :=
  set_el_dispatched (λ log, (log ++ [event])%list).

(** [window.addEventListener]. Every callback the library registers is a
    function object created by the same [init], so the browser's check for an
    identical listener already registered never applies. *)
Definition addEventListener (type : string) (callback : Callback)
    (options : ListenerOptions) : World → World :=
  set_listeners (λ ls, (ls ++ [{| l_type := type; l_callback := callback; l_options := options |}])%list).

(** [window.removeEventListener]: the listener of that type with that
    function object goes. *)
Definition removeEventListener (type : string) (callback : Callback)
    (options : ListenerOptions) : World → World :=
  set_listeners (filter (λ l, ¬ (l_type l = type ∧ callback_id (l_callback l) = callback_id callback))).

(** [isPassiveEventListenerSupported()]: the probe registers a listener with
    an options object whose [passive] getter sets the flag. *)
Definition isPassiveEventListenerSupported (w : World) : bool := passiveSupported w.

Definition scrollOptions : ListenerOptions := PassiveOptions true.

Section Library.
Context `{Browser}.

Local Open Scope js_scope.

Definition getStickyMargins (sticky : Sticky) (w : World) : StickyMargins * World :=
  let w1 := set_el_classList (classList_add (activeClass sticky)) w in
  let stickyMargins :=
    {| marginBottom := getComputedStyle w1 TheElement "marginBottom";
       marginTop := getComputedStyle w1 TheElement "marginTop" |} in
  (stickyMargins, set_el_classList (classList_remove (activeClass sticky)) w1).

Definition getComputedZIndex (w : World) : option float * World :=
  let position := Style.getProperty (el_style w) "position" in
  let w1 := set_el_style <["position" := "relative"]> w in
  let zIndex := toNumber (getComputedStyle w1 TheElement "zIndex") in
  let w2 := set_el_style <["position" := position]> w1 in
  (if PrimFloat.is_nan zIndex then None else Some zIndex, w2).

Definition getZIndex (selector : string) (w : World) : float * World :=
  match getComputedZIndex w with
  | (Some zIndex, w') => (zIndex, w')
  | (None, w') => ((selectorIndexOf w' selector + 1)%float, w')
  end.

(** [`${value}px`]. *)
Definition px (value : float) : string := numberToString value +:+ "px".

(** [convertNumbersToPixels(rect)], read at one property. A property the
    rectangle does not have reads [undefined]. *)
Definition convertNumbersToPixels (propertiesHash : Rect) (property : string) : string :=
  if decide (property = "top") then px (rect_top propertiesHash)
  else if decide (property = "bottom") then px (rect_bottom propertiesHash)
  else if decide (property = "left") then px (rect_left propertiesHash)
  else if decide (property = "width") then px (rect_width propertiesHash)
  else if decide (property = "height") then px (rect_height propertiesHash)
  else "undefined".

(** [cleanUp(sticky)]. The bag is fetched first, but nothing is read from it
    before the styles are reset: without data the [TypeError] comes from
    [data.position], after the reset. *)
Definition cleanUp : Js unit :=
  modify (Style.resetStyleProperties element_style
            (properties ++ ["marginTop"; "marginBottom"; "top"; "bottom"])%list) ;;
  data <- theData ;;
  modify (set_el_style <["position" := position data]>) ;;
  if ph_parentNode (placeholder data)
  then modify (set_placeholder (set_ph_parentNode false))
  else ret tt.

(** [calculateBoundaries(element, stickyMargins)]: it only reads the layout.
    [element] is the sticky element, or the placeholder while it is
    attached. *)
Definition calculateBoundaries (element : Node) (stickyMargins : StickyMargins)
    (w : World) : Boundaries :=
  let elementStyle := getComputedStyle w element in
  let parentStyle := parentRect w element in
  let boundaries :=
    if decide (elementStyle "top" ≠ "auto") then
      {| b_start := rect_top (getBoundingClientRect w element) - parseFloat (elementStyle "top");
         b_end := rect_bottom parentStyle - orZero (parseFloat (marginBottom stickyMargins)) |}
    else
      {| b_start := rect_bottom (getBoundingClientRect w element) + parseFloat (elementStyle "bottom");
         b_end := rect_top parentStyle + orZero (parseFloat (marginTop stickyMargins)) |} in
  {| b_start := b_start boundaries + pageYOffset w;
     b_end := b_end boundaries + pageYOffset w |}.

Definition updatePlaceholderStyle : Js unit :=
  startPosition <- gets (λ w, getBoundingClientRect w TheElement) ;;
  _ <- theData ;;
  modify (Style.copyStyleProperties placeholder_style
            (λ w, getComputedStyle w TheElement)
            ["top"; "bottom"; "marginTop"; "marginBottom"; "marginLeft"; "marginRight"]) ;;
  modify (Style.copyStyleProperties placeholder_style
            (λ _, convertNumbersToPixels startPosition)
            ["width"; "height"; "left"]).

(** [onScroll(sticky)]: measures the sticky margins and the declared
    distance once, and returns [stickToTop] or [stickToBottom] closed over
    them. *)
Definition onScroll (sticky : Sticky) : Js ScrollHandler :=
  λ w,
    let '(stickyMargins, w1) := getStickyMargins sticky w in
    let elementStyle := getComputedStyle w1 TheElement in
    let distanceFromSide :=
      if decide (elementStyle "top" ≠ "auto")
      then parseFloat (elementStyle "top")
      else parseFloat (elementStyle "bottom") in
    Returns
      {| sh_id := next_id w1;
         sh_sticky := sticky;
         sh_side := if decide (elementStyle "top" ≠ "auto") then StickToTop else StickToBottom;
         sh_stickyMargins := stickyMargins;
         sh_distanceFromSide := distanceFromSide |}
      (set_next_id S w1).

Definition onResize (sticky : Sticky) : Js ResizeHandler :=
  λ w, Returns {| rh_id := next_id w; rh_sticky := sticky |} (set_next_id S w).

(** [data] and [store.getData(element)] are the same object: the style
    written by [updatePlaceholderStyle] is the one read afterwards. *)
Definition startSticky (sticky : Sticky) : Js unit :=
  updatePlaceholderStyle ;;
  data <- theData ;;
  position <- gets (λ w, Style.getProperty (el_style w) "position") ;;
  modify (Store.setData
            {| placeholder := placeholder data;
               handlers := handlers data;
               position := position |}) ;;
  modify (Style.copyStyleProperties element_style (λ _ _, "fixed") ["position"]) ;;
  modify (Style.copyStyleProperties element_style
            (λ _, Style.getProperty (ph_style (placeholder data))) properties) ;;
  modify (set_placeholder (set_ph_parentNode true)) ;;
  modify (fireEvent "stickystart") ;;
  modify (set_el_classList (classList_add (activeClass sticky))).

Definition endSticky (sticky : Sticky) : Js unit :=
  cleanUp ;;
  modify (fireEvent "stickyend") ;;
  modify (set_el_classList (classList_remove (activeClass sticky))).

Definition getBoundaries (stickyMargins : StickyMargins) (isSticking : bool)
  : Js Boundaries :=
  _ <- theData ;;
  gets (calculateBoundaries (if isSticking then ThePlaceholder else TheElement) stickyMargins).

Definition stickToTop (h : ScrollHandler) : Js unit :=
  data <- theData ;;
  let isAdded := ph_parentNode (placeholder data) in
  boundaries <- getBoundaries (sh_stickyMargins h) isAdded ;;
  height <- gets (λ w, orZero (parseFloat (getComputedStyle w TheElement "height"))) ;;
  y <- gets pageYOffset ;;
  let gap := (b_end boundaries - height - y)%float in
  let isInRange := ((b_start boundaries <=? y) && (y <=? b_end boundaries))%float in
  if isInRange then
    (if isAdded then ret tt else startSticky (sh_sticky h)) ;;
    modify (set_el_style
              <["top" := if (0 <=? gap - sh_distanceFromSide h)%float then "" else px gap]>)
  else if isAdded then endSticky (sh_sticky h)
  else ret tt.

Definition stickToBottom (h : ScrollHandler) : Js unit :=
  data <- theData ;;
  let isAdded := ph_parentNode (placeholder data) in
  boundaries <- getBoundaries (sh_stickyMargins h) isAdded ;;
  height <- gets (λ w, orZero (parseFloat (getComputedStyle w TheElement "height"))) ;;
  windowBottom <- gets (λ w, (pageYOffset w + innerHeight w)%float) ;;
  let gap := (b_end boundaries + height - windowBottom)%float in
  let isInRange :=
    ((windowBottom <=? b_start boundaries) && (b_end boundaries <=? windowBottom))%float in
  if isInRange then
    (if isAdded then ret tt else startSticky (sh_sticky h)) ;;
    modify (set_el_style
              <["bottom" := if (gap + sh_distanceFromSide h <=? 0)%float then "" else px (- gap)]>)
  else if isAdded then endSticky (sh_sticky h)
  else ret tt.

(** Calling the function [onScroll] returned. *)
Definition callScroll (h : ScrollHandler) : Js unit :=
  match sh_side h with
  | StickToTop => stickToTop h
  | StickToBottom => stickToBottom h
  end.

(** [store.getData(element, 'handlers')] followed by a property read. *)
Definition theHandlers : Js Handlers :=
  data <- theData ;; ret (handlers data).

Definition bindEvents : Js unit :=
  hs <- theHandlers ;;
  modify (addEventListener "load" (ScrollCallback (scroll hs)) Omitted) ;;
  passive <- gets isPassiveEventListenerSupported ;;
  modify (addEventListener "scroll" (ScrollCallback (scroll hs))
            (if passive then scrollOptions else UseCapture false)) ;;
  modify (addEventListener "resize" (ResizeCallback (resize hs)) Omitted).

Definition unbindEvents : Js unit :=
  hs <- theHandlers ;;
  modify (removeEventListener "load" (ScrollCallback (scroll hs)) Omitted) ;;
  passive <- gets isPassiveEventListenerSupported ;;
  modify (removeEventListener "scroll" (ScrollCallback (scroll hs))
            (if passive then scrollOptions else UseCapture false)) ;;
  modify (removeEventListener "resize" (ResizeCallback (resize hs)) Omitted).

(** [Sticky.prototype.init]. *)
Definition init (sticky : Sticky) : Js unit :=
  existing <- gets Store.getData ;;
  if existing is Some _ then throw (Error "This element has already been initialized") else
  nodeName <- gets el_nodeName ;;
  let placeholder := {| ph_nodeName := nodeName; ph_style := ∅; ph_parentNode := false |} in
  scrollHandler <- onScroll sticky ;;
  resizeHandler <- onResize sticky ;;
  position <- gets (λ w, Style.getProperty (el_style w) "position") ;;
  modify (Store.setData
            {| placeholder := placeholder;
               handlers := {| scroll := scrollHandler; resize := resizeHandler |};
               position := position |}) ;;
  zIndex <- (λ w, let '(z, w') := getZIndex (selector sticky) w in Returns z w') ;;
  modify (Style.copyStyleProperties placeholder_style
            (λ _ property,
               if decide (property = "visibility") then "hidden" else numberToString zIndex)
            ["visibility"; "zIndex"]) ;;
  updatePlaceholderStyle ;;
  bindEvents ;;
  hs <- theHandlers ;;
  callScroll (scroll hs).

(** [Sticky.prototype.destroy]. *)
Definition destroy (sticky : Sticky) : Js unit :=
  cleanUp ;;
  unbindEvents ;;
  modify Store.removeData.

(** Calling the function [onResize] returned. *)
Definition callResize (r : ResizeHandler) : Js unit :=
  destroy (rh_sticky r) ;;
  init (rh_sticky r) ;;
  hs <- theHandlers ;;
  callScroll (scroll hs).

Definition call (c : Callback) : Js unit :=
  match c with
  | ScrollCallback h => callScroll h
  | ResizeCallback r => callResize r
  end.

(** ** Events delivered by the browser *)

(** The browser calls the listeners registered for the event type when the
    event is dispatched, in registration order. An exception thrown by a
    listener is reported and does not stop the others. *)
Definition dispatchEvent (type : string) (w : World) : World :=
  foldl (λ w' l, if decide (l_type l = type) then final_world (call (l_callback l) w') else w')
        w (listeners w).

Inductive Event := Load (v : Viewport) | Scroll (v : Viewport) | Resize (v : Viewport).

Definition event_type (e : Event) : string :=
  match e with Load _ => "load" | Scroll _ => "scroll" | Resize _ => "resize" end.

Definition event_viewport (e : Event) : Viewport :=
  match e with Load v | Scroll v | Resize v => v end.

(** The page changes, then the event reaches the window. *)
Definition deliver (w : World) (e : Event) : World :=
  dispatchEvent (event_type e) (set_viewport (event_viewport e) w).

Definition deliver_all (w : World) (es : list Event) : World := foldl deliver w es.
End Library.

(** ** Objects passed by reference

    The options given to the constructor, the defaults and the settings are
    objects. A heap maps a reference to the own properties of the object it
    names; the properties hold strings, as the [SettingsHash] typedef has
    them. *)

Abbreviation Heap := (gmap nat (gmap string string)).








(** ** helpers/store.js on any object

    The [Store] class does not depend on what it stores or on which object.
    Here an object is the finite map of those of its own properties that
    hold stored values, and a stored value is an object with properties of
    its own, as the [Data] of the library is. Property names are taken not
    to be among those every object inherits from [Object.prototype]. *)

Module StoreClass.

(** [new Store(namespace)]. *)
Record Store := { namespace : string }.

(** What [getData] returns: [undefined], the whole stored value, or the
    value of one of its properties. *)
Inductive Read (V : Type) :=
| Undefined
| Whole (value : gmap string V)
| Property (v : V).
Arguments Undefined {V}.
Arguments Whole {V} value.
Arguments Property {V} v.

(** [getData(object, property)]; [property] is [None] when the argument is
    left out. A stored value is an object, so it is truthy; the property
    name is truthy unless it is left out or the empty string. *)
Definition getData {V} (store : Store) (object : gmap string (gmap string V))
    (property : option string) : Read V :=
  match object !! namespace store with
  | Some value =>
      if bool_decide (property ≠ None ∧ property ≠ Some "")
      then match value !! default "" property with
           | Some v => Property v
           | None => Undefined
           end
      else Whole value
  | None => Undefined
  end.

(** [setData(object, value)]: the empty object created when there is no
    data yet is replaced at once. *)
Definition setData {V} (store : Store) (object : gmap string (gmap string V))
    (value : gmap string V) : gmap string (gmap string V) :=
  let object := if object !! namespace store is None
                then <[namespace store := ∅]> object else object in
  <[namespace store := value]> object.

(** [removeData(object)]. *)
Definition removeData {V} (store : Store) (object : gmap string (gmap string V))
  : gmap string (gmap string V) :=
  delete (namespace store) object.

End StoreClass.

(** ** The earlier, single-file variant of the library *)

Module Legacy.

Definition namespace : string := "auderoSticky".

(** [getData(element, property)]. *)
Definition getData {V} (element : gmap string (gmap string V))
    (property : option string) : StoreClass.Read V :=
  match element !! namespace with
  | Some bag =>
      if bool_decide (property ≠ None ∧ property ≠ Some "")
      then match bag !! default "" property with
           | Some v => StoreClass.Property v
           | None => StoreClass.Undefined
           end
      else StoreClass.Whole bag
  | None => StoreClass.Undefined
  end.

(** [setData(element, property, value)]: [property] is a property name, or
    an object whose own key-value pairs are all set (then [value] is not
    read). *)
Definition setData {V} (element : gmap string (gmap string V))
    (property : string + gmap string V) (value : V) : gmap string (gmap string V) :=
  let element := if element !! namespace is None
                 then <[namespace := ∅]> element else element in
  let bag := default ∅ (element !! namespace) in
  match property with
  | inl name => <[namespace := <[name := value]> bag]> element
  | inr pairs =>
      <[namespace := map_fold (λ key v bag', <[key := v]> bag') bag pairs]> element
  end.

(** [removeData(element)]. *)
Definition removeData {V} (element : gmap string (gmap string V))
  : gmap string (gmap string V) :=
  delete namespace element.

(** [mergeSettings(settings)]; [None] is a call without argument. Values
    are strings, so a value is falsy when it is missing or empty. *)
Definition mergeSettings (settings : option (gmap string string)) : gmap string string :=
  let settings := default ∅ settings in
  map_fold
    (λ property value mergedObject,
       <[property := match settings !! property with
                     | Some v => if decide (v = "") then value else v
                     | None => value
                     end]> mergedObject)
    ∅ defaults.


(** [new Sticky(element, options)] of this variant. *)
Definition Sticky_new (options : option (gmap string string)) : Sticky :=
  {| settings := mergeSettings options |}.

(** *** Numbers *)

(** An integer of 32 bits as a number. *)
Definition int32_to_float (z : Z) : float :=
  if (z <? 0)%Z then (- PrimFloat.of_uint63 (Uint63.of_Z (- z)))%float
  else PrimFloat.of_uint63 (Uint63.of_Z z).

(** [~~x]: the operand of [~] is converted with [ToInt32] and two
    complements cancel. [NaN], the zeros and the infinities give [0]; a finite
    number is truncated towards zero, reduced modulo [2^32] and read as a
    signed integer of 32 bits. *)
Definition toInt32 (x : float) : float :=
  match Prim2SF x with
  | S754_finite s m e =>
      let magnitude :=
        if (0 <=? e)%Z then (Z.pos m * 2 ^ e)%Z else (Z.pos m / 2 ^ (- e))%Z in
      let int := if s then (- magnitude)%Z else magnitude in
      let int32bit := (int mod 2 ^ 32)%Z in
      int32_to_float (if (2 ^ 31 <=? int32bit)%Z then (int32bit - 2 ^ 32)%Z else int32bit)
  | _ => 0%float
  end.

(** *** The page *)

(** What the library stores under its namespace: the placeholder element
    under [placeholder], the two handlers under [handlers] and the saved
    inline position under [position]. *)
Inductive Value :=
| PlaceholderValue (p : PlaceholderNode)
| HandlersValue (hs : Handlers)
| StringValue (s : string).

(** The part of the page this variant reads and writes. The element's class
    attribute is the string [className]; [el_properties] are the element's
    own properties that hold stored data. *)
Record World := {
  el_nodeName : string;               (* element.nodeName *)
  el_style : gmap string string;      (* element.style *)
  el_className : string;              (* element.className *)
  el_properties : gmap string (gmap string Value);   (* element[namespace] *)
  el_dispatched : list string;        (* events dispatched on the element, oldest first *)
  pageYOffset : float;                (* window.pageYOffset *)
  innerHeight : float;                (* window.innerHeight *)
  page_rev : nat;                     (* the rest of the page: style sheets, content *)
  listeners : list Listener;          (* listeners registered on window *)
  next_id : nat                       (* identity given to the next function object *)
}.

Definition set_el_style (f : gmap string string → gmap string string) (w : World) : World :=
  {| el_nodeName := el_nodeName w; el_style := f (el_style w);
     el_className := el_className w; el_properties := el_properties w;
     el_dispatched := el_dispatched w; pageYOffset := pageYOffset w;
     innerHeight := innerHeight w; page_rev := page_rev w;
     listeners := listeners w; next_id := next_id w |}.

Definition set_el_className (f : string → string) (w : World) : World :=
  {| el_nodeName := el_nodeName w; el_style := el_style w;
     el_className := f (el_className w); el_properties := el_properties w;
     el_dispatched := el_dispatched w; pageYOffset := pageYOffset w;
     innerHeight := innerHeight w; page_rev := page_rev w;
     listeners := listeners w; next_id := next_id w |}.

Definition set_el_properties
    (f : gmap string (gmap string Value) → gmap string (gmap string Value))
    (w : World) : World :=
  {| el_nodeName := el_nodeName w; el_style := el_style w;
     el_className := el_className w; el_properties := f (el_properties w);
     el_dispatched := el_dispatched w; pageYOffset := pageYOffset w;
     innerHeight := innerHeight w; page_rev := page_rev w;
     listeners := listeners w; next_id := next_id w |}.

Definition set_el_dispatched (f : list string → list string) (w : World) : World :=
  {| el_nodeName := el_nodeName w; el_style := el_style w;
     el_className := el_className w; el_properties := el_properties w;
     el_dispatched := f (el_dispatched w); pageYOffset := pageYOffset w;
     innerHeight := innerHeight w; page_rev := page_rev w;
     listeners := listeners w; next_id := next_id w |}.

Definition set_listeners (f : list Listener → list Listener) (w : World) : World :=
  {| el_nodeName := el_nodeName w; el_style := el_style w;
     el_className := el_className w; el_properties := el_properties w;
     el_dispatched := el_dispatched w; pageYOffset := pageYOffset w;
     innerHeight := innerHeight w; page_rev := page_rev w;
     listeners := f (listeners w); next_id := next_id w |}.

Definition set_next_id (f : nat → nat) (w : World) : World :=
  {| el_nodeName := el_nodeName w; el_style := el_style w;
     el_className := el_className w; el_properties := el_properties w;
     el_dispatched := el_dispatched w; pageYOffset := pageYOffset w;
     innerHeight := innerHeight w; page_rev := page_rev w;
     listeners := listeners w; next_id := f (next_id w) |}.

(** *** Control *)

Inductive Outcome (A : Type) :=
| Returns (a : A) (w : World)
| Throws (e : Exception) (w : World).
Arguments Returns {A} a w.
Arguments Throws {A} e w.

Definition Js (A : Type) : Type := World → Outcome A.

Definition ret {A} (a : A) : Js A := λ w, Returns a w.
Definition throw {A} (e : Exception) : Js A := λ w, Throws e w.
Definition bind {A B} (m : Js A) (k : A → Js B) : Js B :=
  λ w, match m w with
       | Returns a w' => k a w'
       | Throws e w' => Throws e w'
       end.
Definition gets {A} (f : World → A) : Js A := λ w, Returns (f w) w.
Definition modify (f : World → World) : Js unit := λ w, Returns tt (f w).

Declare Scope legacy_scope.
Delimit Scope legacy_scope with legacy.
Notation "x <- m ;; k" := (bind m (λ x, k))
  (at level 100, m at next level, right associativity) : legacy_scope.
Notation "m ;; k" := (bind m (λ _, k))
  (at level 100, right associativity) : legacy_scope.

Definition final_world {A} (o : Outcome A) : World :=
  match o with Returns _ w => w | Throws _ w => w end.

Definition returned {A} (o : Outcome A) : bool :=
  match o with Returns _ _ => true | Throws _ _ => false end.

(** *** The stored data as the library reads it *)

(** [getData(element)] used as an object: a [TypeError] when it is
    [undefined]. The object is the one on the element: the handlers keep the
    object they found when [onScroll] built them, and [destroy] unbinds them
    before it removes that object, so they run while it is the element's. *)
Definition theData : Js (gmap string Value) :=
  λ w, match getData (el_properties w) None with
       | StoreClass.Whole data => Returns data w
       | _ => Throws TypeError w
       end.

(** [data.placeholder] and [data.position] as the library stored them. *)
Definition placeholderOf (data : gmap string Value) : option PlaceholderNode :=
  match data !! "placeholder" with
  | Some (PlaceholderValue p) => Some p
  | _ => None
  end.

Definition positionOf (data : gmap string Value) : option string :=
  match data !! "position" with
  | Some (StringValue s) => Some s
  | _ => None
  end.

(** [getData(element, 'placeholder')] and [getData(element, 'handlers')]
    followed by a property read. *)
Definition thePlaceholder : Js PlaceholderNode :=
  λ w, match getData (el_properties w) (Some "placeholder") with
       | StoreClass.Property (PlaceholderValue p) => Returns p w
       | _ => Throws TypeError w
       end.

Definition theHandlers : Js Handlers :=
  λ w, match getData (el_properties w) (Some "handlers") with
       | StoreClass.Property (HandlersValue hs) => Returns hs w
       | _ => Throws TypeError w
       end.

(** Updating the placeholder element held in the data. *)
Definition set_placeholder (f : PlaceholderNode → PlaceholderNode) : World → World :=
  set_el_properties
    (λ element,
       match element !! namespace with
       | Some data =>
           match placeholderOf data with
           | Some p => <[namespace := <["placeholder" := PlaceholderValue (f p)]> data]> element
           | None => element
           end
       | None => element
       end).

Definition StyleRef : Type := (gmap string string → gmap string string) → World → World.

Definition element_style : StyleRef := set_el_style.
Definition placeholder_style : StyleRef := λ f, set_placeholder (set_ph_style f).

(** *** The browser and the language *)

(** As [Browser] above, on the page of this variant, with what the class
    helpers ask of the language: [regExpTest source s] is
    [new RegExp(source).test(s)], [regExpReplace source s by] is
    [s.replace(new RegExp(source), by)] and [trim s] is [s.trim()]. The
    class names passed are taken to be plain names, so that the patterns
    built from them are regular expressions. *)
Class Browser := {
  parseFloat : string → float;
  numberToString : float → string;
  getComputedStyle : World → Node → string → string;
  getBoundingClientRect : World → Node → Rect;
  parentRect : World → Node → Rect;
  selectorIndexOf : World → string → float;
  regExpTest : string → string → bool;
  regExpReplace : string → string → string → string;
  trim : string → string }.

(** [triggerEvent(element, event)]: an [Event] of that name, bubbling and
    cancelable, is dispatched on the element; the library passes no event
    properties. The world records the name. *)
Definition triggerEvent (event : string) : World → World :=
  set_el_dispatched (λ log, (log ++ [event])%list).

(** [window.addEventListener(type, callback)] and
    [window.removeEventListener(type, callback)]. *)
Definition addEventListener (type : string) (callback : Callback) : World → World :=
  set_listeners (λ ls, (ls ++ [{| l_type := type; l_callback := callback;
                                  l_options := Omitted |}])%list).

Definition removeEventListener (type : string) (callback : Callback) : World → World :=
  set_listeners (filter (λ l, ¬ (l_type l = type ∧ callback_id (l_callback l) = callback_id callback))).

(** [resetStyleProperties(style, properties)]. *)
Definition resetStyleProperties (style : StyleRef) (properties : list string)
    (w : World) : World :=
  foldl (λ w' property, style <[property := ""]> w') w properties.

(** [copyStyleProperties(style, blueprintStyle, properties)]; a caller that
    leaves [properties] out passes an object literal, whose keys are given
    here. *)
Definition copyStyleProperties (style : StyleRef)
    (blueprintStyle : World → string → string) (properties : list string)
    (w : World) : World :=
  foldl (λ w' property, style <[property := blueprintStyle w' property]> w') w properties.

Section Library.
Context `{Browser}.

Local Open Scope legacy_scope.

(** [addClass(element, className)]. *)
Definition addClass (className : string) (w : World) : World :=
  let regex := "\b" +:+ className +:+ "\b" in
  if regExpTest regex (el_className w) then w
  else set_el_className (λ current, current +:+ " " +:+ className) w.

(** [removeClass(element, className)]. *)
Definition removeClass (className : string) (w : World) : World :=
  let regex := "\b" +:+ className +:+ "\b" in
  set_el_className (λ current, trim (regExpReplace regex current "")) w.

Definition getStickyMargins (sticky : Sticky) (w : World) : StickyMargins * World :=
  let w1 := addClass (activeClass sticky) w in
  let stickyMargins :=
    {| marginBottom := getComputedStyle w1 TheElement "marginBottom";
       marginTop := getComputedStyle w1 TheElement "marginTop" |} in
  (stickyMargins, removeClass (activeClass sticky) w1).

(** [getZIndex(element, selector)]. *)
Definition getZIndex (selector : string) (w : World) : float :=
  (selectorIndexOf w selector + 1)%float.

(** [value + 'px']. *)
Definition px (value : float) : string := numberToString value +:+ "px".

(** [convertNumbersToPixels(rect)], read at one property. *)
Definition convertNumbersToPixels (propertiesHash : Rect) (property : string) : string :=
  if decide (property = "top") then px (rect_top propertiesHash)
  else if decide (property = "bottom") then px (rect_bottom propertiesHash)
  else if decide (property = "left") then px (rect_left propertiesHash)
  else if decide (property = "width") then px (rect_width propertiesHash)
  else if decide (property = "height") then px (rect_height propertiesHash)
  else "undefined".

(** [element.style.position = data.position]. The saved position is a value
    the style object gave, so it is stored as it is; [undefined] is no value
    of [position] and the style object ignores the assignment. *)
Definition restorePosition (saved : option string) : World → World :=
  match saved with
  | Some position => set_el_style <["position" := position]>
  | None => id
  end.

(** [cleanUp(sticky)]: top and bottom are not among the properties it
    resets. Without data the [TypeError] comes from [data.position], after
    the reset. *)
Definition cleanUp : Js unit :=
  modify (resetStyleProperties element_style
            (properties ++ ["marginTop"; "marginBottom"])%list) ;;
  data <- theData ;;
  modify (restorePosition (positionOf data)) ;;
  match placeholderOf data with
  | Some p => if ph_parentNode p
              then modify (set_placeholder (set_ph_parentNode false))
              else ret tt
  | None => ret tt
  end.

(** [calculateBoundaries(element, stickyMargins)]. *)
Definition calculateBoundaries (element : Node) (stickyMargins : StickyMargins)
    (w : World) : Boundaries :=
  let elementStyle := getComputedStyle w element in
  let parentStyle := parentRect w element in
  let boundaries :=
    if decide (elementStyle "top" ≠ "auto") then
      {| b_start := rect_top (getBoundingClientRect w element) - parseFloat (elementStyle "top");
         b_end := rect_bottom parentStyle - toInt32 (parseFloat (marginBottom stickyMargins)) |}
    else
      {| b_start := rect_bottom (getBoundingClientRect w element) + parseFloat (elementStyle "bottom");
         b_end := rect_top parentStyle + toInt32 (parseFloat (marginTop stickyMargins)) |} in
  {| b_start := b_start boundaries + pageYOffset w;
     b_end := b_end boundaries + pageYOffset w |}.

Definition updatePlaceholderStyle : Js unit :=
  startPosition <- gets (λ w, getBoundingClientRect w TheElement) ;;
  _ <- thePlaceholder ;;
  modify (copyStyleProperties placeholder_style
            (λ w, getComputedStyle w TheElement)
            ["top"; "bottom"; "marginTop"; "marginBottom"; "marginLeft"; "marginRight"]) ;;
  modify (copyStyleProperties placeholder_style
            (λ _, convertNumbersToPixels startPosition)
            ["width"; "height"; "left"]).

(** [onScroll(sticky)]. The boundaries it calculates first are assigned
    again by the handlers before they are read, and calculating them only
    reads the layout. *)
Definition onScroll (sticky : Sticky) : Js ScrollHandler :=
  λ w,
    let '(stickyMargins, w1) := getStickyMargins sticky w in
    let elementStyle := getComputedStyle w1 TheElement in
    let distanceFromSide :=
      if decide (elementStyle "top" ≠ "auto")
      then parseFloat (elementStyle "top")
      else parseFloat (elementStyle "bottom") in
    Returns
      {| sh_id := next_id w1;
         sh_sticky := sticky;
         sh_side := if decide (elementStyle "top" ≠ "auto") then StickToTop else StickToBottom;
         sh_stickyMargins := stickyMargins;
         sh_distanceFromSide := distanceFromSide |}
      (set_next_id S w1).

Definition onResize (sticky : Sticky) : Js ResizeHandler :=
  λ w, Returns {| rh_id := next_id w; rh_sticky := sticky |} (set_next_id S w).

Definition startSticky (sticky : Sticky) : Js unit :=
  updatePlaceholderStyle ;;
  position <- gets (λ w, Style.getProperty (el_style w) "position") ;;
  modify (set_el_properties (λ element, setData element (inl "position") (StringValue position))) ;;
  modify (copyStyleProperties element_style (λ _ _, "fixed") ["position"]) ;;
  data <- theData ;;
  match placeholderOf data with
  | None => throw TypeError
  | Some p =>
      modify (copyStyleProperties element_style (λ _, Style.getProperty (ph_style p)) properties) ;;
      modify (set_placeholder (set_ph_parentNode true)) ;;
      modify (triggerEvent "stickystart") ;;
      modify (addClass (activeClass sticky))
  end.

Definition endSticky (sticky : Sticky) : Js unit :=
  cleanUp ;;
  modify (triggerEvent "stickyend") ;;
  modify (removeClass (activeClass sticky)).

(** [data.placeholder.parentNode] at the start of a handler. *)
Definition isAdded : Js bool :=
  data <- theData ;;
  match placeholderOf data with
  | Some p => ret (ph_parentNode p)
  | None => throw TypeError
  end.

Definition stickToTop (h : ScrollHandler) : Js unit :=
  isAdded <- isAdded ;;
  boundaries <- gets (calculateBoundaries (if isAdded then ThePlaceholder else TheElement)
                        (sh_stickyMargins h)) ;;
  height <- gets (λ w, toInt32 (parseFloat (getComputedStyle w TheElement "height"))) ;;
  y <- gets pageYOffset ;;
  let gap := (b_end boundaries - height - y)%float in
  let isInRange := ((b_start boundaries <=? y) && (y <=? b_end boundaries))%float in
  if isInRange then
    (if isAdded then ret tt else startSticky (sh_sticky h)) ;;
    modify (set_el_style
              <["top" := if (0 <=? gap - sh_distanceFromSide h)%float then "" else px gap]>)
  else if isAdded then endSticky (sh_sticky h)
  else ret tt.

Definition stickToBottom (h : ScrollHandler) : Js unit :=
  isAdded <- isAdded ;;
  boundaries <- gets (calculateBoundaries (if isAdded then ThePlaceholder else TheElement)
                        (sh_stickyMargins h)) ;;
  height <- gets (λ w, toInt32 (parseFloat (getComputedStyle w TheElement "height"))) ;;
  windowBottom <- gets (λ w, (pageYOffset w + innerHeight w)%float) ;;
  let gap := (b_end boundaries + height - windowBottom)%float in
  let isInRange :=
    ((windowBottom <=? b_start boundaries) && (b_end boundaries <=? windowBottom))%float in
  if isInRange then
    (if isAdded then ret tt else startSticky (sh_sticky h)) ;;
    modify (set_el_style
              <["bottom" := if (gap + sh_distanceFromSide h <=? 0)%float then "" else px (- gap)]>)
  else if isAdded then endSticky (sh_sticky h)
  else ret tt.

(** Calling the function [onScroll] returned. *)
Definition callScroll (h : ScrollHandler) : Js unit :=
  match sh_side h with
  | StickToTop => stickToTop h
  | StickToBottom => stickToBottom h
  end.

Definition bindEvents : Js unit :=
  hs <- theHandlers ;;
  modify (addEventListener "load" (ScrollCallback (scroll hs))) ;;
  modify (addEventListener "scroll" (ScrollCallback (scroll hs))) ;;
  modify (addEventListener "resize" (ResizeCallback (resize hs))).

Definition unbindEvents : Js unit :=
  hs <- theHandlers ;;
  modify (removeEventListener "load" (ScrollCallback (scroll hs))) ;;
  modify (removeEventListener "scroll" (ScrollCallback (scroll hs))) ;;
  modify (removeEventListener "resize" (ResizeCallback (resize hs))).

(** [Sticky.prototype.init]. It does not call the scroll handler. *)
Definition init (sticky : Sticky) : Js unit :=
  existing <- gets (λ w, getData (el_properties w) None) ;;
  if existing is StoreClass.Whole _ then throw (Error "This element has already been initialized") else
  nodeName <- gets el_nodeName ;;
  let placeholder := {| ph_nodeName := nodeName; ph_style := ∅; ph_parentNode := false |} in
  modify (set_el_properties
            (λ element, setData element (inl "placeholder") (PlaceholderValue placeholder))) ;;
  scrollHandler <- onScroll sticky ;;
  resizeHandler <- onResize sticky ;;
  modify (set_el_properties
            (λ element,
               setData element (inl "handlers")
                 (HandlersValue {| scroll := scrollHandler; resize := resizeHandler |}))) ;;
  zIndex <- gets (getZIndex (selector sticky)) ;;
  modify (copyStyleProperties placeholder_style
            (λ _ property,
               if decide (property = "visibility") then "hidden" else numberToString zIndex)
            ["visibility"; "zIndex"]) ;;
  updatePlaceholderStyle ;;
  bindEvents.

(** [Sticky.prototype.destroy]. *)
Definition destroy (sticky : Sticky) : Js unit :=
  cleanUp ;;
  unbindEvents ;;
  modify (set_el_properties removeData).

(** Calling the function [onResize] returned. *)
Definition callResize (r : ResizeHandler) : Js unit :=
  destroy (rh_sticky r) ;;
  init (rh_sticky r) ;;
  hs <- theHandlers ;;
  callScroll (scroll hs).
End Library.

(** The listeners [bindEvents] registers for a pair of handlers. *)
Definition bound (hs : Handlers) : list Listener :=
  [ {| l_type := "load"; l_callback := ScrollCallback (scroll hs); l_options := Omitted |};
    {| l_type := "scroll"; l_callback := ScrollCallback (scroll hs); l_options := Omitted |};
    {| l_type := "resize"; l_callback := ResizeCallback (resize hs); l_options := Omitted |} ].

(** The eight style properties [cleanUp] resets. *)
Definition touched : list string :=
  ["width"; "height"; "left"; "marginLeft"; "marginRight"; "zIndex";
   "marginTop"; "marginBottom"].

(** The data stored on the element, if any. *)
Definition dataOf (w : World) : option (gmap string Value) :=
  el_properties w !! namespace.

(** The page with [data] stored on the element. *)
Definition withData (data : gmap string Value) : World → World :=
  set_el_properties <[namespace := data]>.

(** [!!data.placeholder.parentNode], false when there is no placeholder. *)
Definition attached (w : World) : bool :=
  match el_properties w !! namespace with
  | Some data =>
      match placeholderOf data with
      | Some p => ph_parentNode p
      | None => false
      end
  | None => false
  end.

End Legacy.

(** ** A concrete browser for examples

    Enough of a browser to run the library on a page: decimal
    [parseFloat]/[Number], [String] of a number on the numbers whose decimal
    expansion is finite and short, and a layout with one parent box and one
    sticky element in it. *)

Module Demo.

Definition digit (c : Ascii.ascii) : option Z :=
  let n := Z.of_N (Ascii.N_of_ascii c) in
  if ((48 <=? n) && (n <=? 57))%Z then Some (n - 48)%Z else None.

(** The longest run of decimal digits at the head of [s], appended to [acc]:
    the number read, how many digits, and what follows. *)
Fixpoint digits (s : string) (acc : Z) (n : nat) : Z * nat * string :=
  match s with
  | String c s' =>
      match digit c with
      | Some d => digits s' (10 * acc + d)%Z (S n)
      | None => (acc, n, s)
      end
  | EmptyString => (acc, n, s)
  end.

Fixpoint skipSpaces (s : string) : string :=
  match s with
  | String " "%char s' => skipSpaces s'
  | _ => s
  end.

Definition float_of_Z (z : Z) : float := PrimFloat.of_uint63 (Uint63.of_Z z).

(** An optionally signed decimal literal with an optional fraction, and the
    rest of the string. Both the digits read as one integer and the power of
    ten are exact doubles on the literals used here, and the division rounds
    once, as the conversion of the literal does. *)
Definition parseDecimal (s : string) : option (float * string) :=
  let '(negative, s1) :=
    match s with
    | String "-"%char r => (true, r)
    | String "+"%char r => (false, r)
    | _ => (false, s)
    end in
  let '(i, ni, s2) := digits s1 0 0 in
  let '(f, nf, s3) :=
    match s2 with
    | String "."%char r => digits r i 0
    | _ => (i, 0, s2)
    end in
  if (ni + nf =? 0)%nat then None
  else
    let v := (float_of_Z f / float_of_Z (10 ^ Z.of_nat nf))%float in
    Some (if negative then (- v)%float else v, s3).

Definition parse_float (s : string) : float :=
  match parseDecimal (skipSpaces s) with
  | Some (v, _) => v
  | None => nan
  end.

Definition to_number (s : string) : float :=
  match parseDecimal s with
  | Some (v, "") => v
  | _ => if decide (s = "") then 0%float else nan
  end.

(** The decimal digits of [r / d] after the point, for [0 <= r < d]. *)
Fixpoint fraction (fuel : nat) (r d : Z) : string :=
  match fuel with
  | O => ""
  | S fuel' =>
      if (r =? 0)%Z then ""
      else pretty (10 * r / d)%Z +:+ fraction fuel' ((10 * r) mod d)%Z d
  end.

Definition number_to_string (x : float) : string :=
  match Prim2SF x with
  | S754_zero _ => "0"
  | S754_infinity false => "Infinity"
  | S754_infinity true => "-Infinity"
  | S754_nan => "NaN"
  | S754_finite s m e =>
      let sign := if s then "-" else "" in
      if (0 <=? e)%Z then sign +:+ pretty (Z.pos m * 2 ^ e)%Z
      else
        let d := (2 ^ (- e))%Z in
        let r := (Z.pos m mod d)%Z in
        sign +:+ pretty (Z.pos m / d)%Z +:+
        (if (r =? 0)%Z then "" else "." +:+ fraction (Z.to_nat (- e)) r d)
  end.

(** A page: the computed style the style sheets give the element (it may
    change with the page), and the boxes of the parent and of the element in
    its natural position, in document coordinates. *)
Record Page := {
  sheet : nat → string → string;
  parentTop : float;
  parentBottom : float;
  elementTop : float;
  elementHeight : float;
  elementLeft : float;
  elementWidth : float }.

(** The placeholder has no style sheet rule: its computed style is its
    inline style, [auto] for an offset left unset. *)
Definition placeholderComputed (w : World) (property : string) : string :=
  match el_store w with
  | Some data =>
      match ph_style (placeholder data) !! property with
      | Some v => v
      | None => if decide (property = "top" ∨ property = "bottom") then "auto" else ""
      end
  | None => ""
  end.

(** Rectangles are relative to the viewport. Both nodes are given the
    element's natural box: the library measures the element only while it is
    in the flow, and the placeholder takes its place otherwise. *)
Definition naturalRect (p : Page) (w : World) : Rect :=
  {| rect_top := (elementTop p - pageYOffset w)%float;
     rect_bottom := (elementTop p + elementHeight p - pageYOffset w)%float;
     rect_left := elementLeft p;
     rect_width := elementWidth p;
     rect_height := elementHeight p |}.

Definition parentBox (p : Page) (w : World) : Rect :=
  {| rect_top := (parentTop p - pageYOffset w)%float;
     rect_bottom := (parentBottom p - pageYOffset w)%float;
     rect_left := 0%float;
     rect_width := 800%float;
     rect_height := (parentBottom p - parentTop p)%float |}.

Definition browser (p : Page) : Browser :=
  {| parseFloat := parse_float;
     numberToString := number_to_string;
     toNumber := to_number;
     getComputedStyle := λ w node property,
       match node with
       | TheElement => sheet p (page_rev w) property
       | ThePlaceholder => placeholderComputed w property
       end;
     getBoundingClientRect := λ w _, naturalRect p w;
     parentRect := λ w _, parentBox p w;
     selectorIndexOf := λ _ _, 0%float |}.

Fixpoint lookupSheet (rules : list (string * string)) (property : string) : string :=
  match rules with
  | [] => ""
  | (name, value) :: rules' =>
      if decide (name = property) then value else lookupSheet rules' property
  end.

(** [.sticky { top: 0 }] on an element 50px high, 200px below the top of a
    parent 1000px high that starts 100px down the document. *)
Definition topPage : Page :=
  {| sheet := λ _, lookupSheet
       [("top", "0px"); ("bottom", "auto"); ("height", "50px"); ("zIndex", "auto");
        ("marginTop", "0px"); ("marginBottom", "0px");
        ("marginLeft", "0px"); ("marginRight", "0px")];
     parentTop := 100; parentBottom := 1100;
     elementTop := 300; elementHeight := 50;
     elementLeft := 8; elementWidth := 400 |}.

(** [.sticky { bottom: 0 }] on an element 50px high whose natural place is
    near the end of the same parent. *)
Definition bottomPage : Page :=
  {| sheet := λ _, lookupSheet
       [("top", "auto"); ("bottom", "0px"); ("height", "50px"); ("zIndex", "auto");
        ("marginTop", "0px"); ("marginBottom", "0px");
        ("marginLeft", "0px"); ("marginRight", "0px")];
     parentTop := 100; parentBottom := 1100;
     elementTop := 1000; elementHeight := 50;
     elementLeft := 8; elementWidth := 400 |}.

(** The same page when its style sheet is applied late: at revision 0 no
    rule is in force yet and both offsets compute to [auto]. *)
Definition latePage : Page :=
  {| sheet := λ rev,
       match rev with
       | O => lookupSheet
           [("top", "auto"); ("bottom", "auto"); ("height", "50px"); ("zIndex", "auto");
            ("marginTop", "0px"); ("marginBottom", "0px");
            ("marginLeft", "0px"); ("marginRight", "0px")]
       | S _ => sheet bottomPage rev
       end;
     parentTop := 100; parentBottom := 1100;
     elementTop := 1000; elementHeight := 50;
     elementLeft := 8; elementWidth := 400 |}.

(** A page with no library state yet, scrolled to the top. *)
Definition freshWorld : World :=
  {| el_nodeName := "DIV";
     el_style := ∅;
     el_classList := ["sticky"];
     el_store := None;
     el_dispatched := [];
     pageYOffset := 0;
     innerHeight := 600;
     page_rev := 0;
     listeners := [];
     passiveSupported := true;
     next_id := 0 |}.

Definition at_offset (y : float) : Viewport :=
  {| vp_pageYOffset := y; vp_innerHeight := 600; vp_rev := 0 |}.

(** The same page when the element already carries an inline width. *)
Definition styledWorld : World := set_el_style <["width" := "100px"]> freshWorld.

(** The page after [new Sticky(element).init()]. *)
Definition started (p : Page) : World :=
  final_world (@init (browser p) (Sticky_new ∅) freshWorld).

Abbreviation sticky := (Sticky_new ∅).

(** The top page after [init], scrolled to 400 (in range, sticking) and then
    to 1080 (still in range, the end of the parent pushing it 30px up). *)
Definition topAt400 : World :=
  @deliver_all (browser topPage) (started topPage) [Scroll (at_offset 400)].

Definition topAt1080 : World := set_viewport (at_offset 1080) topAt400.

(** The scroll handlers [init] stores on the top and on the bottom page. *)
Definition topHandler : ScrollHandler :=
  {| sh_id := 0; sh_sticky := sticky; sh_side := StickToTop;
     sh_stickyMargins := {| marginBottom := "0px"; marginTop := "0px" |};
     sh_distanceFromSide := 0 |}.

Definition bottomHandler : ScrollHandler :=
  {| sh_id := 0; sh_sticky := sticky; sh_side := StickToBottom;
     sh_stickyMargins := {| marginBottom := "0px"; marginTop := "0px" |};
     sh_distanceFromSide := 0 |}.

(** The late page: the style sheet applies (revision 1) before [load]. *)
Definition loaded : Viewport := {| vp_pageYOffset := 0; vp_innerHeight := 600; vp_rev := 1 |}.

(** The first tick after [init], into the range, and a later one out of it. *)
Definition tickInto : World :=
  @deliver (browser topPage) (@deliver_all (browser topPage) (started topPage) [])
    (Scroll (at_offset 400)).

Definition tickOut : World :=
  @deliver (browser topPage) topAt400 (Scroll (at_offset 1200)).

(** A scroll listener of some other script on the page. *)
Definition foreignListener : Listener :=
  {| l_type := "scroll";
     l_callback := ScrollCallback
       {| sh_id := 7; sh_sticky := sticky; sh_side := StickToTop;
          sh_stickyMargins := {| marginBottom := "0px"; marginTop := "0px" |};
          sh_distanceFromSide := 0 |};
     l_options := Omitted |}.

(** The top page with the data [init] stores, when only the other script
    listens on the window. *)
Definition beforeBind : World := set_listeners (λ _, [foreignListener]) (started topPage).

(** The top page scrolled to 400, then resized at the same offset. *)
Definition resizedAt400 : World :=
  @deliver (browser topPage)
    (@deliver_all (browser topPage) (final_world (@init (browser topPage) sticky freshWorld))
       [Scroll (at_offset 400)])
    (Resize (at_offset 400)).

(** The top page scrolled to 400 and resized there, as one run of events. *)
Definition scrolledResized : World :=
  @deliver_all (browser topPage) (final_world (@init (browser topPage) sticky freshWorld))
    [Scroll (at_offset 400); Resize (at_offset 400)].

(** *** The same pages for the earlier variant *)

(** A word character of a regular expression: a letter, a digit or [_]. *)
Definition wordChar (c : Ascii.ascii) : bool :=
  let n := Ascii.nat_of_ascii c in
  ((48 <=? n) && (n <=? 57) || (65 <=? n) && (n <=? 90)
   || (97 <=? n) && (n <=? 122) || (n =? 95))%nat.

(** Is the end of [before] (read backwards) followed by the start of
    [after] a word boundary? *)
Definition boundary (before : option Ascii.ascii) (after : string) : bool :=
  let left := from_option wordChar false before in
  let right := match after with String c _ => wordChar c | EmptyString => false end in
  negb (eqb left right).

Fixpoint dropPrefix (p s : string) : option string :=
  match p, s with
  | EmptyString, _ => Some s
  | String a p', String b s' => if Ascii.eqb a b then dropPrefix p' s' else None
  | String _ _, EmptyString => None
  end.

Definition lastChar (s : string) : option Ascii.ascii :=
  match String.get (String.length s - 1) s with
  | Some c => if (String.length s =? 0)%nat then None else Some c
  | None => None
  end.

(** The leftmost place where [name] stands in [s] between two word
    boundaries: what precedes it and what follows it. [before] is the last
    character already passed. *)
Fixpoint findWord (name s : string) (passed : string) : option (string * string) :=
  let here :=
    match dropPrefix name s with
    | Some rest =>
        if boundary (lastChar passed) s && boundary (lastChar name) rest
        then Some (passed, rest) else None
    | None => None
    end in
  match here with
  | Some found => Some found
  | None =>
      match s with
      | String c s' => findWord name s' (passed +:+ String c EmptyString)
      | EmptyString => None
      end
  end.

(** The class name inside the pattern [\bname\b]; the demo handles the
    patterns the library builds from plain, non-empty names. *)
Definition nameOfPattern (source : string) : string :=
  String.substring 2 (String.length source - 4) source.

Definition regexp_test (source s : string) : bool :=
  bool_decide (is_Some (findWord (nameOfPattern source) s "")).

Definition regexp_replace (source s replacement : string) : string :=
  match findWord (nameOfPattern source) s "" with
  | Some (before, after) => before +:+ replacement +:+ after
  | None => s
  end.

Fixpoint trimStart (s : string) : string :=
  match s with
  | String c s' =>
      if (Ascii.nat_of_ascii c =? 32)%nat
         || (9 <=? Ascii.nat_of_ascii c)%nat && (Ascii.nat_of_ascii c <=? 13)%nat
      then trimStart s' else s
  | EmptyString => s
  end.

Definition string_trim (s : string) : string :=
  String.rev (trimStart (String.rev (trimStart s))).

Definition legacyPlaceholderComputed (w : Legacy.World) (property : string) : string :=
  match Legacy.el_properties w !! Legacy.namespace with
  | Some data =>
      match Legacy.placeholderOf data with
      | Some placeholder =>
          match ph_style placeholder !! property with
          | Some v => v
          | None => if decide (property = "top" ∨ property = "bottom") then "auto" else ""
          end
      | None => ""
      end
  | None => ""
  end.

Definition legacyRect (p : Page) (w : Legacy.World) : Rect :=
  {| rect_top := (elementTop p - Legacy.pageYOffset w)%float;
     rect_bottom := (elementTop p + elementHeight p - Legacy.pageYOffset w)%float;
     rect_left := elementLeft p;
     rect_width := elementWidth p;
     rect_height := elementHeight p |}.

Definition legacyParentBox (p : Page) (w : Legacy.World) : Rect :=
  {| rect_top := (parentTop p - Legacy.pageYOffset w)%float;
     rect_bottom := (parentBottom p - Legacy.pageYOffset w)%float;
     rect_left := 0%float;
     rect_width := 800%float;
     rect_height := (parentBottom p - parentTop p)%float |}.

Definition legacyBrowser (p : Page) : Legacy.Browser :=
  {| Legacy.parseFloat := parse_float;
     Legacy.numberToString := number_to_string;
     Legacy.getComputedStyle := λ w node property,
       match node with
       | TheElement => sheet p (Legacy.page_rev w) property
       | ThePlaceholder => legacyPlaceholderComputed w property
       end;
     Legacy.getBoundingClientRect := λ w _, legacyRect p w;
     Legacy.parentRect := λ w _, legacyParentBox p w;
     Legacy.selectorIndexOf := λ _ _, 0%float;
     Legacy.regExpTest := regexp_test;
     Legacy.regExpReplace := regexp_replace;
     Legacy.trim := string_trim |}.

(** The fresh page of this variant, scrolled to [y]. *)
Definition legacyWorld (y : float) : Legacy.World :=
  {| Legacy.el_nodeName := "DIV";
     Legacy.el_style := ∅;
     Legacy.el_className := "sticky";
     Legacy.el_properties := ∅;
     Legacy.el_dispatched := [];
     Legacy.pageYOffset := y;
     Legacy.innerHeight := 600;
     Legacy.page_rev := 0;
     Legacy.listeners := [];
     Legacy.next_id := 0 |}.

(** The earlier variant's instance with the default settings. *)
Definition legacySticky : Sticky := Legacy.Sticky_new None.

(** The top page after the earlier variant's [init] at scroll offset [y]. *)
Definition legacyStarted (y : float) : Legacy.World :=
  Legacy.final_world (@Legacy.init (legacyBrowser topPage) legacySticky (legacyWorld y)).

(** The scroll handler the earlier variant's [init] stores on the top page. *)
Definition legacyHandler : ScrollHandler :=
  {| sh_id := 0; sh_sticky := legacySticky; sh_side := StickToTop;
     sh_stickyMargins := {| marginBottom := "0px"; marginTop := "0px" |};
     sh_distanceFromSide := 0 |}.

(** The same page after the first call of that handler. *)
Definition legacyAt (y : float) : Legacy.World :=
  Legacy.final_world
    (@Legacy.callScroll (legacyBrowser topPage) legacyHandler (legacyStarted y)).


End Demo.

(** ** Observations on a world *)

(** [!!placeholder.parentNode], false when the element has no data. *)
Definition attached (w : World) : bool :=
  match el_store w with
  | Some data => ph_parentNode (placeholder data)
  | None => false
  end.

(** The element is rendered as sticking: it is [position: fixed] inline and
    carries the active class. *)
Definition isSticking (sticky : Sticky) (w : World) : bool :=
  bool_decide (Style.getProperty (el_style w) "position" = "fixed")
  && bool_decide (activeClass sticky ∈ el_classList w).

(** The listeners [bindEvents] registers for a pair of handlers. *)
Definition bound (hs : Handlers) (passive : bool) : list Listener :=
  [ {| l_type := "load"; l_callback := ScrollCallback (scroll hs); l_options := Omitted |};
    {| l_type := "scroll"; l_callback := ScrollCallback (scroll hs);
       l_options := if passive then scrollOptions else UseCapture false |};
    {| l_type := "resize"; l_callback := ResizeCallback (resize hs); l_options := Omitted |} ].

(** The ten style properties [cleanUp] resets. *)
Definition touched : list string :=
  ["width"; "height"; "left"; "marginLeft"; "marginRight"; "zIndex";
   "top"; "bottom"; "marginTop"; "marginBottom"].

(** The value of the local [isInRange] when the scroll handler [h] runs in
    [w]: the boundaries are measured on the placeholder when it is attached
    and on the element otherwise. *)
Definition isInRange `{Browser} (h : ScrollHandler) (w : World) : bool :=
  let boundaries :=
    calculateBoundaries (if attached w then ThePlaceholder else TheElement)
      (sh_stickyMargins h) w in
  match sh_side h with
  | StickToTop =>
      ((b_start boundaries <=? pageYOffset w) && (pageYOffset w <=? b_end boundaries))%float
  | StickToBottom =>
      let windowBottom := (pageYOffset w + innerHeight w)%float in
      ((windowBottom <=? b_start boundaries) && (b_end boundaries <=? windowBottom))%float
  end.

(** The events a scroll tick dispatches on the element, from whether the
    placeholder was attached before it and whether the tick is in range. *)
Definition transition (wasAttached inRange : bool) : list string :=
  if inRange then (if wasAttached then [] else ["stickystart"])
  else (if wasAttached then ["stickyend"] else []).

(** What one call of a scroll handler of [sticky] does to the world [w]
    whose data is [data], as seen in the result [w'], when the handler finds
    the element in range or not. *)
Definition step_effect (sticky : Sticky) (inRange : bool) (w : World) (data : Data)
    (w' : World) : Prop :=
  let wasAttached := ph_parentNode (placeholder data) in
  let className := activeClass sticky in
  (∃ data',
     el_store w' = Some data'
     ∧ handlers data' = handlers data
     ∧ ph_parentNode (placeholder data') = inRange
     ∧ position data' =
         (if inRange && negb wasAttached
          then Style.getProperty (el_style w) "position" else position data))
  ∧ Style.getProperty (el_style w') "position" =
      (if inRange then (if wasAttached then Style.getProperty (el_style w) "position" else "fixed")
       else (if wasAttached then position data else Style.getProperty (el_style w) "position"))
  ∧ el_classList w' =
      (if inRange
       then (if wasAttached then el_classList w else classList_add className (el_classList w))
       else (if wasAttached then classList_remove className (el_classList w) else el_classList w))
  ∧ el_dispatched w' = (el_dispatched w ++ transition wasAttached inRange)%list
  ∧ listeners w' = listeners w
  ∧ passiveSupported w' = passiveSupported w.

(** The offset rule in the words of the specification, for comparison with
    the handlers: [top] is [gap] px only when [gap - declaredTop < 0] and is
    cleared otherwise; [bottom] is [-gap] px only when
    [gap + declaredBottom > 0] and is cleared otherwise. *)
Definition specifiedTop `{Browser} (gap declaredTop : float) : string :=
  if (gap - declaredTop <? 0)%float then px gap else "".

Definition specifiedBottom `{Browser} (gap declaredBottom : float) : string :=
  if (0 <? gap + declaredBottom)%float then px (- gap) else "".

(** The scroll handler stored on the element. *)
Definition storedScroll (w : World) : option ScrollHandler :=
  (λ data, scroll (handlers data)) <$> el_store w.

(** The state of a page between two events once [sticky.init()] has run on
    an element whose inline [position] was [original]: the element carries
    the data of [sticky], exactly its handlers are registered, the saved
    position is the original one, and the element is either at rest (original
    position, no active class) or sticking (fixed, active class). *)
Definition initialized (sticky : Sticky) (original : string) (w : World) : Prop :=
  ∃ data,
    el_store w = Some data
    ∧ sh_sticky (scroll (handlers data)) = sticky
    ∧ rh_sticky (resize (handlers data)) = sticky
    ∧ listeners w = bound (handlers data) (passiveSupported w)
    ∧ position data = original
    ∧ (if ph_parentNode (placeholder data)
       then Style.getProperty (el_style w) "position" = "fixed"
            ∧ activeClass sticky ∈ el_classList w
       else Style.getProperty (el_style w) "position" = original
            ∧ activeClass sticky ∉ el_classList w).

(** A page on which the library has not run: no data on the element and no
    listener of the library on the window. *)
Definition fresh (w : World) : Prop := el_store w = None ∧ listeners w = [].

(** The placeholder is an element of the tag [name], hidden, on an element
    of that tag. *)
Definition hiddenPlaceholder (name : string) (w : World) : Prop :=
  el_nodeName w = name
  ∧ ∃ data,
      el_store w = Some data
      ∧ ph_nodeName (placeholder data) = name
      ∧ ph_style (placeholder data) !! "visibility" = Some "hidden".

(** ** Properties *)

Section Properties.
Context `{Browser}.

Local Open Scope js_scope.

(** *** Numbers *)

Lemma orZero_nan (x : float) : PrimFloat.is_nan x = true → orZero x = 0%float.
Proof. intros Hx. unfold orZero. now rewrite Hx. Qed.

Lemma orZero_number (x : float) :
  PrimFloat.is_nan x = false → (x =? orZero x)%float = true.
Proof.
  intros Hx. unfold orZero. rewrite Hx. cbn [orb].
  destruct (PrimFloat.is_zero x) eqn:Hz.
  - exact Hz.
  - unfold PrimFloat.is_nan in Hx. now apply negb_false_iff in Hx.
Qed.

Lemma orZero_nonzero (x : float) :
  PrimFloat.is_nan x = false → PrimFloat.is_zero x = false → orZero x = x.
Proof. intros Hn Hz. unfold orZero. now rewrite Hn, Hz. Qed.

(** *** The boundary calculator *)

(** X1. With a computed [top] other than [auto], the boundaries are
    [start = elementTop - declaredTop] and [end = parentBottom - margin],
    each plus [window.pageYOffset]; the margin is the parsed sticky
    [marginBottom], [0] when that is [NaN] and numerically the parsed value
    otherwise. *)
Theorem calculateBoundaries_top (element : Node) (stickyMargins : StickyMargins) (w : World) :
  getComputedStyle w element "top" ≠ "auto" →
  let declaredTop := parseFloat (getComputedStyle w element "top") in
  let margin := orZero (parseFloat (marginBottom stickyMargins)) in
  calculateBoundaries element stickyMargins w =
    {| b_start := (rect_top (getBoundingClientRect w element) - declaredTop + pageYOffset w)%float;
       b_end := (rect_bottom (parentRect w element) - margin + pageYOffset w)%float |}
  ∧ (PrimFloat.is_nan (parseFloat (marginBottom stickyMargins)) = true → margin = 0%float)
  ∧ (PrimFloat.is_nan (parseFloat (marginBottom stickyMargins)) = false →
     (parseFloat (marginBottom stickyMargins) =? margin)%float = true).
Proof.
  intros Htop declaredTop margin. split; [|split].
  - unfold calculateBoundaries. destruct (decide _) as [_|Hauto]; [reflexivity|].
    now destruct Hauto.
  - apply orZero_nan.
  - apply orZero_number.
Qed.

(** *** The double-init guard *)

(** C3. [init()] on an element that already has data throws the error and
    leaves the whole world as it was: the stored placeholder, handlers and
    saved position, the inline styles and the registered listeners. *)
Theorem init_twice_throws (sticky : Sticky) (w : World) :
  is_Some (el_store w) →
  init sticky w = Throws (Error "This element has already been initialized") w.
Proof.
  intros [data Hdata]. unfold init, bind, gets, Store.getData.
  now rewrite Hdata.
Qed.

(** *** destroy() without init() *)

(** C10. Without data on the element, [destroy()] throws a [TypeError]: the
    read of [data.position] in [cleanUp] fails. The styles [cleanUp] reset
    before that stay reset. *)
Theorem destroy_before_init_throws (sticky : Sticky) (w : World) :
  el_store w = None →
  destroy sticky w =
    Throws TypeError
      (Style.resetStyleProperties element_style
         (properties ++ ["marginTop"; "marginBottom"; "top"; "bottom"])%list w).
Proof.
  intros Hnone. unfold destroy, cleanUp, bind, modify, theData, Store.getData.
  cbn. now rewrite Hnone.
Qed.

(** *** Worlds in normal form *)

Lemma setData_same (w : World) (data : Data) :
  el_store w = Some data → Store.setData data w = w.
Proof. destruct w; cbn; intros ->; reflexivity. Qed.

Lemma set_placeholder_data (f : PlaceholderNode → PlaceholderNode) (w : World) (data : Data) :
  el_store w = Some data →
  set_placeholder f w = Store.setData (with_placeholder f data) w.
Proof. destruct w; cbn; intros ->; reflexivity. Qed.

Lemma theData_Some (w : World) (data : Data) :
  el_store w = Some data → theData w = Returns data w.
Proof. unfold theData, Store.getData. now intros ->. Qed.

Lemma detach_detached (data : Data) :
  ph_parentNode (placeholder data) = false →
  with_placeholder (set_ph_parentNode false) data = data.
Proof. destruct data as [[n st a] hs p]; cbn; intros ->; reflexivity. Qed.

Lemma getProperty_insert (m : gmap string string) (k k' v : string) :
  Style.getProperty (<[k := v]> m) k' = if decide (k = k') then v else Style.getProperty m k'.
Proof.
  unfold Style.getProperty. destruct (decide (k = k')) as [->|Hne].
  - now rewrite lookup_insert_eq.
  - now rewrite lookup_insert_ne.
Qed.

(** Running straight-line code on a world whose data is known. *)
Ltac js_run Hs :=
  unfold theHandlers;
  unfold bind, gets, modify, ret, throw, theData, Store.getData, Store.removeData;
  repeat (progress (cbn; rewrite ?Hs)).

(** *** The placeholder synchronizer *)

Lemma copy_placeholder_style (blueprint : World → string → string)
    (props : list string) (w : World) (data : Data) :
  el_store w = Some data →
  ∃ st, Style.copyStyleProperties placeholder_style blueprint props w
        = Store.setData (with_placeholder (set_ph_style (λ _, st)) data) w
      ∧ ∀ p, p ∉ props → st !! p = ph_style (placeholder data) !! p.
Proof.
  revert w data. induction props as [|q props IH]; intros w data Hs.
  - exists (ph_style (placeholder data)). split; [|done].
    cbn. destruct data as [[n st a] hs p]. symmetry. now apply setData_same.
  - unfold Style.copyStyleProperties. cbn [foldl].
    unfold placeholder_style at 2.
    rewrite (set_placeholder_data _ _ _ Hs).
    edestruct (IH (Store.setData (with_placeholder (set_ph_style <[q:=blueprint w q]>) data) w))
      as (st & Heq & Hst); [reflexivity|].
    exists st. split.
    + unfold Style.copyStyleProperties in Heq. rewrite Heq. reflexivity.
    + intros p Hp. apply not_elem_of_cons in Hp as [Hq Hp].
      rewrite (Hst p Hp). cbn. now apply lookup_insert_ne.
Qed.

Lemma updatePlaceholderStyle_effect (w : World) (data : Data) :
  el_store w = Some data →
  ∃ st,
    updatePlaceholderStyle w
      = Returns tt (Store.setData (with_placeholder (set_ph_style (λ _, st)) data) w)
    ∧ Style.getProperty st "width" = px (rect_width (getBoundingClientRect w TheElement))
    ∧ Style.getProperty st "height" = px (rect_height (getBoundingClientRect w TheElement))
    ∧ Style.getProperty st "left" = px (rect_left (getBoundingClientRect w TheElement))
    ∧ ∀ p, p ∉ ["top"; "bottom"; "marginTop"; "marginBottom"; "marginLeft"; "marginRight";
                "width"; "height"; "left"] →
           st !! p = ph_style (placeholder data) !! p.
Proof.
  intros Hs. unfold updatePlaceholderStyle.
  destruct (copy_placeholder_style (λ w, getComputedStyle w TheElement)
              ["top"; "bottom"; "marginTop"; "marginBottom"; "marginLeft"; "marginRight"]
              w data Hs) as (st1 & Heq1 & Hst1).
  set (r := getBoundingClientRect w TheElement).
  exists (<["left" := px (rect_left r)]>
            (<["height" := px (rect_height r)]> (<["width" := px (rect_width r)]> st1))).
  split; [|split; [|split; [|split]]].
  - unfold bind, gets, modify. rewrite (theData_Some _ _ Hs). rewrite Heq1. reflexivity.
  - now rewrite !getProperty_insert.
  - now rewrite !getProperty_insert.
  - now rewrite !getProperty_insert.
  - intros p Hp. rewrite !not_elem_of_cons in Hp.
    rewrite !lookup_insert_ne by (intros <-; intuition congruence).
    apply Hst1. rewrite !not_elem_of_cons. intuition.
Qed.

(** *** Leaving and entering sticky mode *)

(** What [cleanUp] leaves in the element's inline style. *)
Lemma cleanUp_effect (w : World) (data : Data) :
  el_store w = Some data →
  ∃ st,
    cleanUp w
      = Returns tt (Store.setData (with_placeholder (set_ph_parentNode false) data)
                      (set_el_style (λ _, st) w))
    ∧ Style.getProperty st "position" = position data
    ∧ ∀ p, p ∈ touched → Style.getProperty st p = "".
Proof.
  intros Hs.
  exists (<["position" := position data]>
            (foldl (λ st p, <[p := ""]> st) (el_style w)
               (properties ++ ["marginTop"; "marginBottom"; "top"; "bottom"])%list)).
  split; [|split].
  - unfold cleanUp. js_run Hs.
    destruct (ph_parentNode (placeholder data)) eqn:Ha; cbn.
    + f_equal. destruct w; cbn in *; subst; reflexivity.
    + rewrite (detach_detached _ Ha). f_equal.
      destruct w; cbn in *; subst; reflexivity.
  - now rewrite getProperty_insert.
  - intros p Hp. cbn. rewrite !getProperty_insert.
    unfold touched in Hp. rewrite !elem_of_cons, elem_of_nil in Hp.
    repeat (destruct Hp as [->|Hp]; [reflexivity|]). done.
Qed.

(** [startSticky]: the placeholder is refreshed from the element's current
    box and attached, the element becomes [fixed] with the placeholder's
    footprint, [stickystart] is dispatched and the active class added. *)
Lemma startSticky_effect (sticky : Sticky) (w : World) (data : Data) :
  el_store w = Some data →
  ∃ st_ph st_el,
    startSticky sticky w
      = Returns tt
          (set_el_classList (classList_add (activeClass sticky))
             (fireEvent "stickystart"
                (Store.setData
                   {| placeholder :=
                        {| ph_nodeName := ph_nodeName (placeholder data);
                           ph_style := st_ph;
                           ph_parentNode := true |};
                      handlers := handlers data;
                      position := Style.getProperty (el_style w) "position" |}
                   (set_el_style (λ _, st_el) w))))
    ∧ Style.getProperty st_el "position" = "fixed"
    ∧ (∀ p, p ∈ properties → Style.getProperty st_el p = Style.getProperty st_ph p)
    ∧ (∀ p, p ∉ "position" :: properties → st_el !! p = el_style w !! p)
    ∧ Style.getProperty st_ph "width" = px (rect_width (getBoundingClientRect w TheElement))
    ∧ Style.getProperty st_ph "height" = px (rect_height (getBoundingClientRect w TheElement))
    ∧ Style.getProperty st_ph "left" = px (rect_left (getBoundingClientRect w TheElement)).
Proof.
  intros Hs.
  destruct (updatePlaceholderStyle_effect w data Hs) as (st & Hupd & Hw & Hh & Hl & _).
  exists st.
  exists (foldl (λ m p, <[p := Style.getProperty st p]> m)
            (<["position" := "fixed"]> (el_style w)) properties).
  split; [|split; [|split; [|split; [|split; [|split]]]]]; try assumption.
  - unfold startSticky. unfold bind at 1. rewrite Hupd.
    js_run Hs. reflexivity.
  - cbn. now rewrite !getProperty_insert.
  - intros p Hp. cbn. rewrite !getProperty_insert.
    unfold properties in Hp. rewrite !elem_of_cons, elem_of_nil in Hp.
    repeat (destruct Hp as [->|Hp]; [reflexivity|]). done.
  - intros p Hp. unfold properties in Hp. rewrite !not_elem_of_cons in Hp.
    cbn. rewrite !lookup_insert_ne; [reflexivity|..]; intros <-; intuition congruence.
Qed.

Lemma endSticky_effect (sticky : Sticky) (w : World) (data : Data) :
  el_store w = Some data →
  ∃ st,
    endSticky sticky w
      = Returns tt
          (set_el_classList (classList_remove (activeClass sticky))
             (fireEvent "stickyend"
                (Store.setData (with_placeholder (set_ph_parentNode false) data)
                   (set_el_style (λ _, st) w))))
    ∧ Style.getProperty st "position" = position data
    ∧ ∀ p, p ∈ touched → Style.getProperty st p = "".
Proof.
  intros Hs. destruct (cleanUp_effect w data Hs) as (st & Hc & Hp & Ht).
  exists st. split; [|split]; try assumption.
  unfold endSticky. unfold bind at 1. rewrite Hc. reflexivity.
Qed.

(** *** The scroll handler *)

Lemma stickToTop_unfold (h : ScrollHandler) (w : World) (data : Data) :
  el_store w = Some data →
  let isAdded := ph_parentNode (placeholder data) in
  let boundaries :=
    calculateBoundaries (if isAdded then ThePlaceholder else TheElement)
      (sh_stickyMargins h) w in
  let height := orZero (parseFloat (getComputedStyle w TheElement "height")) in
  let gap := (b_end boundaries - height - pageYOffset w)%float in
  stickToTop h w =
    if ((b_start boundaries <=? pageYOffset w) && (pageYOffset w <=? b_end boundaries))%float
    then ((if isAdded then ret tt else startSticky (sh_sticky h)) ;;
          modify (set_el_style
                    <["top" := if (0 <=? gap - sh_distanceFromSide h)%float
                               then "" else px gap]>)) w
    else if isAdded then endSticky (sh_sticky h) w
    else Returns tt w.
Proof.
  intros Hs. cbv zeta. unfold stickToTop, getBoundaries. js_run Hs.
  repeat match goal with |- context [if ?b then _ else _] => destruct b end; reflexivity.
Qed.

Lemma stickToBottom_unfold (h : ScrollHandler) (w : World) (data : Data) :
  el_store w = Some data →
  let isAdded := ph_parentNode (placeholder data) in
  let boundaries :=
    calculateBoundaries (if isAdded then ThePlaceholder else TheElement)
      (sh_stickyMargins h) w in
  let height := orZero (parseFloat (getComputedStyle w TheElement "height")) in
  let windowBottom := (pageYOffset w + innerHeight w)%float in
  let gap := (b_end boundaries + height - windowBottom)%float in
  stickToBottom h w =
    if ((windowBottom <=? b_start boundaries) && (b_end boundaries <=? windowBottom))%float
    then ((if isAdded then ret tt else startSticky (sh_sticky h)) ;;
          modify (set_el_style
                    <["bottom" := if (gap + sh_distanceFromSide h <=? 0)%float
                                  then "" else px (- gap)]>)) w
    else if isAdded then endSticky (sh_sticky h) w
    else Returns tt w.
Proof.
  intros Hs. cbv zeta. unfold stickToBottom, getBoundaries. js_run Hs.
  repeat match goal with |- context [if ?b then _ else _] => destruct b end; reflexivity.
Qed.

(** Both handlers end in the same two-way branch; [property] is [top] or
    [bottom] and [value] the offset written when in range. *)
Lemma branch_effect (sticky : Sticky) (inRange : bool) (property value : string)
    (w : World) (data : Data) :
  el_store w = Some data →
  property ≠ "position" →
  ∃ w',
    (if inRange
     then ((if ph_parentNode (placeholder data) then ret tt else startSticky sticky) ;;
           modify (set_el_style <[property := value]>)) w
     else if ph_parentNode (placeholder data) then endSticky sticky w
     else Returns tt w) = Returns tt w'
    ∧ step_effect sticky inRange w data w'
    ∧ (inRange = true → Style.getProperty (el_style w') property = value).
Proof.
  intros Hs Hprop. unfold step_effect.
  destruct inRange; destruct (ph_parentNode (placeholder data)) eqn:Ha; cbn [andb negb transition].
  - eexists. split; [reflexivity|]. cbn.
    rewrite !getProperty_insert. destruct (decide _) as [?|_]; [done|].
    rewrite app_nil_r. repeat split; try reflexivity.
    + exists data. now rewrite Hs, Ha.
    + now rewrite decide_True.
  - destruct (startSticky_effect sticky w data Hs) as (st_ph & st_el & Hstart & Hfix & _).
    eexists. split; [unfold bind; rewrite Hstart; reflexivity|]. cbn.
    rewrite !getProperty_insert. destruct (decide _) as [?|_]; [done|].
    repeat split; try reflexivity; try assumption.
    + eexists. split; [reflexivity|]. cbn. repeat split; reflexivity.
    + now rewrite decide_True.
  - destruct (endSticky_effect sticky w data Hs) as (st & Hend & Hpos & _).
    eexists. split; [exact Hend|]. cbn.
    repeat split; try reflexivity; try assumption; try discriminate.
    eexists. split; [reflexivity|]. cbn. repeat split; reflexivity.
  - exists w. split; [reflexivity|].
    rewrite app_nil_r. repeat split; try reflexivity; try discriminate.
    exists data. now rewrite Hs, Ha.
Qed.

Lemma callScroll_effect (h : ScrollHandler) (w : World) (data : Data) :
  el_store w = Some data →
  ∃ w', callScroll h w = Returns tt w'
        ∧ step_effect (sh_sticky h) (isInRange h w) w data w'.
Proof.
  intros Hs. unfold callScroll, isInRange, attached. rewrite Hs.
  destruct (sh_side h).
  - rewrite (stickToTop_unfold h w data Hs).
    edestruct (branch_effect (sh_sticky h)) as (w' & Hrun & Heff & _); [exact Hs| |].
    2: { exists w'. split; [exact Hrun|exact Heff]. }
    discriminate.
  - rewrite (stickToBottom_unfold h w data Hs).
    edestruct (branch_effect (sh_sticky h)) as (w' & Hrun & Heff & _); [exact Hs| |].
    2: { exists w'. split; [exact Hrun|exact Heff]. }
    discriminate.
Qed.

Lemma leb_zero_ltb (x : float) :
  PrimFloat.is_nan x = false → (0 <=? x)%float = negb (x <? 0)%float.
Proof.
  unfold PrimFloat.is_nan.
  rewrite FloatAxioms.eqb_spec, FloatAxioms.leb_spec, FloatAxioms.ltb_spec.
  change (Prim2SF 0) with (S754_zero false).
  destruct (Prim2SF x) as [s|s| |s m e]; try destruct s; cbn; try reflexivity; discriminate.
Qed.

Lemma leb_ltb_zero (x : float) :
  PrimFloat.is_nan x = false → (x <=? 0)%float = negb (0 <? x)%float.
Proof.
  unfold PrimFloat.is_nan.
  rewrite FloatAxioms.eqb_spec, FloatAxioms.leb_spec, FloatAxioms.ltb_spec.
  change (Prim2SF 0) with (S754_zero false).
  destruct (Prim2SF x) as [s|s| |s m e]; try destruct s; cbn; try reflexivity; discriminate.
Qed.

(** C2. With a computed [top] of [auto] the boundaries are
    [start = elementBottom + declaredBottom] and [end = parentTop + marginTop],
    each plus [window.pageYOffset]. The bottom handler returns with the
    placeholder attached exactly when [windowBottom <= start] and
    [windowBottom >= end], for [windowBottom = pageYOffset + innerHeight]; the
    top handler exactly when [start <= pageYOffset <= end]. *)
Theorem bottom_anchor_range (element : Node) (stickyMargins : StickyMargins) (w0 : World)
    (h : ScrollHandler) (w : World) (data : Data) :
  (getComputedStyle w0 element "top" = "auto" →
   calculateBoundaries element stickyMargins w0 =
     {| b_start := (rect_bottom (getBoundingClientRect w0 element)
                    + parseFloat (getComputedStyle w0 element "bottom") + pageYOffset w0)%float;
        b_end := (rect_top (parentRect w0 element)
                  + orZero (parseFloat (marginTop stickyMargins)) + pageYOffset w0)%float |})
  ∧ (el_store w = Some data →
     let boundaries :=
       calculateBoundaries (if ph_parentNode (placeholder data) then ThePlaceholder else TheElement)
         (sh_stickyMargins h) w in
     let windowBottom := (pageYOffset w + innerHeight w)%float in
     (∃ w', stickToBottom h w = Returns tt w'
            ∧ attached w' =
                ((windowBottom <=? b_start boundaries) && (b_end boundaries <=? windowBottom))%float)
     ∧ (∃ w', stickToTop h w = Returns tt w'
              ∧ attached w' =
                  ((b_start boundaries <=? pageYOffset w)
                   && (pageYOffset w <=? b_end boundaries))%float)).
Proof.
  split.
  - intros Hauto. unfold calculateBoundaries.
    destruct (decide _) as [Hne|_]; [now destruct Hne|reflexivity].
  - intros Hs boundaries windowBottom. split.
    + rewrite (stickToBottom_unfold h w data Hs).
      edestruct (branch_effect (sh_sticky h)) as (w' & Hrun & Heff & _); [exact Hs| |].
      2: { exists w'. split; [exact Hrun|].
           destruct Heff as ((data' & Hs' & _ & Ha' & _) & _).
           unfold attached. rewrite Hs'. exact Ha'. }
      discriminate.
    + rewrite (stickToTop_unfold h w data Hs).
      edestruct (branch_effect (sh_sticky h)) as (w' & Hrun & Heff & _); [exact Hs| |].
      2: { exists w'. split; [exact Hrun|].
           destruct Heff as ((data' & Hs' & _ & Ha' & _) & _).
           unfold attached. rewrite Hs'. exact Ha'. }
      discriminate.
Qed.

(** C4, amended. On a tick in range the top handler writes [gap] px to the
    inline [top] unless [gap - distanceFromSide >= 0] holds, in which case it
    clears it, with [gap = end - height - pageYOffset]; the bottom handler
    writes [-gap] px to [bottom] unless [gap + distanceFromSide <= 0] holds,
    with [gap = end + height - (pageYOffset + innerHeight)]. The height is [0]
    when its computed value parses to [NaN] or to zero. When the compared sum
    is a number this is the specified rule ([< 0], respectively [> 0]); when
    it is [NaN] the offset is written. *)
Theorem offset_while_sticking (h : ScrollHandler) (w : World) (data : Data) :
  el_store w = Some data →
  let boundaries :=
    calculateBoundaries (if ph_parentNode (placeholder data) then ThePlaceholder else TheElement)
      (sh_stickyMargins h) w in
  let height := orZero (parseFloat (getComputedStyle w TheElement "height")) in
  let d := sh_distanceFromSide h in
  (let gap := (b_end boundaries - height - pageYOffset w)%float in
   ((b_start boundaries <=? pageYOffset w) && (pageYOffset w <=? b_end boundaries))%float = true →
   ∃ w', stickToTop h w = Returns tt w'
         ∧ Style.getProperty (el_style w') "top" = (if (0 <=? gap - d)%float then "" else px gap)
         ∧ (PrimFloat.is_nan (gap - d) = false →
            Style.getProperty (el_style w') "top" = specifiedTop gap d))
  ∧ (let windowBottom := (pageYOffset w + innerHeight w)%float in
     let gap := (b_end boundaries + height - windowBottom)%float in
     ((windowBottom <=? b_start boundaries) && (b_end boundaries <=? windowBottom))%float = true →
     ∃ w', stickToBottom h w = Returns tt w'
           ∧ Style.getProperty (el_style w') "bottom"
             = (if (gap + d <=? 0)%float then "" else px (- gap))
           ∧ (PrimFloat.is_nan (gap + d) = false →
              Style.getProperty (el_style w') "bottom" = specifiedBottom gap d)).
Proof.
  intros Hs boundaries height d. split.
  - intros gap Hin. rewrite (stickToTop_unfold h w data Hs).
    fold boundaries height gap d. rewrite Hin.
    edestruct (branch_effect (sh_sticky h) true "top") as (w' & Hrun & _ & Hval); [exact Hs| |].
    2: { exists w'. split; [exact Hrun|]. rewrite (Hval eq_refl). split; [reflexivity|].
         intros Hnum. unfold specifiedTop. rewrite (leb_zero_ltb _ Hnum).
         now destruct (gap - d <? 0)%float. }
    discriminate.
  - intros windowBottom gap Hin. rewrite (stickToBottom_unfold h w data Hs).
    fold boundaries height windowBottom gap d. rewrite Hin.
    edestruct (branch_effect (sh_sticky h) true "bottom") as (w' & Hrun & _ & Hval); [exact Hs| |].
    2: { exists w'. split; [exact Hrun|]. rewrite (Hval eq_refl). split; [reflexivity|].
         intros Hnum. unfold specifiedBottom. rewrite (leb_ltb_zero _ Hnum).
         now destruct (0 <? gap + d)%float. }
    discriminate.
Qed.

(** *** init *)

Lemma onScroll_effect (sticky : Sticky) (w : World) :
  ∃ h, onScroll sticky w
       = Returns h (set_next_id S
                      (set_el_classList
                         (λ l, classList_remove (activeClass sticky)
                                 (classList_add (activeClass sticky) l)) w))
     ∧ sh_sticky h = sticky.
Proof. eexists. split; reflexivity. Qed.

Lemma getZIndex_world (sel : string) (w : World) :
  (getZIndex sel w).2
  = set_el_style (λ m, <["position" := Style.getProperty m "position"]>
                         (<["position" := "relative"]> m)) w.
Proof.
  unfold getZIndex, getComputedZIndex.
  destruct (PrimFloat.is_nan _); reflexivity.
Qed.

Lemma theHandlers_Some (w : World) (data : Data) :
  el_store w = Some data → theHandlers w = Returns (handlers data) w.
Proof. intros Hs. unfold theHandlers, bind. now rewrite (theData_Some _ _ Hs). Qed.

Lemma bindEvents_effect (w : World) (data : Data) :
  el_store w = Some data →
  bindEvents w
  = Returns tt (set_listeners
                  (λ ls, (ls ++ bound (handlers data) (passiveSupported w))%list) w).
Proof.
  intros Hs. unfold bindEvents. unfold bind at 1.
  rewrite (theHandlers_Some _ _ Hs).
  unfold bind, gets, modify, addEventListener, isPassiveEventListenerSupported, bound.
  f_equal. destruct w; unfold set_listeners; cbn. f_equal.
  now do 2 rewrite <- List.app_assoc.
Qed.

(** [init] on an element without data, up to the call of the scroll
    handler: [wB] is the world in which the handler is called. *)
Lemma init_effect (sticky : Sticky) (w : World) :
  el_store w = None →
  ∃ wB data,
    init sticky w = callScroll (scroll (handlers data)) wB
    ∧ el_store wB = Some data
    ∧ sh_sticky (scroll (handlers data)) = sticky
    ∧ rh_sticky (resize (handlers data)) = sticky
    ∧ ph_parentNode (placeholder data) = false
    ∧ position data = Style.getProperty (el_style w) "position"
    ∧ listeners wB = (listeners w ++ bound (handlers data) (passiveSupported w))%list
    ∧ passiveSupported wB = passiveSupported w
    ∧ Style.getProperty (el_style wB) "position" = Style.getProperty (el_style w) "position"
    ∧ (∀ p, p ≠ "position" → el_style wB !! p = el_style w !! p)
    ∧ el_classList wB
      = classList_remove (activeClass sticky) (classList_add (activeClass sticky) (el_classList w))
    ∧ el_dispatched wB = el_dispatched w.
Proof.
  intros Hnone. unfold init.
  destruct (onScroll_effect sticky w) as (h & Hh & Hsh).
  unfold bind at 1. unfold gets at 1. unfold Store.getData at 1. rewrite Hnone.
  unfold bind at 1. unfold gets at 1.
  unfold bind at 1. rewrite Hh.
  unfold bind at 1. unfold onResize at 1.
  set (r := {| rh_id := _; rh_sticky := sticky |}).
  unfold bind at 1. unfold gets at 1.
  unfold bind at 1. unfold modify at 1.
  unfold bind at 1.
  match goal with |- context [getZIndex ?sel ?w0] =>
    pose proof (getZIndex_world sel w0) as Hz; destruct (getZIndex sel w0) as [z wz] end.
  cbn [snd] in Hz. subst wz.
  unfold bind at 1. unfold modify at 1.
  match goal with |- context [Style.copyStyleProperties ?a ?b ?c ?w0] =>
    set (wX := Style.copyStyleProperties a b c w0) end.
  assert (∃ dX, el_store wX = Some dX
                ∧ handlers dX = {| scroll := h; resize := r |}
                ∧ ph_parentNode (placeholder dX) = false
                ∧ position dX = Style.getProperty (el_style w) "position")
    as (dX & HsX & HhX & HaX & HpX).
  { eexists. split; [subst wX; cbn; reflexivity|]. cbn. repeat split; reflexivity. }
  destruct (updatePlaceholderStyle_effect wX dX HsX) as (st & Hupd & _).
  unfold bind at 1. rewrite Hupd.
  set (dB := with_placeholder (set_ph_style (λ _, st)) dX).
  assert (HsB : el_store (Store.setData dB wX) = Some dB) by reflexivity.
  unfold bind at 1. rewrite (bindEvents_effect _ _ HsB).
  match goal with |- context [set_listeners ?f ?w0] => set (wB := set_listeners f w0) end.
  assert (HsB' : el_store wB = Some dB) by reflexivity.
  unfold bind at 1. rewrite (theHandlers_Some _ _ HsB').
  exists wB, dB. split; [reflexivity|].
  subst wB dB. cbn. rewrite HhX, HaX, HpX. subst wX. cbn.
  repeat split; try reflexivity; try assumption.
  - now rewrite !getProperty_insert.
  - intros p Hp. now rewrite !lookup_insert_ne.
Qed.

(** *** The class list *)

Lemma elem_of_classList_add (c : string) (l : list string) : c ∈ classList_add c l.
Proof.
  unfold classList_add. destruct (decide (c ∈ l)) as [Hin|_]; [exact Hin|].
  apply elem_of_app. right. apply list_elem_of_singleton. reflexivity.
Qed.

Lemma not_elem_of_classList_remove (c : string) (l : list string) :
  c ∉ classList_remove c l.
Proof.
  unfold classList_remove. intros Hin. apply list_elem_of_filter in Hin as [Hne _].
  now apply Hne.
Qed.

(** *** The invariant between events *)

Lemma initialized_step (sticky : Sticky) (original : string) (inRange : bool)
    (w w' : World) (data : Data) :
  initialized sticky original w →
  el_store w = Some data →
  step_effect sticky inRange w data w' →
  initialized sticky original w'.
Proof.
  intros (data0 & Hs0 & Hsh & Hrh & Hls & Hpos & Hrest) Hs Heff.
  rewrite Hs in Hs0. injection Hs0 as <-.
  destruct Heff as ((data' & Hs' & Hh' & Ha' & Hp') & Hstyle & Hcl & _ & Hls' & Hpass).
  exists data'. rewrite Hs', Hh', Ha', Hls', Hpass, Hstyle, Hcl, Hp'.
  split_and!; try done.
  - destruct inRange, (ph_parentNode (placeholder data)); cbn; try done.
    now destruct Hrest.
  - destruct inRange, (ph_parentNode (placeholder data)); cbn.
    + exact Hrest.
    + split; [reflexivity|apply elem_of_classList_add].
    + split; [exact Hpos|apply not_elem_of_classList_remove].
    + exact Hrest.
Qed.

Lemma init_establishes (sticky : Sticky) (w : World) :
  fresh w →
  ∃ w', init sticky w = Returns tt w'
        ∧ initialized sticky (Style.getProperty (el_style w) "position") w'.
Proof.
  intros [Hnone Hls].
  destruct (init_effect sticky w Hnone)
    as (wB & data & Hinit & Hs & Hsh & Hrh & Ha & Hpos & HlsB & Hpass & Hstyle & _ & Hcl & _).
  destruct (callScroll_effect (scroll (handlers data)) wB data Hs) as (w' & Hrun & Heff).
  exists w'. split; [now rewrite Hinit|].
  rewrite Hsh in Heff.
  eapply (initialized_step sticky _ _ wB w' data); [|exact Hs|exact Heff].
  exists data. rewrite Ha, HlsB, Hls, Hpass, Hstyle, Hcl.
  split_and!; try done. apply not_elem_of_classList_remove.
Qed.

Lemma unbindEvents_effect (w : World) (data : Data) :
  el_store w = Some data →
  listeners w = bound (handlers data) (passiveSupported w) →
  unbindEvents w = Returns tt (set_listeners (λ _, []) w).
Proof.
  intros Hs Hls. unfold unbindEvents. unfold bind at 1.
  rewrite (theHandlers_Some _ _ Hs).
  unfold bind, gets, modify, removeEventListener, isPassiveEventListenerSupported.
  f_equal. destruct w; unfold set_listeners; cbn in *. f_equal.
  rewrite Hls. unfold bound.
  repeat (rewrite ?filter_cons, ?filter_nil; cbn; repeat case_decide);
    try reflexivity; exfalso; intuition (congruence || discriminate).
Qed.

(** [destroy] from a state between events: it returns, no data and no
    listener are left, the inline [position] is the original one and the ten
    touched properties read empty. *)
Lemma destroy_effect (sticky : Sticky) (original : string) (w : World) :
  initialized sticky original w →
  ∃ w', destroy sticky w = Returns tt w'
        ∧ fresh w'
        ∧ Style.getProperty (el_style w') "position" = original
        ∧ (∀ p, p ∈ touched → Style.getProperty (el_style w') p = "")
        ∧ el_classList w' = el_classList w
        ∧ el_dispatched w' = el_dispatched w
        ∧ passiveSupported w' = passiveSupported w.
Proof.
  intros (data & Hs & _ & _ & Hls & Hpos & _).
  destruct (cleanUp_effect w data Hs) as (st & Hclean & Hst & Htouched).
  unfold destroy. unfold bind at 1. rewrite Hclean.
  unfold bind at 1.
  match goal with |- context [unbindEvents ?w0] => set (w1 := w0) end.
  assert (Hs1 : el_store w1 = Some (with_placeholder (set_ph_parentNode false) data))
    by reflexivity.
  rewrite (unbindEvents_effect w1 _ Hs1) by exact Hls.
  eexists. split; [reflexivity|]. cbn.
  split_and!; try done. now rewrite Hst.
Qed.

Lemma callScroll_preserves (sticky : Sticky) (original : string) (w : World) (data : Data) :
  initialized sticky original w →
  el_store w = Some data →
  ∃ w', callScroll (scroll (handlers data)) w = Returns tt w'
        ∧ step_effect sticky (isInRange (scroll (handlers data)) w) w data w'
        ∧ initialized sticky original w'.
Proof.
  intros Hinit Hs.
  destruct (callScroll_effect (scroll (handlers data)) w data Hs) as (w' & Hrun & Heff).
  assert (Hsh : sh_sticky (scroll (handlers data)) = sticky).
  { destruct Hinit as (data0 & Hs0 & Hsh & _). rewrite Hs in Hs0. now injection Hs0 as <-. }
  rewrite Hsh in Heff.
  exists w'. split_and!; [exact Hrun|exact Heff|].
  exact (initialized_step sticky original _ w w' data Hinit Hs Heff).
Qed.

Lemma callResize_preserves (sticky : Sticky) (original : string) (w : World) (data : Data) :
  initialized sticky original w →
  el_store w = Some data →
  ∃ w', callResize (resize (handlers data)) w = Returns tt w'
        ∧ initialized sticky original w'.
Proof.
  intros Hinit Hs.
  assert (Hrh : rh_sticky (resize (handlers data)) = sticky).
  { destruct Hinit as (data0 & Hs0 & _ & Hrh & _). rewrite Hs in Hs0. now injection Hs0 as <-. }
  destruct (destroy_effect sticky original w Hinit) as (w1 & Hdestroy & Hfresh & Hpos & _).
  destruct (init_establishes sticky w1 Hfresh) as (w2 & Hinit2 & Hinv2).
  rewrite Hpos in Hinv2.
  pose proof Hinv2 as (data2 & Hs2 & _).
  destruct (callScroll_preserves sticky original w2 data2 Hinv2 Hs2) as (w3 & Hrun & _ & Hinv3).
  exists w3. split; [|exact Hinv3].
  unfold callResize. rewrite Hrh.
  unfold bind at 1. rewrite Hdestroy.
  unfold bind at 1. rewrite Hinit2.
  unfold bind at 1. rewrite (theHandlers_Some _ _ Hs2). exact Hrun.
Qed.

Lemma dispatchEvent_initialized (sticky : Sticky) (original : string) (w : World) (data : Data) :
  initialized sticky original w →
  el_store w = Some data →
  dispatchEvent "load" w = final_world (callScroll (scroll (handlers data)) w)
  ∧ dispatchEvent "scroll" w = final_world (callScroll (scroll (handlers data)) w)
  ∧ dispatchEvent "resize" w = final_world (callResize (resize (handlers data)) w).
Proof.
  intros (data0 & Hs0 & _ & _ & Hls & _) Hs.
  rewrite Hs in Hs0. injection Hs0 as <-.
  unfold dispatchEvent. rewrite Hls. unfold bound. cbn [foldl l_type l_callback call].
  repeat (first [rewrite decide_True by reflexivity | rewrite decide_False by discriminate]).
  split_and!; reflexivity.
Qed.

Lemma set_viewport_initialized (sticky : Sticky) (original : string) (v : Viewport) (w : World) :
  initialized sticky original w → initialized sticky original (set_viewport v w).
Proof. intros (data & Hinv). exists data. exact Hinv. Qed.

Lemma deliver_initialized (sticky : Sticky) (original : string) (w : World) (e : Event) :
  initialized sticky original w → initialized sticky original (deliver w e).
Proof.
  intros Hinit. unfold deliver.
  pose proof (set_viewport_initialized sticky original (event_viewport e) w Hinit) as Hinit'.
  pose proof Hinit' as (data & Hs & _).
  destruct (dispatchEvent_initialized sticky original _ data Hinit' Hs) as (Hl & Hsc & Hr).
  destruct (callScroll_preserves sticky original _ data Hinit' Hs) as (w1 & Hrun1 & _ & Hinv1).
  destruct (callResize_preserves sticky original _ data Hinit' Hs) as (w2 & Hrun2 & Hinv2).
  destruct e; cbn [event_type].
  - rewrite Hl, Hrun1. exact Hinv1.
  - rewrite Hsc, Hrun1. exact Hinv1.
  - rewrite Hr, Hrun2. exact Hinv2.
Qed.

Lemma deliver_all_initialized (sticky : Sticky) (original : string) (es : list Event) (w : World) :
  initialized sticky original w → initialized sticky original (deliver_all w es).
Proof.
  revert w. induction es as [|e es IH]; intros w Hinit; [exact Hinit|].
  cbn. apply IH. now apply deliver_initialized.
Qed.

(** Every state the page reaches after [init] on a fresh page, whatever
    events follow. *)
Lemma reachable_initialized (sticky : Sticky) (w0 : World) (es : list Event) :
  fresh w0 →
  initialized sticky (Style.getProperty (el_style w0) "position")
    (deliver_all (final_world (init sticky w0)) es).
Proof.
  intros Hfresh. destruct (init_establishes sticky w0 Hfresh) as (w1 & Hinit & Hinv).
  rewrite Hinit. cbn [final_world]. now apply deliver_all_initialized.
Qed.

(** *** Attachment of the placeholder *)

(** The two-way branch both handlers end in. *)
Lemma callScroll_branches (h : ScrollHandler) (w : World) (data : Data) :
  el_store w = Some data →
  ∃ property value,
    property ≠ "position"
    ∧ callScroll h w =
        if isInRange h w
        then ((if ph_parentNode (placeholder data) then ret tt else startSticky (sh_sticky h)) ;;
              modify (set_el_style <[property := value]>)) w
        else if ph_parentNode (placeholder data) then endSticky (sh_sticky h) w
        else Returns tt w.
Proof.
  intros Hs. unfold callScroll, isInRange, attached. rewrite Hs.
  destruct (sh_side h).
  - eexists "top", _. split; [discriminate|]. apply (stickToTop_unfold h w data Hs).
  - eexists "bottom", _. split; [discriminate|]. apply (stickToBottom_unfold h w data Hs).
Qed.

Lemma attached_sticking (sticky : Sticky) (original : string) (w : World) :
  initialized sticky original w → attached w = isSticking sticky w.
Proof.
  intros (data & Hs & _ & _ & _ & _ & Hrest). unfold attached, isSticking. rewrite Hs.
  destruct (ph_parentNode (placeholder data)).
  - destruct Hrest as [Hfixed Hclass].
    now rewrite (bool_decide_eq_true_2 _ Hfixed), (bool_decide_eq_true_2 _ Hclass).
  - destruct Hrest as [_ Hclass].
    rewrite (bool_decide_eq_false_2 _ Hclass). now rewrite andb_false_r.
Qed.

(** C5. After [init] on a fresh page and any scroll, load and resize events,
    the placeholder is attached exactly when the element is sticking (fixed
    and carrying the active class). A call of the scroll handler changes the
    attachment only by running [startSticky] (then writing the offset) or
    [endSticky]; [startSticky] attaches the placeholder after giving it the
    element's current width, height and left; [cleanUp] detaches it; the
    other operations leave the attachment as it is. *)
Theorem placeholder_attached_iff_sticking (sticky : Sticky) (w0 : World) (es : list Event) :
  fresh w0 →
  let w := deliver_all (final_world (init sticky w0)) es in
  attached w = isSticking sticky w
  ∧ (∀ (h : ScrollHandler) (w1 : World) (data : Data),
       el_store w1 = Some data →
       attached (final_world (callScroll h w1)) ≠ attached w1 →
       (attached w1 = false
        ∧ ∃ property value,
            callScroll h w1
            = (startSticky (sh_sticky h) ;; modify (set_el_style <[property := value]>)) w1)
       ∨ (attached w1 = true ∧ callScroll h w1 = endSticky (sh_sticky h) w1))
  ∧ (∀ (s : Sticky) (w1 : World) (data : Data),
       el_store w1 = Some data →
       ∃ w' data',
         startSticky s w1 = Returns tt w'
         ∧ el_store w' = Some data'
         ∧ ph_parentNode (placeholder data') = true
         ∧ Style.getProperty (ph_style (placeholder data')) "width"
           = px (rect_width (getBoundingClientRect w1 TheElement))
         ∧ Style.getProperty (ph_style (placeholder data')) "height"
           = px (rect_height (getBoundingClientRect w1 TheElement))
         ∧ Style.getProperty (ph_style (placeholder data')) "left"
           = px (rect_left (getBoundingClientRect w1 TheElement)))
  ∧ (∀ (w1 : World), attached (final_world (cleanUp w1)) = false)
  ∧ (∀ (s : Sticky) (w1 : World),
       attached (final_world (updatePlaceholderStyle w1)) = attached w1
       ∧ attached (final_world (bindEvents w1)) = attached w1
       ∧ attached (final_world (unbindEvents w1)) = attached w1
       ∧ attached (getStickyMargins s w1).2 = attached w1
       ∧ attached (getZIndex (selector s) w1).2 = attached w1).
Proof.
  intros Hfresh w. split_and!.
  - exact (attached_sticking sticky _ w (reachable_initialized sticky w0 es Hfresh)).
  - intros h w1 data Hs Hchange.
    destruct (callScroll_branches h w1 data Hs) as (property & value & _ & Hrun).
    assert (Hatt : attached w1 = ph_parentNode (placeholder data))
      by (unfold attached; now rewrite Hs).
    rewrite Hrun in Hchange. rewrite Hrun, Hatt in *.
    destruct (isInRange h w1), (ph_parentNode (placeholder data)) eqn:Ha.
    + exfalso. apply Hchange. unfold attached. cbn. now rewrite Hs.
    + left. split; [reflexivity|]. now exists property, value.
    + right. split; reflexivity.
    + exfalso. apply Hchange. unfold attached. cbn. now rewrite Hs.
  - intros s w1 data Hs.
    destruct (startSticky_effect s w1 data Hs) as (st_ph & st_el & Hrun & _ & _ & _ & Hw & Hh & Hl).
    eexists. eexists. split; [exact Hrun|]. split; [reflexivity|]. cbn. now split_and!.
  - intros w1. destruct (el_store w1) as [data|] eqn:Hs.
    + destruct (cleanUp_effect w1 data Hs) as (st & Hrun & _). now rewrite Hrun.
    + unfold cleanUp. js_run Hs. unfold attached. cbn. now rewrite Hs.
  - intros s w1. split_and!.
    + destruct (el_store w1) as [data|] eqn:Hs.
      * destruct (updatePlaceholderStyle_effect w1 data Hs) as (st & Hrun & _).
        rewrite Hrun. unfold attached. cbn. now rewrite Hs.
      * unfold updatePlaceholderStyle. now js_run Hs.
    + destruct (el_store w1) as [data|] eqn:Hs.
      * rewrite (bindEvents_effect w1 data Hs). reflexivity.
      * unfold bindEvents. now js_run Hs.
    + destruct (el_store w1) as [data|] eqn:Hs.
      * unfold unbindEvents. unfold bind at 1. rewrite (theHandlers_Some _ _ Hs). reflexivity.
      * unfold unbindEvents. now js_run Hs.
    + reflexivity.
    + now rewrite getZIndex_world.
Qed.

(** *** Events fired by scroll ticks *)

(** C6. In any state reached after [init] on a fresh page, a scroll tick
    leaves the placeholder attached exactly when the tick is in range. When
    the previous state was attached and the tick is out of range, exactly
    [stickyend] is dispatched and the active class is removed; when it was
    detached and the tick is in range, exactly [stickystart] is dispatched
    and the active class is added; otherwise no event is dispatched and the
    class list stays as it is. *)
Theorem scroll_tick_transitions (sticky : Sticky) (w0 : World) (es : list Event) (v : Viewport) :
  fresh w0 →
  let w := deliver_all (final_world (init sticky w0)) es in
  let w' := deliver w (Scroll v) in
  ∃ h,
    storedScroll w = Some h
    ∧ let inRange := isInRange h (set_viewport v w) in
      attached w' = inRange
      ∧ (attached w = true → inRange = false →
         el_dispatched w' = (el_dispatched w ++ ["stickyend"])%list
         ∧ activeClass sticky ∉ el_classList w')
      ∧ (attached w = false → inRange = true →
         el_dispatched w' = (el_dispatched w ++ ["stickystart"])%list
         ∧ activeClass sticky ∈ el_classList w')
      ∧ (attached w = inRange →
         el_dispatched w' = el_dispatched w ∧ el_classList w' = el_classList w).
Proof.
  intros Hfresh w w'.
  pose proof (reachable_initialized sticky w0 es Hfresh) as Hinit. fold w in Hinit.
  pose proof (set_viewport_initialized sticky _ v w Hinit) as Hinit'.
  pose proof Hinit' as (data & Hs & _).
  exists (scroll (handlers data)). split.
  { unfold storedScroll. cbn in Hs. now rewrite Hs. }
  destruct (dispatchEvent_initialized sticky _ _ data Hinit' Hs) as (_ & Hsc & _).
  destruct (callScroll_preserves sticky _ _ data Hinit' Hs) as (w1 & Hrun & Heff & _).
  assert (Hw' : w' = w1).
  { unfold w', deliver. cbn [event_type event_viewport]. now rewrite Hsc, Hrun. }
  rewrite Hw'. clear Hw' w'.
  assert (Hatt : attached w = ph_parentNode (placeholder data)).
  { unfold attached. cbn in Hs. now rewrite Hs. }
  rewrite Hatt.
  destruct Heff as ((data' & Hs' & _ & Ha' & _) & _ & Hcl & Hev & _).
  cbn [el_classList el_dispatched set_viewport] in Hcl, Hev.
  rewrite Hcl, Hev. unfold attached. rewrite Hs', Ha'.
  split_and!.
  - reflexivity.
  - intros -> ->. split; [reflexivity|apply not_elem_of_classList_remove].
  - intros -> ->. split; [reflexivity|apply elem_of_classList_add].
  - intros ->. destruct (isInRange _ _); cbn; now rewrite app_nil_r.
Qed.

End Properties.

(** ** The theorems on the example pages *)

Module Examples.

Import Demo.

Lemma calculateBoundaries_top_witness :
  @getComputedStyle (browser topPage) freshWorld TheElement "top" ≠ "auto"
  ∧ @calculateBoundaries (browser topPage) TheElement
      {| marginBottom := "12.5px"; marginTop := "0px" |} freshWorld
    = {| b_start := 300; b_end := 1087.5 |}.
Proof.
  assert (Htop : @getComputedStyle (browser topPage) freshWorld TheElement "top" ≠ "auto")
    by (vm_compute; intros Heq; discriminate Heq).
  split; [exact Htop|].
  destruct (@calculateBoundaries_top (browser topPage) TheElement
              {| marginBottom := "12.5px"; marginTop := "0px" |} freshWorld Htop) as (Heq & _).
  rewrite Heq. vm_compute. reflexivity.
Defined.

Lemma bottom_anchor_range_witness :
  @getComputedStyle (browser bottomPage) freshWorld TheElement "top" = "auto"
  ∧ is_Some (el_store (started bottomPage))
  ∧ @calculateBoundaries (browser bottomPage) TheElement
      {| marginBottom := "0px"; marginTop := "0px" |} freshWorld
    = {| b_start := 1050; b_end := 100 |}
  ∧ attached (final_world (@stickToBottom (browser bottomPage) bottomHandler
                             (started bottomPage))) = true.
Proof.
  assert (Hauto : @getComputedStyle (browser bottomPage) freshWorld TheElement "top" = "auto")
    by (vm_compute; reflexivity).
  destruct (el_store (started bottomPage)) as [data|] eqn:Hs;
    [|vm_compute in Hs; discriminate Hs].
  destruct (@bottom_anchor_range (browser bottomPage) TheElement
              {| marginBottom := "0px"; marginTop := "0px" |} freshWorld
              bottomHandler (started bottomPage) data) as (Hb & Hrange).
  destruct (Hrange Hs) as ((w' & Hrun & Hatt) & _).
  split_and!.
  - exact Hauto.
  - now exists data.
  - rewrite (Hb Hauto). vm_compute. reflexivity.
  - rewrite Hrun. cbn [final_world]. rewrite Hatt.
    assert (Ha : ph_parentNode (placeholder data) = true).
    { assert (Hd : (ph_parentNode ∘ placeholder) <$> el_store (started bottomPage) = Some true)
        by (vm_compute; reflexivity).
      rewrite Hs in Hd. now injection Hd. }
    rewrite Ha. vm_compute. reflexivity.
Defined.

Lemma init_twice_throws_witness :
  is_Some (el_store (started topPage))
  ∧ @init (browser topPage) sticky (started topPage)
    = Throws (Error "This element has already been initialized") (started topPage).
Proof.
  assert (Hs : is_Some (el_store (started topPage))).
  { destruct (el_store (started topPage)) as [data|] eqn:Hs; [now exists data|].
    vm_compute in Hs. discriminate Hs. }
  split; [exact Hs|].
  exact (@init_twice_throws (browser topPage) sticky (started topPage) Hs).
Defined.

Lemma destroy_before_init_throws_witness :
  el_store freshWorld = None
  ∧ returned (destroy sticky freshWorld) = false.
Proof.
  split; [reflexivity|].
  rewrite (destroy_before_init_throws sticky freshWorld eq_refl).
  reflexivity.
Defined.

(** C4 as specified fails when the style sheet applies after [init]: the
    bottom handler is built while [bottom] still computes to [auto], so its
    distance is [NaN]; on [load] the element is in range with
    [gap = 100 + 50 - 600], [gap + NaN <= 0] is false and [bottom] becomes
    [450px], where the specified rule ([gap + declaredBottom > 0]) clears it. *)
Lemma offset_specified_rule_counterexample :
  ∃ h,
    storedScroll (started latePage) = Some h
    ∧ sh_side h = StickToBottom
    ∧ PrimFloat.is_nan (sh_distanceFromSide h) = true
    ∧ @isInRange (browser latePage) h (set_viewport loaded (started latePage)) = true
    ∧ Style.getProperty
        (el_style (@deliver (browser latePage) (started latePage) (Load loaded))) "bottom"
      = "450px"
    ∧ @specifiedBottom (browser latePage) (100 + 50 - 600) (sh_distanceFromSide h) = "".
Proof.
  eexists. split; [vm_compute; reflexivity|].
  split_and!; vm_compute; reflexivity.
Defined.

Lemma offset_while_sticking_witness :
  is_Some (el_store topAt1080)
  ∧ Style.getProperty
      (el_style (final_world (@stickToTop (browser topPage) topHandler topAt1080))) "top"
    = "-30px"
  ∧ is_Some (el_store (started bottomPage))
  ∧ Style.getProperty
      (el_style (final_world (@stickToBottom (browser bottomPage) bottomHandler
                                (started bottomPage)))) "bottom"
    = "".
Proof.
  destruct (el_store topAt1080) as [data|] eqn:Hs; [|vm_compute in Hs; discriminate Hs].
  destruct (el_store (started bottomPage)) as [data'|] eqn:Hs';
    [|vm_compute in Hs'; discriminate Hs'].
  assert (Ha : ph_parentNode (placeholder data) = true).
  { assert (Hd : (ph_parentNode ∘ placeholder) <$> el_store topAt1080 = Some true)
      by (vm_compute; reflexivity).
    rewrite Hs in Hd. now injection Hd. }
  assert (Ha' : ph_parentNode (placeholder data') = true).
  { assert (Hd : (ph_parentNode ∘ placeholder) <$> el_store (started bottomPage) = Some true)
      by (vm_compute; reflexivity).
    rewrite Hs' in Hd. now injection Hd. }
  destruct (@offset_while_sticking (browser topPage) topHandler topAt1080 data Hs)
    as (Htop & _).
  destruct (@offset_while_sticking (browser bottomPage) bottomHandler (started bottomPage)
              data' Hs') as (_ & Hbottom).
  rewrite Ha in Htop. rewrite Ha' in Hbottom. cbv zeta in Htop, Hbottom.
  destruct Htop as (w1 & Hrun1 & Hval1 & _); [vm_compute; reflexivity|].
  destruct Hbottom as (w2 & Hrun2 & Hval2 & _); [vm_compute; reflexivity|].
  split_and!.
  - now exists data.
  - rewrite Hrun1. cbn [final_world]. rewrite Hval1. vm_compute. reflexivity.
  - now exists data'.
  - rewrite Hrun2. cbn [final_world]. rewrite Hval2. vm_compute. reflexivity.
Defined.

Lemma placeholder_attached_iff_sticking_witness :
  fresh freshWorld
  ∧ attached topAt400 = true
  ∧ isSticking sticky topAt400 = true
  ∧ is_Some (el_store (set_viewport (at_offset 400) (started topPage)))
  ∧ attached (final_world (@callScroll (browser topPage) topHandler
                             (set_viewport (at_offset 400) (started topPage))))
    ≠ attached (set_viewport (at_offset 400) (started topPage))
  ∧ (∃ property value,
       @callScroll (browser topPage) topHandler (set_viewport (at_offset 400) (started topPage))
       = bind (@startSticky (browser topPage) sticky)
              (λ _, modify (set_el_style <[property := value]>))
              (set_viewport (at_offset 400) (started topPage)))
  ∧ (∃ w', @startSticky (browser topPage) sticky
             (set_viewport (at_offset 400) (started topPage)) = Returns tt w'
           ∧ attached w' = true).
Proof.
  assert (Hfresh : fresh freshWorld) by (split; reflexivity).
  destruct (@placeholder_attached_iff_sticking (browser topPage) sticky freshWorld
              [Scroll (at_offset 400)] Hfresh) as (Hiff & Honly & Hstart & _).
  destruct (el_store (set_viewport (at_offset 400) (started topPage))) as [data|] eqn:Hs;
    [|vm_compute in Hs; discriminate Hs].
  assert (Hchange :
    attached (final_world (@callScroll (browser topPage) topHandler
                             (set_viewport (at_offset 400) (started topPage))))
    ≠ attached (set_viewport (at_offset 400) (started topPage)))
    by (vm_compute; intros Heq; discriminate Heq).
  split_and!.
  - exact Hfresh.
  - vm_compute. reflexivity.
  - unfold topAt400, started. rewrite <- Hiff. vm_compute. reflexivity.
  - now exists data.
  - exact Hchange.
  - destruct (Honly topHandler _ data Hs Hchange) as [[_ Hrun]|[Ha _]].
    + exact Hrun.
    + vm_compute in Ha. discriminate Ha.
  - destruct (Hstart sticky _ data Hs) as (w' & data' & Hrun & Hs' & Ha' & _).
    exists w'. split; [exact Hrun|]. unfold attached. now rewrite Hs'.
Defined.

Lemma scroll_tick_transitions_witness :
  fresh freshWorld
  ∧ attached (started topPage) = false
  ∧ el_dispatched tickInto = ["stickystart"]
  ∧ el_classList tickInto = ["sticky"; "sticky--active"]
  ∧ el_dispatched tickOut = ["stickystart"; "stickyend"].
Proof.
  assert (Hfresh : fresh freshWorld) by (split; reflexivity).
  pose proof (@scroll_tick_transitions (browser topPage) sticky freshWorld
                [] (at_offset 400) Hfresh) as (h & Hh & _ & _ & Hstart & _).
  pose proof (@scroll_tick_transitions (browser topPage) sticky freshWorld
                [Scroll (at_offset 400)] (at_offset 1200) Hfresh) as (h' & Hh' & _ & Hend & _).
  vm_compute in Hh, Hh'. injection Hh as <-. injection Hh' as <-.
  split_and!; [exact Hfresh|vm_compute; reflexivity| |vm_compute; reflexivity|].
  - destruct Hstart as [Hev _]; [vm_compute; reflexivity|vm_compute; reflexivity|].
    unfold tickInto, started. rewrite Hev. vm_compute. reflexivity.
  - destruct Hend as [Hev _]; [vm_compute; reflexivity|vm_compute; reflexivity|].
    unfold tickOut, topAt400, started. rewrite Hev. vm_compute. reflexivity.
Defined.

(** C7 as specified fails on an element that carries an inline width: after
    [init] and [destroy] the width is empty, not what it was. *)
Lemma destroy_round_trip_counterexample :
  Style.getProperty (el_style styledWorld) "width" = "100px"
  ∧ Style.getProperty
      (el_style (final_world
         (destroy sticky (final_world (@init (browser topPage) sticky styledWorld)))))
      "width" = "".
Proof. split; vm_compute; reflexivity. Defined.


End Examples.

(** ** The helpers on their own *)

Section Helpers.

(** *** helpers/style.js *)

Lemma copy_element_style (blueprint : string → string) (props : list string) (w : World) :
  Style.copyStyleProperties element_style (λ _, blueprint) props w
  = set_el_style (λ m, foldl (λ m' p, <[p := blueprint p]> m') m props) w.
Proof.
  unfold Style.copyStyleProperties. revert w.
  induction props as [|q props IH]; intros w; cbn [foldl].
  - now destruct w.
  - rewrite IH. now destruct w.
Qed.

Lemma foldl_insert_elem (blueprint : string → string) (props : list string)
    (m : gmap string string) (p : string) :
  p ∈ props → foldl (λ m' q, <[q := blueprint q]> m') m props !! p = Some (blueprint p).
Proof.
  revert m. induction props as [|q props IH] using rev_ind; intros m Hp.
  - now apply elem_of_nil in Hp.
  - rewrite foldl_app. cbn [foldl]. destruct (decide (q = p)) as [->|Hne].
    + now rewrite lookup_insert_eq.
    + rewrite lookup_insert_ne by exact Hne. apply IH.
      apply elem_of_app in Hp as [Hp|Hp]; [exact Hp|].
      apply list_elem_of_singleton in Hp. congruence.
Qed.

Lemma foldl_insert_frame (blueprint : string → string) (props : list string)
    (m : gmap string string) (p : string) :
  p ∉ props → foldl (λ m' q, <[q := blueprint q]> m') m props !! p = m !! p.
Proof.
  revert m. induction props as [|q props IH]; intros m Hp; [reflexivity|].
  apply not_elem_of_cons in Hp as [Hne Hp]. cbn [foldl].
  rewrite (IH _ Hp). now apply lookup_insert_ne.
Qed.

(** X2. [resetStyleProperties] empties exactly the listed properties of the
    element's style, whatever they held, and is the copy of a blueprint
    whose every value is the empty string; resetting twice is resetting
    once. *)
Theorem resetStyleProperties_listed_only (props : list string) (w : World) :
  let w' := Style.resetStyleProperties element_style props w in
  (∀ p, p ∈ props → Style.getProperty (el_style w') p = "")
  ∧ (∀ p, p ∉ props → el_style w' !! p = el_style w !! p)
  ∧ w' = Style.copyStyleProperties element_style (λ _ _, "") props w
  ∧ Style.resetStyleProperties element_style props w' = w'.
Proof.
  cbv zeta.
  assert (Hcopy : ∀ w0, Style.resetStyleProperties element_style props w0
                        = Style.copyStyleProperties element_style (λ _ _, "") props w0)
    by reflexivity.
  rewrite !Hcopy.
  rewrite !copy_element_style. split_and!.
  - intros p Hp. unfold Style.getProperty. cbn [el_style set_el_style].
    now rewrite (foldl_insert_elem (λ _, "") _ _ _ Hp).
  - intros p Hp. cbn [el_style set_el_style]. now apply (foldl_insert_frame (λ _, "")).
  - reflexivity.
  - destruct w; unfold set_el_style; cbn. f_equal.
    apply map_eq. intros p. destruct (decide (p ∈ props)) as [Hp|Hp].
    + now rewrite !(foldl_insert_elem (λ _, "") _ _ _ Hp).
    + now rewrite !(foldl_insert_frame (λ _, "") _ _ _ Hp).
Qed.

(** *** helpers/store.js *)

Lemma map_fold_insert_lookup {A B} (g : string → A → B) (b : gmap string B)
    (m : gmap string A) (key : string) :
  map_fold (λ k v acc, <[k := g k v]> acc) b m !! key
  = match m !! key with Some v => Some (g key v) | None => b !! key end.
Proof.
  revert key.
  apply (map_fold_weak_ind (λ r m, ∀ key, r !! key
           = match m !! key with Some v => Some (g key v) | None => b !! key end)).
  - intros key. now rewrite lookup_empty.
  - intros i x m' r Hi IH key. destruct (decide (i = key)) as [->|Hne].
    + now rewrite !lookup_insert_eq.
    + rewrite !lookup_insert_ne by exact Hne. apply IH.
Qed.

Lemma truthy_property (property : string) :
  property ≠ "" →
  bool_decide (Some property ≠ None ∧ Some property ≠ Some "") = true.
Proof. intros Hne. apply bool_decide_eq_true_2. split; congruence. Qed.

(** X3. What [getData] reads after [setData(object, value)] is [value]
    alone: the whole of it when the property is left out or is the empty
    string, and [value]'s own property otherwise, whatever was stored
    before. Data kept under another namespace is not affected. *)
Theorem store_setData_then_getData {V} (store : StoreClass.Store)
    (object : gmap string (gmap string V)) (value : gmap string V) :
  let object' := StoreClass.setData store object value in
  StoreClass.getData store object' None = StoreClass.Whole value
  ∧ StoreClass.getData store object' (Some "") = StoreClass.Whole value
  ∧ (∀ property, property ≠ "" →
       StoreClass.getData store object' (Some property)
       = match value !! property with
         | Some v => StoreClass.Property v
         | None => StoreClass.Undefined
         end)
  ∧ (∀ other property,
       StoreClass.namespace other ≠ StoreClass.namespace store →
       StoreClass.getData other object' property = StoreClass.getData other object property).
Proof.
  cbv zeta. unfold StoreClass.getData, StoreClass.setData. split_and!.
  - now rewrite lookup_insert_eq.
  - rewrite lookup_insert_eq. rewrite bool_decide_eq_false_2; [reflexivity|].
    intros [_ Hne]. now apply Hne.
  - intros property Hne. rewrite lookup_insert_eq.
    now rewrite (truthy_property _ Hne).
  - intros other property Hns.
    rewrite lookup_insert_ne by congruence.
    destruct (object !! StoreClass.namespace store); [reflexivity|].
    now rewrite lookup_insert_ne by congruence.
Qed.

(** X4. After [removeData(object)] every read gives [undefined], also when
    nothing was stored; removing undoes a [setData] on an object that had
    no data, and data kept under another namespace is not affected. *)
Theorem store_removeData_forgets {V} (store : StoreClass.Store)
    (object : gmap string (gmap string V)) (value : gmap string V) :
  (∀ property,
     StoreClass.getData store (StoreClass.removeData store object) property
     = StoreClass.Undefined)
  ∧ (object !! StoreClass.namespace store = None →
     StoreClass.removeData store (StoreClass.setData store object value) = object)
  ∧ (∀ other property,
       StoreClass.namespace other ≠ StoreClass.namespace store →
       StoreClass.getData other (StoreClass.removeData store object) property
       = StoreClass.getData other object property).
Proof.
  unfold StoreClass.getData, StoreClass.removeData, StoreClass.setData. split_and!.
  - intros property. now rewrite lookup_delete_eq.
  - intros Hnone. rewrite Hnone. rewrite insert_insert_eq, delete_insert_eq.
    now apply delete_id.
  - intros other property Hns. now rewrite lookup_delete_ne by congruence.
Qed.

(** *** The earlier variant: data and settings *)

(** X5. The earlier [setData] adds to the data instead of replacing it:
    setting one property leaves every other stored property as it was, and
    passing an object sets each of its pairs and keeps the properties it does
    not name. Passing an empty object still creates the (empty) data, and
    [removeData] forgets everything. *)
Theorem legacy_setData_merges {V} (element : gmap string (gmap string V))
    (pairs : gmap string V) (name : string) (value : V) :
  (∀ key, key ≠ "" →
     Legacy.getData (Legacy.setData element (inl name) value) (Some key)
     = if decide (key = name) then StoreClass.Property value
       else Legacy.getData element (Some key))
  ∧ (∀ key, key ≠ "" →
     Legacy.getData (Legacy.setData element (inr pairs) value) (Some key)
     = match pairs !! key with
       | Some v => StoreClass.Property v
       | None => Legacy.getData element (Some key)
       end)
  ∧ Legacy.getData (Legacy.setData element (inr ∅) value) None
    = StoreClass.Whole (default ∅ (element !! Legacy.namespace))
  ∧ (∀ property, Legacy.getData (Legacy.removeData element) property = StoreClass.Undefined).
Proof.
  assert (Hread : ∀ (bag : gmap string V) key, key ≠ "" →
            (if bool_decide (Some key ≠ None ∧ Some key ≠ Some "")
             then match bag !! default "" (Some key) with
                  | Some v => StoreClass.Property v
                  | None => StoreClass.Undefined
                  end
             else StoreClass.Whole bag)
            = match bag !! key with
              | Some v => StoreClass.Property v
              | None => StoreClass.Undefined
              end).
  { intros bag key Hne. now rewrite (truthy_property _ Hne). }
  assert (Hbag : ∀ key, key ≠ "" →
            Legacy.getData element (Some key)
            = match default ∅ (element !! Legacy.namespace) !! key with
              | Some v => StoreClass.Property v
              | None => StoreClass.Undefined
              end).
  { intros key Hne. unfold Legacy.getData.
    destruct (element !! Legacy.namespace) as [bag|]; [now apply Hread|].
    change (default ∅ None) with (∅ : gmap string V). now rewrite lookup_empty. }
  assert (Hcreated :
            default ∅ ((if element !! Legacy.namespace is None
                        then <[Legacy.namespace := ∅]> element else element)
                       !! Legacy.namespace)
            = default ∅ (element !! Legacy.namespace)).
  { destruct (element !! Legacy.namespace) as [bag|] eqn:Hb.
    - now rewrite Hb.
    - now rewrite lookup_insert_eq. }
  split_and!.
  - intros key Hne. rewrite (Hbag key Hne).
    unfold Legacy.getData, Legacy.setData. rewrite lookup_insert_eq, Hcreated.
    rewrite (Hread _ key Hne).
    destruct (decide (key = name)) as [->|Hkey].
    + now rewrite lookup_insert_eq.
    + now rewrite lookup_insert_ne by congruence.
  - intros key Hne. rewrite (Hbag key Hne).
    unfold Legacy.getData, Legacy.setData. rewrite lookup_insert_eq, Hcreated.
    rewrite (Hread _ key Hne).
    rewrite (map_fold_insert_lookup (λ _ v, v)).
    now destruct (pairs !! key).
  - unfold Legacy.getData, Legacy.setData. rewrite lookup_insert_eq, Hcreated.
    now rewrite map_fold_empty.
  - intros property. unfold Legacy.getData, Legacy.removeData.
    now rewrite lookup_delete_eq.
Qed.

Lemma mergeSettings_lookup (options : gmap string string) (key : string) :
  Legacy.mergeSettings (Some options) !! key
  = match defaults !! key with
    | Some value =>
        Some (match options !! key with
              | Some v => if decide (v = "") then value else v
              | None => value
              end)
    | None => None
    end.
Proof.
  unfold Legacy.mergeSettings. cbn [default].
  rewrite (map_fold_insert_lookup
             (λ property value, match options !! property with
                                | Some v => if decide (v = "") then value else v
                                | None => value
                                end)).
  destruct (defaults !! key); [reflexivity|apply lookup_empty].
Qed.

Lemma defaults_lookup (key : string) (value : string) :
  defaults !! key = Some value →
  (key = "selector" ∧ value = ".sticky") ∨ (key = "activeClass" ∧ value = "sticky--active").
Proof.
  unfold defaults. intros Hd.
  apply lookup_insert_Some in Hd as [[<- <-]|[_ Hd]]; [now left|].
  apply lookup_insert_Some in Hd as [[<- <-]|[_ Hd]]; [now right|].
  now rewrite lookup_empty in Hd.
Qed.

(** X6. The earlier [mergeSettings] returns the defaults when called
    without settings; otherwise its result has exactly the keys of the
    defaults, each with the setting's value unless that is missing or empty.
    It gives the same settings as the constructor of the current variant
    exactly when every option is non-empty and is one the defaults have. *)
Theorem legacy_mergeSettings_vs_assign (options : gmap string string) :
  Legacy.mergeSettings None = defaults
  ∧ (∀ key,
       Legacy.mergeSettings (Some options) !! key
       = match defaults !! key with
         | Some value =>
             Some (match options !! key with
                   | Some v => if decide (v = "") then value else v
                   | None => value
                   end)
         | None => None
         end)
  ∧ (Legacy.mergeSettings (Some options) = settings (Sticky_new options)
     ↔ ∀ key v, options !! key = Some v → v ≠ "" ∧ is_Some (defaults !! key)).
Proof.
  split_and!.
  - apply map_eq. intros key.
    change (Legacy.mergeSettings None) with (Legacy.mergeSettings (Some ∅)).
    rewrite mergeSettings_lookup, lookup_empty. now destruct (defaults !! key).
  - apply mergeSettings_lookup.
  - split.
    + intros Heq key v Hv.
      assert (Hk : Legacy.mergeSettings (Some options) !! key = Some v).
      { rewrite Heq. unfold Sticky_new. cbn [settings].
        now apply lookup_union_Some_l. }
      rewrite mergeSettings_lookup, Hv in Hk.
      destruct (defaults !! key) as [d|] eqn:Hd; [|discriminate Hk].
      split; [|now exists d].
      destruct (decide (v = "")) as [->|Hne]; [|exact Hne].
      injection Hk as ->. apply defaults_lookup in Hd as [[_ Hd]|[_ Hd]]; discriminate Hd.
    + intros Hall. apply map_eq. intros key.
      rewrite mergeSettings_lookup. unfold Sticky_new. cbn [settings].
      rewrite lookup_union.
      destruct (options !! key) as [v|] eqn:Hv.
      * destruct (Hall key v Hv) as [Hne [d Hd]]. rewrite Hd.
        now rewrite decide_False by exact Hne.
      * now destruct (defaults !! key).
Qed.

End Helpers.

(** ** More of the controller *)

Section Controller.
Context `{Browser}.

Local Open Scope js_scope.

(** Running straight-line code on a world whose data is known. *)
Ltac js_straight Hs :=
  unfold theHandlers;
  unfold bind, gets, modify, ret, throw, theData, Store.getData, Store.removeData;
  repeat (progress (cbn; rewrite ?Hs)).

(** *** Not-a-number in the boundaries *)

Lemma is_nan_Prim2SF (x : float) : PrimFloat.is_nan x = true ↔ Prim2SF x = S754_nan.
Proof.
  unfold PrimFloat.is_nan. rewrite FloatAxioms.eqb_spec. split.
  - destruct (Prim2SF x) as [s|s| |s m e]; try reflexivity; intros Hx; exfalso.
    + now destruct s.
    + now destruct s.
    + unfold SFeqb, SFcompare in Hx.
      rewrite Z.compare_refl, Pos.compare_cont_refl in Hx. now destruct s.
  - now intros ->.
Qed.

Lemma add_nan_r (x y : float) : PrimFloat.is_nan y = true → PrimFloat.is_nan (x + y) = true.
Proof.
  rewrite !is_nan_Prim2SF, FloatAxioms.add_spec. intros ->.
  now destruct (Prim2SF x) as [s|s| |s m e].
Qed.

Lemma add_nan_l (x y : float) : PrimFloat.is_nan x = true → PrimFloat.is_nan (x + y) = true.
Proof.
  rewrite !is_nan_Prim2SF, FloatAxioms.add_spec. now intros ->.
Qed.

Lemma sub_nan_r (x y : float) : PrimFloat.is_nan y = true → PrimFloat.is_nan (x - y) = true.
Proof.
  rewrite !is_nan_Prim2SF, FloatAxioms.sub_spec. intros ->.
  now destruct (Prim2SF x) as [s|s| |s m e].
Qed.

Lemma leb_nan_l (x y : float) : PrimFloat.is_nan x = true → (x <=? y)%float = false.
Proof.
  rewrite is_nan_Prim2SF, FloatAxioms.leb_spec. now intros ->.
Qed.

Lemma leb_nan_r (x y : float) : PrimFloat.is_nan y = true → (x <=? y)%float = false.
Proof.
  rewrite is_nan_Prim2SF, FloatAxioms.leb_spec. intros ->.
  now destruct (Prim2SF x) as [s|s| |s m e].
Qed.

(** X9. A tick on which the declared offset of the measured node does not
    parse to a number (its computed [top] when that is not [auto], its
    computed [bottom] otherwise; so an element that declares neither) is out
    of range for both handlers: the call returns with the placeholder
    detached, and changes nothing when it was detached before. *)
Theorem unparsable_offset_never_sticks (h : ScrollHandler) (w : World) (data : Data) :
  el_store w = Some data →
  let node := if ph_parentNode (placeholder data) then ThePlaceholder else TheElement in
  let declared :=
    if decide (getComputedStyle w node "top" ≠ "auto")
    then parseFloat (getComputedStyle w node "top")
    else parseFloat (getComputedStyle w node "bottom") in
  PrimFloat.is_nan declared = true →
  isInRange h w = false
  ∧ ∃ w', callScroll h w = Returns tt w'
          ∧ attached w' = false
          ∧ (ph_parentNode (placeholder data) = false → w' = w).
Proof.
  intros Hs node declared Hnan.
  assert (Hout : isInRange h w = false).
  { unfold isInRange, attached. rewrite Hs. fold node.
    assert (Hstart : PrimFloat.is_nan
                       (b_start (calculateBoundaries node (sh_stickyMargins h) w)) = true).
    { unfold calculateBoundaries. subst declared.
      destruct (decide (getComputedStyle w node "top" ≠ "auto")); cbn [b_start];
        apply add_nan_l; [now apply sub_nan_r|now apply add_nan_r]. }
    destruct (sh_side h).
    - now rewrite (leb_nan_l _ _ Hstart).
    - now rewrite (leb_nan_r _ _ Hstart). }
  split; [exact Hout|].
  destruct (callScroll_effect h w data Hs) as (w' & Hrun & Heff).
  exists w'. split; [exact Hrun|]. rewrite Hout in Heff.
  destruct Heff as ((data' & Hs' & _ & Ha' & _) & _). split.
  - unfold attached. now rewrite Hs'.
  - intros Ha. destruct (callScroll_branches h w data Hs) as (property & value & _ & Hrun').
    rewrite Hout, Ha, Hrun in Hrun'. now injection Hrun'.
Qed.

(** *** Reading the z-index and the sticky margins *)

(** X7. [getZIndex] leaves the page as it found it: every inline property
    of the element, [position] included, reads as before and nothing else
    changes. The computed [z-index] is read while the inline [position] is
    [relative]; the result is that number, or, when it is not a number, the
    element's index among the elements matching the selector plus one. *)
Theorem getZIndex_restores_position (selector : string) (w : World) :
  let w' := (getZIndex selector w).2 in
  let computed :=
    toNumber (getComputedStyle (set_el_style <["position" := "relative"]> w) TheElement "zIndex") in
  (∀ p, Style.getProperty (el_style w') p = Style.getProperty (el_style w) p)
  ∧ w' = set_el_style (λ _, el_style w') w
  ∧ (getZIndex selector w).1
    = if PrimFloat.is_nan computed then (selectorIndexOf w' selector + 1)%float else computed.
Proof.
  cbv zeta. rewrite getZIndex_world. split_and!.
  - intros p. cbn [el_style set_el_style]. rewrite !getProperty_insert.
    destruct (decide ("position" = p)) as [<-|_]; reflexivity.
  - reflexivity.
  - unfold getZIndex, getComputedZIndex.
    destruct (PrimFloat.is_nan _); reflexivity.
Qed.

Lemma filter_all (c : string) (l : list string) :
  c ∉ l → filter (λ x, x ≠ c) l = l.
Proof.
  induction l as [|x l IH]; intros Hc; [reflexivity|].
  apply not_elem_of_cons in Hc as [Hne Hc].
  rewrite filter_cons_True by congruence. now rewrite (IH Hc).
Qed.

Lemma classList_add_remove (c : string) (l : list string) :
  c ∉ l → classList_remove c (classList_add c l) = l.
Proof.
  intros Hc. unfold classList_remove, classList_add.
  rewrite decide_False by exact Hc. rewrite filter_app, (filter_all c l Hc).
  rewrite filter_cons_False, filter_nil by (intros Hne; now apply Hne).
  apply app_nil_r.
Qed.

(** X8. [getStickyMargins] reads the two margins while the element carries
    the active class and returns with the class removed. On an element that
    did not carry the class the page is left exactly as it was; on one that
    did, the class is gone afterwards. The other classes are kept either
    way. *)
Theorem getStickyMargins_toggles_class (sticky : Sticky) (w : World) :
  let c := activeClass sticky in
  let w' := (getStickyMargins sticky w).2 in
  (∃ w1,
     c ∈ el_classList w1
     ∧ w1 = set_el_classList (λ _, el_classList w1) w
     ∧ (c ∈ el_classList w → w1 = w)
     ∧ (getStickyMargins sticky w).1
       = {| marginBottom := getComputedStyle w1 TheElement "marginBottom";
            marginTop := getComputedStyle w1 TheElement "marginTop" |})
  ∧ (c ∉ el_classList w')
  ∧ (∀ x, x ≠ c → (x ∈ el_classList w' ↔ x ∈ el_classList w))
  ∧ w' = set_el_classList (λ _, el_classList w') w
  ∧ (c ∉ el_classList w → w' = w).
Proof.
  cbv zeta. unfold getStickyMargins. cbn [fst snd]. split_and!.
  - eexists. split_and!; [| |intros Hin|reflexivity].
    + cbn [el_classList set_el_classList]. apply elem_of_classList_add.
    + reflexivity.
    + destruct w; unfold set_el_classList; cbn in *. f_equal.
      unfold classList_add. now rewrite decide_True by exact Hin.
  - apply not_elem_of_classList_remove.
  - intros x Hne. cbn [el_classList set_el_classList].
    unfold classList_remove. rewrite list_elem_of_filter.
    unfold classList_add. destruct (decide _) as [Hin|Hout].
    + tauto.
    + rewrite elem_of_app, list_elem_of_singleton. tauto.
  - now destruct w.
  - intros Hc. destruct w; unfold set_el_classList; cbn in *. f_equal.
    now apply classList_add_remove.
Qed.

(** *** Entering and leaving sticky mode *)

(** [startSticky] with what it keeps of the placeholder's style. *)
Lemma startSticky_frame (sticky : Sticky) (w : World) (data : Data) :
  el_store w = Some data →
  ∃ st_ph st_el,
    startSticky sticky w
      = Returns tt
          (set_el_classList (classList_add (activeClass sticky))
             (fireEvent "stickystart"
                (Store.setData
                   {| placeholder :=
                        {| ph_nodeName := ph_nodeName (placeholder data);
                           ph_style := st_ph;
                           ph_parentNode := true |};
                      handlers := handlers data;
                      position := Style.getProperty (el_style w) "position" |}
                   (set_el_style (λ _, st_el) w))))
    ∧ Style.getProperty st_el "position" = "fixed"
    ∧ (∀ p, p ∈ properties → Style.getProperty st_el p = Style.getProperty st_ph p)
    ∧ (∀ p, p ∉ "position" :: properties → st_el !! p = el_style w !! p)
    ∧ Style.getProperty st_ph "width" = px (rect_width (getBoundingClientRect w TheElement))
    ∧ Style.getProperty st_ph "height" = px (rect_height (getBoundingClientRect w TheElement))
    ∧ Style.getProperty st_ph "left" = px (rect_left (getBoundingClientRect w TheElement))
    ∧ (∀ p, p ∉ ["top"; "bottom"; "marginTop"; "marginBottom"; "marginLeft"; "marginRight";
                 "width"; "height"; "left"] →
            st_ph !! p = ph_style (placeholder data) !! p).
Proof.
  intros Hs.
  destruct (updatePlaceholderStyle_effect w data Hs) as (st & Hupd & Hw & Hh & Hl & Hkeep).
  exists st.
  exists (foldl (λ m p, <[p := Style.getProperty st p]> m)
            (<["position" := "fixed"]> (el_style w)) properties).
  split_and!; try assumption.
  - unfold startSticky. unfold bind at 1. rewrite Hupd.
    js_straight Hs. reflexivity.
  - cbn. now rewrite !getProperty_insert.
  - intros p Hp. cbn. rewrite !getProperty_insert.
    unfold properties in Hp. rewrite !elem_of_cons, elem_of_nil in Hp.
    repeat (destruct Hp as [->|Hp]; [reflexivity|]). done.
  - intros p Hp. unfold properties in Hp. rewrite !not_elem_of_cons in Hp.
    cbn. rewrite !lookup_insert_ne; [reflexivity|..]; intros <-; intuition congruence.
Qed.

(** [endSticky] with what it keeps of the element's style. *)
Lemma endSticky_frame (sticky : Sticky) (w : World) (data : Data) :
  el_store w = Some data →
  ∃ st,
    endSticky sticky w
      = Returns tt
          (set_el_classList (classList_remove (activeClass sticky))
             (fireEvent "stickyend"
                (Store.setData (with_placeholder (set_ph_parentNode false) data)
                   (set_el_style (λ _, st) w))))
    ∧ Style.getProperty st "position" = position data
    ∧ (∀ p, p ∈ touched → Style.getProperty st p = "")
    ∧ (∀ p, p ∉ "position" :: touched → st !! p = el_style w !! p).
Proof.
  intros Hs.
  exists (<["position" := position data]>
            (foldl (λ st p, <[p := ""]> st) (el_style w)
               (properties ++ ["marginTop"; "marginBottom"; "top"; "bottom"])%list)).
  split_and!.
  - unfold endSticky, cleanUp. js_straight Hs.
    destruct (ph_parentNode (placeholder data)) eqn:Ha; cbn.
    + f_equal. destruct w; cbn in *; subst; reflexivity.
    + rewrite (detach_detached _ Ha). f_equal.
      destruct w; cbn in *; subst; reflexivity.
  - now rewrite getProperty_insert.
  - intros p Hp. cbn. rewrite !getProperty_insert.
    unfold touched in Hp. rewrite !elem_of_cons, elem_of_nil in Hp.
    repeat (destruct Hp as [->|Hp]; [reflexivity|]). done.
  - intros p Hp. unfold touched in Hp. rewrite !not_elem_of_cons in Hp.
    cbn. rewrite !lookup_insert_ne; [reflexivity|..]; intros <-; intuition congruence.
Qed.

(** X10. [startSticky] makes the element [fixed] with the size and place it
    had in the flow: its inline [width], [height] and [left] become those of
    its bounding box measured at the start of the call, its inline [zIndex]
    the placeholder's. Of the element's inline style only [position] and the
    six copied properties change (the offsets [top] and [bottom] stay), and
    one [stickystart] is dispatched. *)
Theorem startSticky_takes_footprint (sticky : Sticky) (w : World) (data : Data) :
  el_store w = Some data →
  let box := getBoundingClientRect w TheElement in
  ∃ w',
    startSticky sticky w = Returns tt w'
    ∧ Style.getProperty (el_style w') "position" = "fixed"
    ∧ Style.getProperty (el_style w') "width" = px (rect_width box)
    ∧ Style.getProperty (el_style w') "height" = px (rect_height box)
    ∧ Style.getProperty (el_style w') "left" = px (rect_left box)
    ∧ Style.getProperty (el_style w') "zIndex"
      = Style.getProperty (ph_style (placeholder data)) "zIndex"
    ∧ (∀ p, p ∉ "position" :: properties → el_style w' !! p = el_style w !! p)
    ∧ el_dispatched w' = (el_dispatched w ++ ["stickystart"])%list
    ∧ listeners w' = listeners w.
Proof.
  intros Hs box.
  destruct (startSticky_frame sticky w data Hs)
    as (st_ph & st_el & Hrun & Hfixed & Hcopy & Hframe & Hw & Hh & Hl & Hkeep).
  eexists. split; [exact Hrun|]. cbn. split_and!; try done.
  - rewrite Hcopy by (unfold properties; rewrite !elem_of_cons; tauto). exact Hw.
  - rewrite Hcopy by (unfold properties; rewrite !elem_of_cons; tauto). exact Hh.
  - rewrite Hcopy by (unfold properties; rewrite !elem_of_cons; tauto). exact Hl.
  - rewrite Hcopy by (unfold properties; rewrite !elem_of_cons; tauto).
    unfold Style.getProperty. rewrite Hkeep; [reflexivity|].
    rewrite !not_elem_of_cons. split_and!; try discriminate. apply not_elem_of_nil.
Qed.

(** X11. Entering sticky mode and leaving it again gives the element back
    the inline [position] it had before, with the ten touched properties
    empty and every other inline property as it was; the placeholder is
    detached, the active class is absent, the handlers are the same, and
    exactly [stickystart] then [stickyend] were dispatched. *)
Theorem startSticky_endSticky_round_trip (sticky : Sticky) (w : World) (data : Data) :
  el_store w = Some data →
  ∃ w',
    (startSticky sticky ;; endSticky sticky) w = Returns tt w'
    ∧ Style.getProperty (el_style w') "position" = Style.getProperty (el_style w) "position"
    ∧ (∀ p, p ∈ touched → Style.getProperty (el_style w') p = "")
    ∧ (∀ p, p ∉ "position" :: touched → el_style w' !! p = el_style w !! p)
    ∧ attached w' = false
    ∧ (activeClass sticky ∉ el_classList w')
    ∧ el_dispatched w' = (el_dispatched w ++ ["stickystart"; "stickyend"])%list
    ∧ storedScroll w' = storedScroll w
    ∧ listeners w' = listeners w.
Proof.
  intros Hs.
  destruct (startSticky_frame sticky w data Hs)
    as (st_ph & st_el & Hrun & _ & _ & Hframe & _).
  unfold bind. rewrite Hrun.
  match goal with |- context [endSticky sticky ?w0] => set (w1 := w0) end.
  match type of Hrun with context [Store.setData ?d0 _] => set (d1 := d0) in * end.
  assert (Hs1 : el_store w1 = Some d1) by reflexivity.
  destruct (endSticky_frame sticky w1 d1 Hs1) as (st & Hend & Hpos & Htouched & Hframe').
  rewrite Hend. eexists. split; [reflexivity|]. cbn. split_and!; try done.
  - intros p Hp. rewrite (Hframe' p Hp). cbn. apply Hframe.
    unfold touched, properties in *. rewrite !not_elem_of_cons in *. tauto.
  - apply not_elem_of_classList_remove.
  - now rewrite <- List.app_assoc.
  - unfold storedScroll. now rewrite Hs.
Qed.

(** *** Listeners *)

Lemma filter_id {A} (P : A → Prop) `{∀ x, Decision (P x)} (l : list A) :
  (∀ x, x ∈ l → P x) → filter P l = l.
Proof.
  induction l as [|x l IH]; intros Hall; [reflexivity|].
  rewrite filter_cons_True by (apply Hall; left).
  rewrite IH; [reflexivity|]. intros y Hy. apply Hall. now right.
Qed.

(** X14. [unbindEvents] undoes [bindEvents]: on a window whose other
    listeners are not the two stored handlers, binding appends the three
    listeners of the library after the existing ones, and unbinding then
    gives back exactly the world before, the other listeners in their
    order. *)
Theorem bindEvents_unbindEvents_round_trip (w : World) (data : Data) :
  el_store w = Some data →
  (∀ l, l ∈ listeners w →
        callback_id (l_callback l) ≠ sh_id (scroll (handlers data))
        ∧ callback_id (l_callback l) ≠ rh_id (resize (handlers data))) →
  ∃ w1, bindEvents w = Returns tt w1
        ∧ listeners w1 = (listeners w ++ bound (handlers data) (passiveSupported w))%list
        ∧ unbindEvents w1 = Returns tt w.
Proof.
  intros Hs Hforeign.
  rewrite (bindEvents_effect w data Hs). eexists. split; [reflexivity|]. split; [reflexivity|].
  unfold unbindEvents. unfold bind at 1. rewrite (theHandlers_Some _ data) by exact Hs.
  unfold bind, gets, modify, removeEventListener, isPassiveEventListenerSupported.
  f_equal. destruct w; unfold set_listeners; cbn in *. f_equal.
  rewrite !filter_app.
  do 3 (rewrite (filter_id _ listeners0)
          by (intros l Hl [_ Hid]; destruct (Hforeign l Hl) as [Hid1 Hid2]; auto)).
  rewrite <- (app_nil_r listeners0) at 2. f_equal.
  unfold bound.
  repeat (rewrite ?filter_cons, ?filter_nil; cbn; repeat case_decide);
    try reflexivity; exfalso; intuition (congruence || discriminate).
Qed.

(** X12. However many load, scroll and resize events follow [init] on a
    fresh page, the window holds exactly three listeners: the stored scroll
    handler for [load] and for [scroll] and the stored resize handler for
    [resize]. A resize replaces them, it does not add to them. A [load]
    event then does what a [scroll] event does. *)
Theorem reachable_listeners_exact (sticky : Sticky) (w0 : World) (es : list Event) :
  fresh w0 →
  let w := deliver_all (final_world (init sticky w0)) es in
  ∃ data,
    el_store w = Some data
    ∧ listeners w =
        [ {| l_type := "load"; l_callback := ScrollCallback (scroll (handlers data));
             l_options := Omitted |};
          {| l_type := "scroll"; l_callback := ScrollCallback (scroll (handlers data));
             l_options := if passiveSupported w then PassiveOptions true else UseCapture false |};
          {| l_type := "resize"; l_callback := ResizeCallback (resize (handlers data));
             l_options := Omitted |} ]
    ∧ ∀ v, deliver w (Load v) = deliver w (Scroll v).
Proof.
  intros Hfresh w.
  pose proof (reachable_initialized sticky w0 es Hfresh) as Hinit. fold w in Hinit.
  pose proof Hinit as (data & Hs & _ & _ & Hls & _).
  exists data. split_and!; [exact Hs|exact Hls|].
  intros v.
  pose proof (set_viewport_initialized sticky _ v w Hinit) as Hinit'.
  destruct (dispatchEvent_initialized sticky _ _ data Hinit' Hs) as (Hl & Hsc & _).
  unfold deliver. cbn [event_type event_viewport]. now rewrite Hl, Hsc.
Qed.

Lemma deliver_all_unbound (es : list Event) (w : World) :
  listeners w = [] →
  let w' := deliver_all w es in
  el_style w' = el_style w
  ∧ el_classList w' = el_classList w
  ∧ el_store w' = el_store w
  ∧ el_dispatched w' = el_dispatched w
  ∧ listeners w' = [].
Proof.
  revert w. induction es as [|e es IH]; intros w Hls; [now split_and!|].
  cbn [deliver_all foldl] in *.
  assert (Hstep : deliver w e = set_viewport (event_viewport e) w).
  { unfold deliver, dispatchEvent. cbn [listeners set_viewport]. now rewrite Hls. }
  rewrite Hstep. apply (IH (set_viewport (event_viewport e) w)). exact Hls.
Qed.

(** X13. After [destroy] the library reacts to nothing: whatever load,
    scroll and resize events follow, the element's inline style, class list
    and dispatched events stay as [destroy] left them, the element has no
    data and the window no listener. *)
Theorem destroy_silences (sticky : Sticky) (w0 : World) (es later : list Event) :
  fresh w0 →
  ∃ w',
    destroy sticky (deliver_all (final_world (init sticky w0)) es) = Returns tt w'
    ∧ el_style (deliver_all w' later) = el_style w'
    ∧ el_classList (deliver_all w' later) = el_classList w'
    ∧ el_store (deliver_all w' later) = None
    ∧ el_dispatched (deliver_all w' later) = el_dispatched w'
    ∧ listeners (deliver_all w' later) = [].
Proof.
  intros Hfresh.
  pose proof (reachable_initialized sticky w0 es Hfresh) as Hinit.
  destruct (destroy_effect sticky _ _ Hinit) as (w' & Hrun & [Hnone Hls] & _).
  exists w'. split; [exact Hrun|].
  destruct (deliver_all_unbound later w' Hls) as (Hst & Hcl & Hstore & Hev & Hls').
  rewrite Hnone in Hstore. now split_and!.
Qed.

(** *** Calls on an element without data *)

(** X16. On an element without data the scroll handlers, [startSticky],
    [updatePlaceholderStyle], [bindEvents] and [unbindEvents] throw a
    [TypeError] and leave the page as it is; [endSticky] and the resize
    handler throw it after the ten inline properties were reset, and
    dispatch no event. *)
Theorem calls_without_data_throw (h : ScrollHandler) (r : ResizeHandler) (sticky : Sticky)
    (w : World) :
  el_store w = None →
  callScroll h w = Throws TypeError w
  ∧ startSticky sticky w = Throws TypeError w
  ∧ updatePlaceholderStyle w = Throws TypeError w
  ∧ bindEvents w = Throws TypeError w
  ∧ unbindEvents w = Throws TypeError w
  ∧ endSticky sticky w
    = Throws TypeError
        (Style.resetStyleProperties element_style
           (properties ++ ["marginTop"; "marginBottom"; "top"; "bottom"])%list w)
  ∧ callResize r w
    = Throws TypeError
        (Style.resetStyleProperties element_style
           (properties ++ ["marginTop"; "marginBottom"; "top"; "bottom"])%list w).
Proof.
  intros Hnone. split_and!.
  - unfold callScroll, stickToTop, stickToBottom. destruct (sh_side h); now js_straight Hnone.
  - unfold startSticky, updatePlaceholderStyle. now js_straight Hnone.
  - unfold updatePlaceholderStyle. now js_straight Hnone.
  - unfold bindEvents. now js_straight Hnone.
  - unfold unbindEvents. now js_straight Hnone.
  - unfold endSticky, cleanUp. now js_straight Hnone.
  - unfold callResize, destroy, cleanUp. now js_straight Hnone.
Qed.

(** *** The placeholder between events *)

Lemma callScroll_keeps_placeholder (h : ScrollHandler) (w : World) (data : Data) :
  el_store w = Some data →
  ∃ w' data',
    callScroll h w = Returns tt w'
    ∧ el_store w' = Some data'
    ∧ el_nodeName w' = el_nodeName w
    ∧ ph_nodeName (placeholder data') = ph_nodeName (placeholder data)
    ∧ ∀ p, p ∉ ["top"; "bottom"; "marginTop"; "marginBottom"; "marginLeft"; "marginRight";
                "width"; "height"; "left"] →
           ph_style (placeholder data') !! p = ph_style (placeholder data) !! p.
Proof.
  intros Hs.
  destruct (callScroll_branches h w data Hs) as (property & value & _ & Hrun).
  rewrite Hrun.
  destruct (isInRange h w), (ph_parentNode (placeholder data)) eqn:Ha.
  - eexists _, data. split; [reflexivity|]. cbn. now split_and!.
  - destruct (startSticky_frame (sh_sticky h) w data Hs)
      as (st_ph & st_el & Hstart & _ & _ & _ & _ & _ & _ & Hkeep).
    unfold bind. rewrite Hstart.
    eexists _, _. split; [reflexivity|]. cbn. split; [reflexivity|]. cbn. now split_and!.
  - destruct (endSticky_effect (sh_sticky h) w data Hs) as (st & Hend & _).
    rewrite Hend. eexists _, _. split; [reflexivity|]. cbn. split; [reflexivity|].
    cbn. now split_and!.
  - exists w, data. now split_and!.
Qed.

Lemma callScroll_hiddenPlaceholder (h : ScrollHandler) (name : string) (w : World) :
  hiddenPlaceholder name w →
  ∃ w', callScroll h w = Returns tt w' ∧ hiddenPlaceholder name w'.
Proof.
  intros (Hname & data & Hs & Hph & Hvis).
  destruct (callScroll_keeps_placeholder h w data Hs)
    as (w' & data' & Hrun & Hs' & Hname' & Hph' & Hkeep).
  exists w'. split; [exact Hrun|]. split; [congruence|].
  exists data'. split_and!; [exact Hs'|congruence|].
  rewrite Hkeep; [exact Hvis|].
  rewrite !not_elem_of_cons. split_and!; try discriminate. apply not_elem_of_nil.
Qed.

(** [init] up to the call of the scroll handler, as to the placeholder. *)
Lemma init_placeholder (sticky : Sticky) (w : World) :
  el_store w = None →
  ∃ wB data,
    init sticky w = callScroll (scroll (handlers data)) wB
    ∧ hiddenPlaceholder (el_nodeName w) wB
    ∧ el_store wB = Some data.
Proof.
  intros Hnone. unfold init.
  destruct (onScroll_effect sticky w) as (h & Hh & Hsh).
  unfold bind at 1. unfold gets at 1. unfold Store.getData at 1. rewrite Hnone.
  unfold bind at 1. unfold gets at 1.
  unfold bind at 1. rewrite Hh.
  unfold bind at 1. unfold onResize at 1.
  set (r := {| rh_id := _; rh_sticky := sticky |}).
  unfold bind at 1. unfold gets at 1.
  unfold bind at 1. unfold modify at 1.
  unfold bind at 1.
  match goal with |- context [getZIndex ?sel ?w0] =>
    pose proof (getZIndex_world sel w0) as Hz; destruct (getZIndex sel w0) as [z wz] end.
  cbn [snd] in Hz. subst wz.
  unfold bind at 1. unfold modify at 1.
  match goal with |- context [Style.copyStyleProperties ?a ?b ?c ?w0] =>
    set (wX := Style.copyStyleProperties a b c w0) end.
  assert (∃ dX, el_store wX = Some dX
                ∧ ph_nodeName (placeholder dX) = el_nodeName w
                ∧ ph_style (placeholder dX) !! "visibility" = Some "hidden"
                ∧ el_nodeName wX = el_nodeName w)
    as (dX & HsX & HnX & HvX & HeX).
  { eexists. split; [subst wX; cbn; reflexivity|]. cbn. now split_and!. }
  destruct (updatePlaceholderStyle_effect wX dX HsX) as (st & Hupd & _ & _ & _ & Hkeep).
  unfold bind at 1. rewrite Hupd.
  set (dB := with_placeholder (set_ph_style (λ _, st)) dX).
  assert (HsB : el_store (Store.setData dB wX) = Some dB) by reflexivity.
  unfold bind at 1. rewrite (bindEvents_effect _ _ HsB).
  match goal with |- context [set_listeners ?f ?w0] => set (wB := set_listeners f w0) end.
  assert (HsB' : el_store wB = Some dB) by reflexivity.
  unfold bind at 1. rewrite (theHandlers_Some _ _ HsB').
  exists wB, dB. split; [reflexivity|]. split; [|exact HsB'].
  split; [exact HeX|]. exists dB. split_and!; [exact HsB'|exact HnX|].
  subst dB. cbn. rewrite Hkeep; [exact HvX|].
  rewrite !not_elem_of_cons. split_and!; try discriminate. apply not_elem_of_nil.
Qed.

Lemma destroy_nodeName (sticky : Sticky) (original : string) (w : World) :
  initialized sticky original w →
  el_nodeName (final_world (destroy sticky w)) = el_nodeName w.
Proof.
  intros (data & Hs & _ & _ & Hls & _).
  destruct (cleanUp_effect w data Hs) as (st & Hclean & _).
  unfold destroy. unfold bind at 1. rewrite Hclean.
  unfold bind at 1.
  match goal with |- context [unbindEvents ?w0] => set (w1 := w0) end.
  assert (Hs1 : el_store w1 = Some (with_placeholder (set_ph_parentNode false) data))
    by reflexivity.
  rewrite (unbindEvents_effect w1 _ Hs1) by exact Hls.
  reflexivity.
Qed.

Lemma deliver_hiddenPlaceholder (sticky : Sticky) (original name : string)
    (w : World) (e : Event) :
  initialized sticky original w →
  hiddenPlaceholder name w →
  hiddenPlaceholder name (deliver w e).
Proof.
  intros Hinit Hhid. unfold deliver.
  pose proof (set_viewport_initialized sticky original (event_viewport e) w Hinit) as Hinit'.
  assert (Hhid' : hiddenPlaceholder name (set_viewport (event_viewport e) w)) by exact Hhid.
  set (wv := set_viewport (event_viewport e) w) in *.
  pose proof Hinit' as (data & Hs & _ & Hrh & _).
  destruct (dispatchEvent_initialized sticky original wv data Hinit' Hs) as (Hl & Hsc & Hr).
  destruct (callScroll_hiddenPlaceholder (scroll (handlers data)) name wv Hhid')
    as (w1 & Hrun1 & Hhid1).
  destruct e; cbn [event_type].
  - now rewrite Hl, Hrun1.
  - now rewrite Hsc, Hrun1.
  - rewrite Hr. unfold callResize. rewrite Hrh.
    destruct (destroy_effect sticky original wv Hinit') as (wd & Hdestroy & [Hnone _] & _).
    pose proof (destroy_nodeName sticky original wv Hinit') as Hnd.
    rewrite Hdestroy in Hnd. cbn [final_world] in Hnd.
    unfold bind at 1. rewrite Hdestroy.
    destruct (init_placeholder sticky wd Hnone) as (wB & dataB & Hinit2 & HhidB & HsB).
    destruct (callScroll_hiddenPlaceholder (scroll (handlers dataB)) _ wB HhidB)
      as (w2 & Hrun2 & Hhid2).
    unfold bind at 1. rewrite Hinit2, Hrun2.
    pose proof Hhid2 as (_ & data2 & Hs2 & _).
    unfold bind at 1. rewrite (theHandlers_Some _ _ Hs2).
    destruct (callScroll_hiddenPlaceholder (scroll (handlers data2)) _ w2 Hhid2)
      as (w3 & Hrun3 & Hhid3).
    rewrite Hrun3. cbn [final_world].
    rewrite Hnd in Hhid3. destruct Hhid' as [Hname _]. now rewrite Hname in Hhid3.
Qed.

(** X15. After [init] on a fresh page and any load, scroll and resize
    events, the element carries a placeholder that is an element of the
    element's own tag name and whose inline [visibility] is [hidden]. *)
Theorem placeholder_stays_hidden (sticky : Sticky) (w0 : World) (es : list Event) :
  fresh w0 →
  ∃ data,
    el_store (deliver_all (final_world (init sticky w0)) es) = Some data
    ∧ ph_nodeName (placeholder data) = el_nodeName w0
    ∧ Style.getProperty (ph_style (placeholder data)) "visibility" = "hidden".
Proof.
  intros Hfresh.
  assert (Hboth : initialized sticky (Style.getProperty (el_style w0) "position")
                    (deliver_all (final_world (init sticky w0)) es)
                  ∧ hiddenPlaceholder (el_nodeName w0)
                      (deliver_all (final_world (init sticky w0)) es)).
  { destruct (init_establishes sticky w0 Hfresh) as (w1 & Hinit & Hinv).
    destruct (init_placeholder sticky w0 (proj1 Hfresh)) as (wB & dataB & Hinit' & HhidB & _).
    destruct (callScroll_hiddenPlaceholder (scroll (handlers dataB)) _ wB HhidB)
      as (w1' & Hrun & Hhid).
    rewrite Hinit' in Hinit. rewrite Hrun in Hinit. injection Hinit as ->.
    rewrite Hinit', Hrun. cbn [final_world].
    clear Hinit' Hrun HhidB. revert w1 Hinv Hhid.
    induction es as [|e es IH]; intros w1 Hinv Hhid; [now split|].
    cbn [deliver_all foldl]. apply IH.
    - now apply deliver_initialized.
    - now apply (deliver_hiddenPlaceholder sticky _ _ w1 e Hinv). }
  destruct Hboth as (_ & _ & data & Hs & Hname & Hvis).
  exists data. split_and!; [exact Hs|exact Hname|].
  unfold Style.getProperty. now rewrite Hvis.
Qed.

(** *** Resizing *)

(** X17. A resize tears the instance down without a [stickyend] and sets
    it up again from the detached state. So after [init] on a fresh page and
    any events, a resize that ends with the element sticking dispatches
    exactly one [stickystart], also when the element was sticking before it;
    one that ends with the element at rest dispatches nothing, or
    [stickystart] followed by [stickyend]. *)
Theorem resize_restarts_from_detached (sticky : Sticky) (w0 : World) (es : list Event)
    (v : Viewport) :
  fresh w0 →
  let w := deliver_all (final_world (init sticky w0)) es in
  let w' := deliver w (Resize v) in
  (attached w' = true → el_dispatched w' = (el_dispatched w ++ ["stickystart"])%list)
  ∧ (attached w' = false →
     el_dispatched w' = el_dispatched w
     ∨ el_dispatched w' = (el_dispatched w ++ ["stickystart"; "stickyend"])%list).
Proof.
  intros Hfresh w w'.
  pose proof (reachable_initialized sticky w0 es Hfresh) as Hinit. fold w in Hinit.
  pose proof (set_viewport_initialized sticky _ v w Hinit) as Hinit'.
  set (wv := set_viewport v w) in *.
  pose proof Hinit' as (data & Hs & _ & Hrh & _).
  destruct (dispatchEvent_initialized sticky _ wv data Hinit' Hs) as (_ & _ & Hr).
  destruct (destroy_effect sticky _ wv Hinit')
    as (wd & Hdestroy & [Hnone _] & _ & _ & _ & Hevd & _).
  destruct (init_effect sticky wd Hnone)
    as (wB & dataB & Hinit2 & HsB & _ & _ & HaB & _ & _ & _ & _ & _ & _ & HevB).
  destruct (callScroll_effect (scroll (handlers dataB)) wB dataB HsB) as (w2 & Hrun2 & Heff2).
  destruct Heff2 as ((data2 & Hs2 & _ & Ha2 & _) & _ & _ & Hev2 & _).
  destruct (callScroll_effect (scroll (handlers data2)) w2 data2 Hs2) as (w3 & Hrun3 & Heff3).
  destruct Heff3 as ((data3 & Hs3 & _ & Ha3 & _) & _ & _ & Hev3 & _).
  assert (Hw' : w' = w3).
  { unfold w', deliver. cbn [event_type event_viewport]. fold wv. rewrite Hr.
    unfold callResize. rewrite Hrh.
    unfold bind at 1. rewrite Hdestroy.
    unfold bind at 1. rewrite Hinit2, Hrun2.
    unfold bind at 1. rewrite (theHandlers_Some _ _ Hs2). now rewrite Hrun3. }
  rewrite Hw'. unfold attached. rewrite Hs3, Ha3, Hev3, Hev2, HevB, Hevd, Ha2, HaB.
  change (el_dispatched wv) with (el_dispatched w).
  rewrite <- List.app_assoc.
  destruct (isInRange (scroll (handlers dataB)) wB), (isInRange (scroll (handlers data2)) w2);
    cbn [transition app]; rewrite ?app_nil_r; split; intros Hatt;
    try discriminate Hatt; auto.
Qed.

(** *** Ticks that keep the state, and destroy while sticking *)

(** X18. A call of a scroll handler that finds the state it expects changes
    little: out of range with the placeholder detached it changes nothing at
    all; in range with the placeholder attached it writes one inline
    property of the element, [top] for the top handler and [bottom] for the
    bottom handler, and nothing else (the placeholder is not measured
    again). *)
Theorem steady_tick_writes_offset_only (h : ScrollHandler) (w : World) (data : Data) :
  el_store w = Some data →
  isInRange h w = ph_parentNode (placeholder data) →
  if ph_parentNode (placeholder data)
  then ∃ value,
         callScroll h w
         = Returns tt
             (set_el_style
                <[match sh_side h with StickToTop => "top" | StickToBottom => "bottom" end
                  := value]> w)
  else callScroll h w = Returns tt w.
Proof.
  intros Hs Hsteady.
  assert (Hrange : isInRange h w = ph_parentNode (placeholder data)) by exact Hsteady.
  unfold isInRange, attached in Hsteady. rewrite Hs in Hsteady.
  unfold callScroll. destruct (sh_side h).
  - rewrite (stickToTop_unfold h w data Hs). rewrite Hsteady.
    destruct (ph_parentNode (placeholder data)); [|reflexivity].
    eexists. reflexivity.
  - rewrite (stickToBottom_unfold h w data Hs). rewrite Hsteady.
    destruct (ph_parentNode (placeholder data)); [|reflexivity].
    eexists. reflexivity.
Qed.

(** X19. [destroy] neither dispatches an event nor touches the class list:
    after [init] on a fresh page and any events, destroying an element that
    is sticking leaves the active class on it and dispatches no
    [stickyend], while its inline [position] is no longer [fixed] unless it
    was before [init]. *)
Theorem destroy_keeps_active_class (sticky : Sticky) (w0 : World) (es : list Event) :
  fresh w0 →
  let w := deliver_all (final_world (init sticky w0)) es in
  ∃ w',
    destroy sticky w = Returns tt w'
    ∧ el_classList w' = el_classList w
    ∧ el_dispatched w' = el_dispatched w
    ∧ (attached w = true →
       activeClass sticky ∈ el_classList w'
       ∧ Style.getProperty (el_style w) "position" = "fixed"
       ∧ Style.getProperty (el_style w') "position"
         = Style.getProperty (el_style w0) "position").
Proof.
  intros Hfresh w.
  pose proof (reachable_initialized sticky w0 es Hfresh) as Hinit. fold w in Hinit.
  destruct (destroy_effect sticky _ _ Hinit) as (w' & Hrun & _ & Hpos & _ & Hcl & Hev & _).
  exists w'. split_and!; try assumption.
  intros Hatt. destruct Hinit as (data & Hs & _ & _ & _ & _ & Hrest).
  unfold attached in Hatt. rewrite Hs in Hatt. rewrite Hatt in Hrest.
  destruct Hrest as [Hfixed Hclass]. rewrite Hcl. now split_and!.
Qed.

(** X20. [destroy] makes the element ready for a new [init]: after [init]
    on a fresh page, any events and [destroy], a second [init], of the same
    or of another instance, returns normally, saves the inline [position]
    the element had before the first [init], and leaves the placeholder
    attached exactly when the element is sticking. *)
Theorem init_after_destroy (sticky again : Sticky) (w0 : World) (es : list Event) :
  fresh w0 →
  ∃ w1 w2 data,
    destroy sticky (deliver_all (final_world (init sticky w0)) es) = Returns tt w1
    ∧ init again w1 = Returns tt w2
    ∧ el_store w2 = Some data
    ∧ position data = Style.getProperty (el_style w0) "position"
    ∧ sh_sticky (scroll (handlers data)) = again
    ∧ attached w2 = isSticking again w2.
Proof.
  intros Hfresh.
  pose proof (reachable_initialized sticky w0 es Hfresh) as Hinit.
  destruct (destroy_effect sticky _ _ Hinit) as (w1 & Hrun & Hfresh1 & Hpos & _).
  destruct (init_establishes again w1 Hfresh1) as (w2 & Hrun2 & Hinv2).
  rewrite Hpos in Hinv2.
  pose proof Hinv2 as (data & Hs & Hsh & _ & _ & Hsaved & _).
  exists w1, w2, data.
  split; [exact Hrun|]. split; [exact Hrun2|]. split; [exact Hs|].
  split; [exact Hsaved|]. split; [exact Hsh|].
  exact (attached_sticking again _ w2 Hinv2).
Qed.

End Controller.

(** ** These theorems on the example pages *)

Module Scenarios.
Import Demo.

Lemma unparsable_offset_never_sticks_witness :
  is_Some (el_store (started latePage))
  ∧ PrimFloat.is_nan
      (@parseFloat (browser latePage)
         (@getComputedStyle (browser latePage) (started latePage) TheElement "bottom")) = true
  ∧ @isInRange (browser latePage) bottomHandler (started latePage) = false
  ∧ @callScroll (browser latePage) bottomHandler (started latePage)
    = Returns tt (started latePage).
Proof.
  destruct (el_store (started latePage)) as [data|] eqn:Hs;
    [|vm_compute in Hs; discriminate Hs].
  assert (Ha : ph_parentNode (placeholder data) = false).
  { assert (Hd : (ph_parentNode ∘ placeholder) <$> el_store (started latePage) = Some false)
      by (vm_compute; reflexivity).
    rewrite Hs in Hd. now injection Hd. }
  pose proof (@unparsable_offset_never_sticks (browser latePage) bottomHandler
                (started latePage) data Hs) as Hthm.
  cbv zeta in Hthm. rewrite Ha in Hthm.
  destruct Hthm as (Hout & w' & Hrun & _ & Hsame); [vm_compute; reflexivity|].
  split_and!.
  - now exists data.
  - vm_compute. reflexivity.
  - exact Hout.
  - rewrite Hrun. now rewrite (Hsame eq_refl).
Defined.

Lemma startSticky_takes_footprint_witness :
  is_Some (el_store (started topPage))
  ∧ ∃ w', @startSticky (browser topPage) sticky (started topPage) = Returns tt w'
          ∧ Style.getProperty (el_style w') "position" = "fixed"
          ∧ Style.getProperty (el_style w') "width" = "400px"
          ∧ Style.getProperty (el_style w') "height" = "50px"
          ∧ Style.getProperty (el_style w') "left" = "8px".
Proof.
  destruct (el_store (started topPage)) as [data|] eqn:Hs; [|vm_compute in Hs; discriminate Hs].
  destruct (@startSticky_takes_footprint (browser topPage) sticky (started topPage) data Hs)
    as (w' & Hrun & Hfixed & Hw & Hh & Hl & _).
  split; [now exists data|].
  exists w'. split_and!; [exact Hrun|exact Hfixed| | |].
  - rewrite Hw. vm_compute. reflexivity.
  - rewrite Hh. vm_compute. reflexivity.
  - rewrite Hl. vm_compute. reflexivity.
Defined.

Lemma startSticky_endSticky_round_trip_witness :
  is_Some (el_store (started topPage))
  ∧ ∃ w', bind (@startSticky (browser topPage) sticky) (λ _, endSticky sticky) (started topPage)
          = Returns tt w'
          ∧ el_dispatched w' = ["stickystart"; "stickyend"]
          ∧ Style.getProperty (el_style w') "position" = "".
Proof.
  destruct (el_store (started topPage)) as [data|] eqn:Hs; [|vm_compute in Hs; discriminate Hs].
  destruct (@startSticky_endSticky_round_trip (browser topPage) sticky (started topPage) data Hs)
    as (w' & Hrun & Hpos & _ & _ & _ & _ & Hev & _).
  split; [now exists data|].
  exists w'. split_and!; [exact Hrun| |].
  - rewrite Hev. vm_compute. reflexivity.
  - rewrite Hpos. vm_compute. reflexivity.
Defined.

Lemma bindEvents_unbindEvents_round_trip_witness :
  is_Some (el_store beforeBind)
  ∧ listeners beforeBind = [foreignListener]
  ∧ ∃ w1, bindEvents beforeBind = Returns tt w1
          ∧ length (listeners w1) = 4%nat
          ∧ unbindEvents w1 = Returns tt beforeBind.
Proof.
  destruct (el_store beforeBind) as [data|] eqn:Hs; [|vm_compute in Hs; discriminate Hs].
  assert (Hids : (λ d, (sh_id (scroll (handlers d)), rh_id (resize (handlers d))))
                   <$> el_store beforeBind = Some (0, 1)%nat)
    by (vm_compute; reflexivity).
  rewrite Hs in Hids. injection Hids as Hsh Hrh.
  destruct (bindEvents_unbindEvents_round_trip beforeBind data Hs) as (w1 & Hbind & Hls & Hunbind).
  { intros l Hl. apply list_elem_of_singleton in Hl as ->.
    rewrite Hsh, Hrh. split; discriminate. }
  split_and!; [now exists data|reflexivity|].
  exists w1. split_and!; [exact Hbind| |exact Hunbind].
  rewrite Hls. reflexivity.
Defined.

Lemma reachable_listeners_exact_witness :
  fresh freshWorld
  ∧ length (listeners scrolledResized) = 3%nat.
Proof.
  assert (Hfresh : fresh freshWorld) by (split; reflexivity).
  split; [exact Hfresh|]. unfold scrolledResized.
  destruct (@reachable_listeners_exact (browser topPage) sticky freshWorld
              [Scroll (at_offset 400); Resize (at_offset 400)] Hfresh) as (data & _ & Hls & _).
  rewrite Hls. reflexivity.
Defined.

Lemma destroy_silences_witness :
  fresh freshWorld
  ∧ ∃ w', destroy sticky topAt400 = Returns tt w'
          ∧ el_dispatched
              (@deliver_all (browser topPage) w' [Scroll (at_offset 1200); Resize (at_offset 0)])
            = el_dispatched w'
          ∧ listeners
              (@deliver_all (browser topPage) w' [Scroll (at_offset 1200); Resize (at_offset 0)])
            = [].
Proof.
  assert (Hfresh : fresh freshWorld) by (split; reflexivity).
  split; [exact Hfresh|]. unfold topAt400, started.
  destruct (@destroy_silences (browser topPage) sticky freshWorld [Scroll (at_offset 400)]
              [Scroll (at_offset 1200); Resize (at_offset 0)] Hfresh)
    as (w' & Hrun & _ & _ & _ & Hev & Hls).
  exists w'. split; [exact Hrun|]. split; [exact Hev|exact Hls].
Defined.

Lemma placeholder_stays_hidden_witness :
  fresh freshWorld
  ∧ ∃ data, el_store scrolledResized = Some data
            ∧ ph_nodeName (placeholder data) = "DIV"
            ∧ Style.getProperty (ph_style (placeholder data)) "visibility" = "hidden".
Proof.
  assert (Hfresh : fresh freshWorld) by (split; reflexivity).
  split; [exact Hfresh|]. unfold scrolledResized.
  destruct (@placeholder_stays_hidden (browser topPage) sticky freshWorld
              [Scroll (at_offset 400); Resize (at_offset 400)] Hfresh)
    as (data & Hs & Hname & Hvis).
  exists data. split; [exact Hs|]. split; [exact Hname|exact Hvis].
Defined.

Lemma calls_without_data_throw_witness :
  el_store freshWorld = None
  ∧ returned (@callScroll (browser topPage) topHandler freshWorld) = false
  ∧ final_world (@callScroll (browser topPage) topHandler freshWorld) = freshWorld.
Proof.
  destruct (@calls_without_data_throw (browser topPage) topHandler
              {| rh_id := 1; rh_sticky := sticky |} sticky freshWorld eq_refl) as (Hrun & _).
  split_and!; [reflexivity|now rewrite Hrun|now rewrite Hrun].
Defined.

Lemma resize_restarts_from_detached_witness :
  fresh freshWorld
  ∧ attached topAt400 = true
  ∧ attached resizedAt400 = true
  ∧ el_dispatched resizedAt400 = ["stickystart"; "stickystart"].
Proof.
  assert (Hfresh : fresh freshWorld) by (split; reflexivity).
  split; [exact Hfresh|]. split; [vm_compute; reflexivity|].
  unfold resizedAt400.
  pose proof (@resize_restarts_from_detached (browser topPage) sticky freshWorld
                [Scroll (at_offset 400)] (at_offset 400) Hfresh) as Hthm.
  cbv zeta in Hthm. destruct Hthm as (Hstart & _).
  match type of Hstart with ?a = true → _ =>
    assert (Hatt : a = true) by (vm_compute; reflexivity) end.
  split; [exact Hatt|].
  rewrite (Hstart Hatt). vm_compute. reflexivity.
Defined.

Lemma steady_tick_writes_offset_only_witness :
  is_Some (el_store topAt1080)
  ∧ attached topAt1080 = true
  ∧ @isInRange (browser topPage) topHandler topAt1080 = true
  ∧ ∃ value, @callScroll (browser topPage) topHandler topAt1080
             = Returns tt (set_el_style <["top" := value]> topAt1080).
Proof.
  destruct (el_store topAt1080) as [data|] eqn:Hs; [|vm_compute in Hs; discriminate Hs].
  assert (Ha : ph_parentNode (placeholder data) = true).
  { assert (Hd : (ph_parentNode ∘ placeholder) <$> el_store topAt1080 = Some true)
      by (vm_compute; reflexivity).
    rewrite Hs in Hd. now injection Hd. }
  assert (Hin : @isInRange (browser topPage) topHandler topAt1080 = true)
    by (vm_compute; reflexivity).
  pose proof (@steady_tick_writes_offset_only (browser topPage) topHandler topAt1080 data Hs)
    as Hthm.
  rewrite Ha in Hthm. specialize (Hthm Hin).
  split_and!; [now exists data|vm_compute; reflexivity|exact Hin|exact Hthm].
Defined.

Lemma destroy_keeps_active_class_witness :
  fresh freshWorld
  ∧ attached topAt400 = true
  ∧ ∃ w', destroy sticky topAt400 = Returns tt w'
          ∧ "sticky--active" ∈ el_classList w'
          ∧ el_dispatched w' = ["stickystart"]
          ∧ Style.getProperty (el_style w') "position" = "".
Proof.
  assert (Hfresh : fresh freshWorld) by (split; reflexivity).
  split; [exact Hfresh|]. unfold topAt400, started.
  pose proof (@destroy_keeps_active_class (browser topPage) sticky freshWorld
                [Scroll (at_offset 400)] Hfresh) as Hthm.
  cbv zeta in Hthm. destruct Hthm as (w' & Hrun & _ & Hev & Hatt).
  match type of Hatt with ?a = true → _ =>
    assert (Ha : a = true) by (vm_compute; reflexivity) end.
  split; [exact Ha|].
  exists w'. destruct (Hatt Ha) as (Hclass & _ & Hpos).
  split; [exact Hrun|]. split; [exact Hclass|]. split.
  - rewrite Hev. vm_compute. reflexivity.
  - rewrite Hpos. vm_compute. reflexivity.
Defined.

Lemma init_after_destroy_witness :
  fresh freshWorld
  ∧ ∃ w1 w2,
      destroy sticky topAt400 = Returns tt w1
      ∧ @init (browser topPage) (Sticky_new {["activeClass" := "pinned"]}) w1 = Returns tt w2
      ∧ attached w2 = isSticking (Sticky_new {["activeClass" := "pinned"]}) w2.
Proof.
  assert (Hfresh : fresh freshWorld) by (split; reflexivity).
  destruct (@init_after_destroy (browser topPage) sticky (Sticky_new {["activeClass" := "pinned"]})
              freshWorld [Scroll (at_offset 400)] Hfresh)
    as (w1 & w2 & data & Hrun1 & Hrun2 & _ & _ & _ & Hatt).
  split; [exact Hfresh|].
  exists w1, w2. unfold topAt400, started. now split_and!.
Defined.

End Scenarios.

(** ** The earlier variant *)

Section Earlier.
Context `{Legacy.Browser}.

(** *** The data on the element *)

Lemma legacy_getData_whole (w : Legacy.World) :
  Legacy.getData (Legacy.el_properties w) None
  = match Legacy.dataOf w with
    | Some data => StoreClass.Whole data
    | None => StoreClass.Undefined
    end.
Proof. unfold Legacy.getData, Legacy.dataOf. now destruct (_ !! _). Qed.

Lemma legacy_getData_property (w : Legacy.World) (property : string) :
  property ≠ "" →
  Legacy.getData (Legacy.el_properties w) (Some property)
  = match Legacy.dataOf w with
    | Some data =>
        match data !! property with
        | Some v => StoreClass.Property v
        | None => StoreClass.Undefined
        end
    | None => StoreClass.Undefined
    end.
Proof.
  intros Hne. unfold Legacy.getData, Legacy.dataOf.
  destruct (_ !! _) as [data|]; [|reflexivity].
  rewrite bool_decide_eq_true_2; [reflexivity|]. split; congruence.
Qed.

Lemma legacy_setData_named (element : gmap string (gmap string Legacy.Value))
    (name : string) (value : Legacy.Value) :
  Legacy.setData element (inl name) value
  = <[Legacy.namespace := <[name := value]> (default ∅ (element !! Legacy.namespace))]> element.
Proof.
  unfold Legacy.setData. destruct (element !! Legacy.namespace) as [data|] eqn:Hd.
  - now rewrite Hd.
  - rewrite lookup_insert_eq. cbn [default from_option]. unfold id.
    now rewrite insert_insert_eq.
Qed.

Lemma legacy_store (name : string) (value : Legacy.Value) (w : Legacy.World) :
  Legacy.set_el_properties (λ element, Legacy.setData element (inl name) value) w
  = Legacy.withData (<[name := value]> (default ∅ (Legacy.dataOf w))) w.
Proof.
  unfold Legacy.withData, Legacy.dataOf, Legacy.set_el_properties. cbv beta.
  now rewrite legacy_setData_named.
Qed.

Lemma legacy_dataOf_withData (data : gmap string Legacy.Value) (w : Legacy.World) :
  Legacy.dataOf (Legacy.withData data w) = Some data.
Proof. unfold Legacy.dataOf, Legacy.withData. cbn. apply lookup_insert_eq. Qed.

Lemma legacy_withData_twice (d1 d2 : gmap string Legacy.Value) (w : Legacy.World) :
  Legacy.withData d2 (Legacy.withData d1 w) = Legacy.withData d2 w.
Proof.
  unfold Legacy.withData. destruct w; unfold Legacy.set_el_properties; cbn.
  now rewrite insert_insert_eq.
Qed.

Lemma legacy_withData_same (data : gmap string Legacy.Value) (w : Legacy.World) :
  Legacy.dataOf w = Some data → Legacy.withData data w = w.
Proof.
  unfold Legacy.dataOf, Legacy.withData. intros Hd.
  destruct w; unfold Legacy.set_el_properties; cbn in *. f_equal. now apply insert_id.
Qed.

Lemma legacy_theData_Some (w : Legacy.World) (data : gmap string Legacy.Value) :
  Legacy.dataOf w = Some data → Legacy.theData w = Legacy.Returns data w.
Proof. intros Hd. unfold Legacy.theData. now rewrite legacy_getData_whole, Hd. Qed.

Lemma legacy_theData_None (w : Legacy.World) :
  Legacy.dataOf w = None → Legacy.theData w = Legacy.Throws TypeError w.
Proof. intros Hd. unfold Legacy.theData. now rewrite legacy_getData_whole, Hd. Qed.

Lemma legacy_placeholderOf_Some (data : gmap string Legacy.Value) (p : PlaceholderNode) :
  Legacy.placeholderOf data = Some p ↔ data !! "placeholder" = Some (Legacy.PlaceholderValue p).
Proof.
  unfold Legacy.placeholderOf. destruct (data !! "placeholder") as [[q|hs|s]|]; split;
    intros Heq; try discriminate Heq; congruence.
Qed.

Lemma legacy_thePlaceholder_Some (w : Legacy.World) (data : gmap string Legacy.Value)
    (p : PlaceholderNode) :
  Legacy.dataOf w = Some data →
  Legacy.placeholderOf data = Some p →
  Legacy.thePlaceholder w = Legacy.Returns p w.
Proof.
  intros Hd Hp. apply legacy_placeholderOf_Some in Hp.
  unfold Legacy.thePlaceholder. rewrite legacy_getData_property by discriminate.
  now rewrite Hd, Hp.
Qed.

Lemma legacy_theHandlers_Some (w : Legacy.World) (data : gmap string Legacy.Value)
    (hs : Handlers) :
  Legacy.dataOf w = Some data →
  data !! "handlers" = Some (Legacy.HandlersValue hs) →
  Legacy.theHandlers w = Legacy.Returns hs w.
Proof.
  intros Hd Hh. unfold Legacy.theHandlers. rewrite legacy_getData_property by discriminate.
  now rewrite Hd, Hh.
Qed.

Lemma legacy_set_placeholder (f : PlaceholderNode → PlaceholderNode) (w : Legacy.World)
    (data : gmap string Legacy.Value) (p : PlaceholderNode) :
  Legacy.dataOf w = Some data →
  Legacy.placeholderOf data = Some p →
  Legacy.set_placeholder f w
  = Legacy.withData (<["placeholder" := Legacy.PlaceholderValue (f p)]> data) w.
Proof.
  unfold Legacy.dataOf, Legacy.set_placeholder, Legacy.withData. intros Hd Hp.
  destruct w; unfold Legacy.set_el_properties; cbn in *. now rewrite Hd, Hp.
Qed.

Lemma legacy_placeholderOf_insert (data : gmap string Legacy.Value) (key : string)
    (value : Legacy.Value) :
  Legacy.placeholderOf (<[key := value]> data)
  = if decide (key = "placeholder")
    then match value with Legacy.PlaceholderValue p => Some p | _ => None end
    else Legacy.placeholderOf data.
Proof.
  unfold Legacy.placeholderOf. destruct (decide (key = "placeholder")) as [->|Hne].
  - now rewrite lookup_insert_eq.
  - now rewrite lookup_insert_ne.
Qed.

Lemma legacy_positionOf_insert (data : gmap string Legacy.Value) (key : string)
    (value : Legacy.Value) :
  Legacy.positionOf (<[key := value]> data)
  = if decide (key = "position")
    then match value with Legacy.StringValue s => Some s | _ => None end
    else Legacy.positionOf data.
Proof.
  unfold Legacy.positionOf. destruct (decide (key = "position")) as [->|Hne].
  - now rewrite lookup_insert_eq.
  - now rewrite lookup_insert_ne.
Qed.

(** *** The placeholder's style *)

Lemma legacy_copy_placeholder_style (blueprint : Legacy.World → string → string)
    (props : list string) (w : Legacy.World) (data : gmap string Legacy.Value)
    (p : PlaceholderNode) :
  Legacy.dataOf w = Some data →
  Legacy.placeholderOf data = Some p →
  ∃ st,
    Legacy.copyStyleProperties Legacy.placeholder_style blueprint props w
    = Legacy.withData
        (<["placeholder" := Legacy.PlaceholderValue (set_ph_style (λ _, st) p)]> data) w
    ∧ ∀ q, q ∉ props → st !! q = ph_style p !! q.
Proof.
  revert w data p. induction props as [|q props IH]; intros w data p Hd Hp.
  - exists (ph_style p). split; [|done].
    unfold Legacy.copyStyleProperties. cbn [foldl].
    replace (set_ph_style (λ _, ph_style p) p) with p by now destruct p.
    rewrite insert_id by now apply legacy_placeholderOf_Some.
    symmetry. now apply legacy_withData_same.
  - unfold Legacy.copyStyleProperties. cbn [foldl].
    unfold Legacy.placeholder_style at 2.
    rewrite (legacy_set_placeholder _ w data p Hd Hp).
    edestruct (IH (Legacy.withData
                     (<["placeholder" := Legacy.PlaceholderValue
                                           (set_ph_style <[q := blueprint w q]> p)]> data) w))
      as (st & Heq & Hst).
    { apply legacy_dataOf_withData. }
    { rewrite legacy_placeholderOf_insert. now rewrite decide_True. }
    exists st. split.
    + unfold Legacy.copyStyleProperties in Heq. rewrite Heq.
      rewrite legacy_withData_twice, insert_insert_eq. reflexivity.
    + intros q' Hq'. apply not_elem_of_cons in Hq' as [Hne Hq'].
      rewrite (Hst q' Hq'). cbn. now apply lookup_insert_ne.
Qed.

(** *** The placeholder and the clean-up *)

Lemma legacy_placeholder_write (f : gmap string string → gmap string string)
    (w : Legacy.World) (data : gmap string Legacy.Value) (p : PlaceholderNode) :
  Legacy.dataOf w = Some data →
  Legacy.placeholderOf data = Some p →
  Legacy.placeholder_style f w
  = Legacy.withData (<["placeholder" := Legacy.PlaceholderValue (set_ph_style f p)]> data) w.
Proof. apply legacy_set_placeholder. Qed.

Lemma legacy_updatePlaceholderStyle_effect (w : Legacy.World)
    (data : gmap string Legacy.Value) (p : PlaceholderNode) :
  Legacy.dataOf w = Some data →
  Legacy.placeholderOf data = Some p →
  ∃ st,
    Legacy.updatePlaceholderStyle w
    = Legacy.Returns tt
        (Legacy.withData
           (<["placeholder" := Legacy.PlaceholderValue (set_ph_style (λ _, st) p)]> data) w)
    ∧ Style.getProperty st "width"
      = Legacy.px (rect_width (Legacy.getBoundingClientRect w TheElement))
    ∧ Style.getProperty st "height"
      = Legacy.px (rect_height (Legacy.getBoundingClientRect w TheElement))
    ∧ Style.getProperty st "left"
      = Legacy.px (rect_left (Legacy.getBoundingClientRect w TheElement))
    ∧ ∀ q, q ∉ ["top"; "bottom"; "marginTop"; "marginBottom"; "marginLeft"; "marginRight";
                "width"; "height"; "left"] →
           st !! q = ph_style p !! q.
Proof.
  intros Hd Hp. unfold Legacy.updatePlaceholderStyle.
  destruct (legacy_copy_placeholder_style (λ w, Legacy.getComputedStyle w TheElement)
              ["top"; "bottom"; "marginTop"; "marginBottom"; "marginLeft"; "marginRight"]
              w data p Hd Hp) as (st1 & Heq1 & Hst1).
  set (r := Legacy.getBoundingClientRect w TheElement).
  exists (<["left" := Legacy.px (rect_left r)]>
            (<["height" := Legacy.px (rect_height r)]>
               (<["width" := Legacy.px (rect_width r)]> st1))).
  split_and!.
  - unfold Legacy.bind at 1. unfold Legacy.gets at 1. fold r.
    unfold Legacy.bind at 1. rewrite (legacy_thePlaceholder_Some w data p Hd Hp).
    unfold Legacy.bind, Legacy.modify. rewrite Heq1. f_equal.
    unfold Legacy.copyStyleProperties. cbn [foldl].
    set (p1 := set_ph_style (λ _, st1) p).
    set (d1 := <["placeholder" := Legacy.PlaceholderValue p1]> data).
    assert (Hp1 : ∀ d q, Legacy.placeholderOf (<["placeholder" := Legacy.PlaceholderValue q]> d)
                         = Some q).
    { intros d q. rewrite legacy_placeholderOf_insert. now rewrite decide_True. }
    rewrite (legacy_placeholder_write _ (Legacy.withData d1 w) d1 p1
               (legacy_dataOf_withData _ _) (Hp1 _ _)).
    rewrite legacy_withData_twice.
    match goal with |- context [Legacy.placeholder_style ?f (Legacy.withData ?d w)] =>
      rewrite (legacy_placeholder_write f (Legacy.withData d w) _ _
                 (legacy_dataOf_withData _ _) (Hp1 _ _)) end.
    rewrite legacy_withData_twice.
    match goal with |- context [Legacy.placeholder_style ?f (Legacy.withData ?d w)] =>
      rewrite (legacy_placeholder_write f (Legacy.withData d w) _ _
                 (legacy_dataOf_withData _ _) (Hp1 _ _)) end.
    rewrite legacy_withData_twice.
    subst d1 p1. rewrite !insert_insert_eq. reflexivity.
  - now rewrite !getProperty_insert.
  - now rewrite !getProperty_insert.
  - now rewrite !getProperty_insert.
  - intros q Hq. rewrite !not_elem_of_cons in Hq.
    rewrite !lookup_insert_ne by (intros <-; intuition congruence).
    apply Hst1. rewrite !not_elem_of_cons. intuition.
Qed.

Lemma legacy_reset_element_style (props : list string) (w : Legacy.World) :
  Legacy.resetStyleProperties Legacy.element_style props w
  = Legacy.set_el_style (λ m, foldl (λ m' q, <[q := ""]> m') m props) w.
Proof.
  unfold Legacy.resetStyleProperties. revert w.
  induction props as [|q props IH]; intros w; cbn [foldl].
  - now destruct w.
  - rewrite IH. now destruct w.
Qed.

Lemma legacy_copy_element_style (blueprint : string → string) (props : list string)
    (w : Legacy.World) :
  Legacy.copyStyleProperties Legacy.element_style (λ _, blueprint) props w
  = Legacy.set_el_style (λ m, foldl (λ m' q, <[q := blueprint q]> m') m props) w.
Proof.
  unfold Legacy.copyStyleProperties. revert w.
  induction props as [|q props IH]; intros w; cbn [foldl].
  - now destruct w.
  - rewrite IH. now destruct w.
Qed.

(** What [cleanUp] of the earlier variant leaves. *)
Lemma legacy_cleanUp_effect (w : Legacy.World) (data : gmap string Legacy.Value) :
  Legacy.dataOf w = Some data →
  ∃ st data',
    Legacy.cleanUp w
    = Legacy.Returns tt (Legacy.withData data' (Legacy.set_el_style (λ _, st) w))
    ∧ Style.getProperty st "position"
      = default (Style.getProperty (Legacy.el_style w) "position") (Legacy.positionOf data)
    ∧ (∀ q, q ∈ Legacy.touched → Style.getProperty st q = "")
    ∧ (∀ q, q ∉ "position" :: Legacy.touched → st !! q = Legacy.el_style w !! q)
    ∧ data' !! "handlers" = data !! "handlers"
    ∧ Legacy.positionOf data' = Legacy.positionOf data
    ∧ Legacy.placeholderOf data' = set_ph_parentNode false <$> Legacy.placeholderOf data.
Proof.
  intros Hd.
  set (reset := foldl (λ m' q, <[q := ""]> m') (Legacy.el_style w)
                  (properties ++ ["marginTop"; "marginBottom"])%list).
  exists (match Legacy.positionOf data with
          | Some position => <["position" := position]> reset
          | None => reset
          end).
  exists (match Legacy.placeholderOf data with
          | Some p => <["placeholder" := Legacy.PlaceholderValue (set_ph_parentNode false p)]> data
          | None => data
          end).
  split_and!.
  - unfold Legacy.cleanUp. unfold Legacy.bind at 1. unfold Legacy.modify at 1.
    rewrite legacy_reset_element_style.
    unfold Legacy.bind at 1.
    rewrite (legacy_theData_Some _ data) by exact Hd.
    unfold Legacy.bind at 1. unfold Legacy.modify at 1.
    match goal with |- context [Legacy.restorePosition ?s ?w0] =>
      set (w1 := Legacy.restorePosition s w0) end.
    assert (Hw1 : w1 = Legacy.set_el_style
                         (λ _, match Legacy.positionOf data with
                               | Some position => <["position" := position]> reset
                               | None => reset
                               end) w).
    { subst w1. unfold Legacy.restorePosition. destruct (Legacy.positionOf data);
        destruct w; reflexivity. }
    assert (Hd1 : Legacy.dataOf w1 = Some data) by (rewrite Hw1; exact Hd).
    destruct (Legacy.placeholderOf data) as [p|] eqn:Hp.
    + destruct (ph_parentNode p) eqn:Ha.
      * unfold Legacy.modify. rewrite (legacy_set_placeholder _ w1 data p Hd1 Hp).
        now rewrite Hw1.
      * unfold Legacy.ret. f_equal. rewrite <- Hw1.
        replace (set_ph_parentNode false p) with p by (destruct p; cbn in *; now subst).
        rewrite insert_id by now apply legacy_placeholderOf_Some.
        symmetry. now apply legacy_withData_same.
    + unfold Legacy.ret. f_equal. rewrite <- Hw1. symmetry. now apply legacy_withData_same.
  - destruct (Legacy.positionOf data); cbn [default from_option]; unfold id.
    + now rewrite getProperty_insert.
    + subst reset. cbn. rewrite !getProperty_insert.
      repeat (destruct (decide _) as [Heq|_]; [discriminate Heq|]). reflexivity.
  - intros q Hq. unfold Legacy.touched in Hq. rewrite !elem_of_cons, elem_of_nil in Hq.
    destruct (Legacy.positionOf data); subst reset; cbn; rewrite !getProperty_insert;
      repeat (destruct Hq as [->|Hq]; [reflexivity|]); done.
  - intros q Hq. unfold Legacy.touched in Hq. rewrite !not_elem_of_cons in Hq.
    destruct (Legacy.positionOf data); subst reset; cbn;
      (rewrite !lookup_insert_ne; [reflexivity|..]; intros <-; intuition congruence).
  - destruct (Legacy.placeholderOf data); [|reflexivity]. now rewrite lookup_insert_ne.
  - destruct (Legacy.placeholderOf data); [|reflexivity].
    rewrite legacy_positionOf_insert. now rewrite decide_False.
  - destruct (Legacy.placeholderOf data) as [p|] eqn:Hp; [|now rewrite Hp].
    rewrite legacy_placeholderOf_insert. now rewrite decide_True.
Qed.

(** *** Classes, listeners and destroy *)

Lemma legacy_addClass_world (c : string) (w : Legacy.World) :
  Legacy.addClass c w
  = Legacy.set_el_className (λ _, Legacy.el_className (Legacy.addClass c w)) w.
Proof.
  unfold Legacy.addClass. destruct (Legacy.regExpTest _ _); now destruct w.
Qed.

Lemma legacy_removeClass_world (c : string) (w : Legacy.World) :
  Legacy.removeClass c w
  = Legacy.set_el_className (λ _, Legacy.el_className (Legacy.removeClass c w)) w.
Proof. unfold Legacy.removeClass. now destruct w. Qed.

(** The class helpers read and write the class name only. *)
Lemma legacy_addClass_className (c : string) (w1 w2 : Legacy.World) :
  Legacy.el_className w1 = Legacy.el_className w2 →
  Legacy.el_className (Legacy.addClass c w1) = Legacy.el_className (Legacy.addClass c w2).
Proof.
  intros Heq. unfold Legacy.addClass. rewrite Heq.
  destruct (Legacy.regExpTest _ _); [exact Heq|]. cbn. now rewrite Heq.
Qed.


Lemma legacy_bindEvents_effect (w : Legacy.World) (data : gmap string Legacy.Value)
    (hs : Handlers) :
  Legacy.dataOf w = Some data →
  data !! "handlers" = Some (Legacy.HandlersValue hs) →
  Legacy.bindEvents w
  = Legacy.Returns tt (Legacy.set_listeners (λ ls, (ls ++ Legacy.bound hs)%list) w).
Proof.
  intros Hd Hh. unfold Legacy.bindEvents. unfold Legacy.bind at 1.
  rewrite (legacy_theHandlers_Some _ _ _ Hd Hh).
  unfold Legacy.bind, Legacy.modify, Legacy.addEventListener, Legacy.bound.
  f_equal. destruct w; unfold Legacy.set_listeners; cbn. f_equal.
  now do 2 rewrite <- List.app_assoc.
Qed.

Lemma legacy_unbindEvents_effect (w : Legacy.World) (data : gmap string Legacy.Value)
    (hs : Handlers) :
  Legacy.dataOf w = Some data →
  data !! "handlers" = Some (Legacy.HandlersValue hs) →
  Legacy.listeners w = Legacy.bound hs →
  Legacy.unbindEvents w = Legacy.Returns tt (Legacy.set_listeners (λ _, []) w).
Proof.
  intros Hd Hh Hls. unfold Legacy.unbindEvents. unfold Legacy.bind at 1.
  rewrite (legacy_theHandlers_Some _ _ _ Hd Hh).
  unfold Legacy.bind, Legacy.modify, Legacy.removeEventListener.
  f_equal. destruct w; unfold Legacy.set_listeners; cbn in *. f_equal.
  rewrite Hls. unfold Legacy.bound.
  repeat (rewrite ?filter_cons, ?filter_nil; cbn; repeat case_decide);
    try reflexivity; exfalso; intuition (congruence || discriminate).
Qed.

(** [destroy] of the earlier variant on an element that has data and whose
    handlers are the registered ones. *)
Lemma legacy_destroy_effect (sticky : Sticky) (w : Legacy.World)
    (data : gmap string Legacy.Value) (hs : Handlers) :
  Legacy.dataOf w = Some data →
  data !! "handlers" = Some (Legacy.HandlersValue hs) →
  Legacy.listeners w = Legacy.bound hs →
  ∃ w',
    Legacy.destroy sticky w = Legacy.Returns tt w'
    ∧ Legacy.dataOf w' = None
    ∧ Legacy.listeners w' = []
    ∧ Style.getProperty (Legacy.el_style w') "position"
      = default (Style.getProperty (Legacy.el_style w) "position") (Legacy.positionOf data)
    ∧ (∀ q, q ∈ Legacy.touched → Style.getProperty (Legacy.el_style w') q = "")
    ∧ (∀ q, q ∉ "position" :: Legacy.touched →
            Legacy.el_style w' !! q = Legacy.el_style w !! q)
    ∧ Legacy.el_className w' = Legacy.el_className w
    ∧ Legacy.el_dispatched w' = Legacy.el_dispatched w.
Proof.
  intros Hd Hh Hls.
  destruct (legacy_cleanUp_effect w data Hd)
    as (st & data' & Hclean & Hpos & Htouched & Hframe & Hh' & _).
  unfold Legacy.destroy. unfold Legacy.bind at 1. rewrite Hclean.
  unfold Legacy.bind at 1.
  match goal with |- context [Legacy.unbindEvents ?w0] => set (w1 := w0) end.
  assert (Hd1 : Legacy.dataOf w1 = Some data') by apply legacy_dataOf_withData.
  rewrite (legacy_unbindEvents_effect w1 data' hs Hd1) by (congruence || exact Hls).
  unfold Legacy.modify. eexists. split; [reflexivity|].
  split_and!; try done.
  unfold Legacy.dataOf, Legacy.removeData. cbn. apply lookup_delete_eq.
Qed.

Lemma legacy_onScroll_effect (sticky : Sticky) (w : Legacy.World) :
  let added := Legacy.addClass (activeClass sticky) w in
  let measured := Legacy.removeClass (activeClass sticky) added in
  Legacy.onScroll sticky w
  = Legacy.Returns
      {| sh_id := Legacy.next_id w;
         sh_sticky := sticky;
         sh_side := if decide (Legacy.getComputedStyle measured TheElement "top" ≠ "auto")
                    then StickToTop else StickToBottom;
         sh_stickyMargins :=
           {| marginBottom := Legacy.getComputedStyle added TheElement "marginBottom";
              marginTop := Legacy.getComputedStyle added TheElement "marginTop" |};
         sh_distanceFromSide :=
           if decide (Legacy.getComputedStyle measured TheElement "top" ≠ "auto")
           then Legacy.parseFloat (Legacy.getComputedStyle measured TheElement "top")
           else Legacy.parseFloat (Legacy.getComputedStyle measured TheElement "bottom") |}
      (Legacy.set_next_id S measured).
Proof.
  cbv zeta. unfold Legacy.onScroll, Legacy.getStickyMargins. f_equal. f_equal.
  rewrite legacy_addClass_world. reflexivity.
Qed.

(** *** init *)

(** [init] of the earlier variant on an element without data: what it
    stores and registers, and what it leaves alone. [added] and [measured]
    are the page while the sticky margins are read and after that. *)
Lemma legacy_init_effect (sticky : Sticky) (w : Legacy.World) :
  Legacy.dataOf w = None →
  let placeholder0 :=
    {| ph_nodeName := Legacy.el_nodeName w; ph_style := ∅; ph_parentNode := false |} in
  let stored := Legacy.withData {["placeholder" := Legacy.PlaceholderValue placeholder0]} w in
  let added := Legacy.addClass (activeClass sticky) stored in
  let measured := Legacy.removeClass (activeClass sticky) added in
  let h :=
    {| sh_id := Legacy.next_id w;
       sh_sticky := sticky;
       sh_side := if decide (Legacy.getComputedStyle measured TheElement "top" ≠ "auto")
                  then StickToTop else StickToBottom;
       sh_stickyMargins :=
         {| marginBottom := Legacy.getComputedStyle added TheElement "marginBottom";
            marginTop := Legacy.getComputedStyle added TheElement "marginTop" |};
       sh_distanceFromSide :=
         if decide (Legacy.getComputedStyle measured TheElement "top" ≠ "auto")
         then Legacy.parseFloat (Legacy.getComputedStyle measured TheElement "top")
         else Legacy.parseFloat (Legacy.getComputedStyle measured TheElement "bottom") |} in
  let r := {| rh_id := S (Legacy.next_id w); rh_sticky := sticky |} in
  ∃ w' data p,
    Legacy.init sticky w = Legacy.Returns tt w'
    ∧ Legacy.dataOf w' = Some data
    ∧ Legacy.placeholderOf data = Some p
    ∧ ph_nodeName p = Legacy.el_nodeName w
    ∧ ph_parentNode p = false
    ∧ ph_style p !! "visibility" = Some "hidden"
    ∧ data !! "handlers" = Some (Legacy.HandlersValue {| scroll := h; resize := r |})
    ∧ data !! "position" = None
    ∧ Legacy.listeners w'
      = (Legacy.listeners w ++ Legacy.bound {| scroll := h; resize := r |})%list
    ∧ Legacy.el_style w' = Legacy.el_style w
    ∧ Legacy.el_dispatched w' = Legacy.el_dispatched w
    ∧ Legacy.el_className w' = Legacy.el_className measured
    ∧ Legacy.pageYOffset w' = Legacy.pageYOffset w.
Proof.
  intros Hnone placeholder0 stored added measured h r. unfold Legacy.init.
  unfold Legacy.bind at 1. unfold Legacy.gets at 1.
  rewrite legacy_getData_whole, Hnone.
  unfold Legacy.bind at 1. unfold Legacy.gets at 1.
  unfold Legacy.bind at 1. unfold Legacy.modify at 1.
  rewrite legacy_store, Hnone. change (default ∅ None) with (∅ : gmap string Legacy.Value).
  change (<["placeholder" := Legacy.PlaceholderValue
                               {| ph_nodeName := Legacy.el_nodeName w; ph_style := ∅;
                                  ph_parentNode := false |}]> ∅)
    with ({["placeholder" := Legacy.PlaceholderValue placeholder0]}
          : gmap string Legacy.Value).
  fold stored.
  unfold Legacy.bind at 1. rewrite (legacy_onScroll_effect sticky stored).
  fold added. fold measured.
  change (Legacy.next_id stored) with (Legacy.next_id w). fold h.
  unfold Legacy.bind at 1. unfold Legacy.onResize at 1.
  assert (Hnext : Legacy.next_id (Legacy.set_next_id S measured) = S (Legacy.next_id w)).
  { subst measured. rewrite legacy_removeClass_world. subst added.
    rewrite legacy_addClass_world. reflexivity. }
  rewrite Hnext. fold r.
  assert (Hmeasured : measured
                      = Legacy.set_el_className (λ _, Legacy.el_className measured) stored).
  { subst measured. rewrite legacy_removeClass_world at 1. subst added.
    rewrite legacy_addClass_world at 1. reflexivity. }
  set (d0 := ({["placeholder" := Legacy.PlaceholderValue placeholder0]}
              : gmap string Legacy.Value)) in *.
  set (w2 := Legacy.set_next_id S (Legacy.set_next_id S measured)).
  assert (Hd2 : Legacy.dataOf w2 = Some d0).
  { subst w2. rewrite Hmeasured. change (Legacy.dataOf stored = Some d0).
    apply legacy_dataOf_withData. }
  unfold Legacy.bind at 1. unfold Legacy.modify at 1.
  rewrite legacy_store, Hd2. cbn [default from_option]. unfold id.
  set (d1 := <["handlers" := Legacy.HandlersValue {| scroll := h; resize := r |}]> d0).
  unfold Legacy.bind at 1. unfold Legacy.gets at 1.
  unfold Legacy.bind at 1. unfold Legacy.modify at 1.
  assert (Hp1 : Legacy.placeholderOf d1 = Some placeholder0).
  { subst d1 d0. rewrite legacy_placeholderOf_insert, decide_False by discriminate.
    unfold Legacy.placeholderOf. now rewrite lookup_singleton_eq. }
  assert (Hins : ∀ (d : gmap string Legacy.Value) q,
            Legacy.placeholderOf (<["placeholder" := Legacy.PlaceholderValue q]> d) = Some q).
  { intros d q. rewrite legacy_placeholderOf_insert. now rewrite decide_True. }
  unfold Legacy.copyStyleProperties at 1. cbn [foldl].
  rewrite (legacy_placeholder_write _ (Legacy.withData d1 w2) d1 placeholder0
             (legacy_dataOf_withData _ _) Hp1).
  rewrite legacy_withData_twice.
  match goal with |- context [Legacy.placeholder_style ?f (Legacy.withData ?d w2)] =>
    rewrite (legacy_placeholder_write f (Legacy.withData d w2) d _
               (legacy_dataOf_withData _ _) (Hins _ _)) end.
  rewrite legacy_withData_twice, insert_insert_eq.
  match goal with |- context [Legacy.PlaceholderValue ?q] =>
    match q with set_ph_style _ (set_ph_style _ placeholder0) => set (p2 := q) end end.
  set (d2 := <["placeholder" := Legacy.PlaceholderValue p2]> d1).
  assert (Hp2 : Legacy.placeholderOf d2 = Some p2).
  { subst d2. rewrite legacy_placeholderOf_insert. now rewrite decide_True. }
  destruct (legacy_updatePlaceholderStyle_effect (Legacy.withData d2 w2) d2 p2
              (legacy_dataOf_withData _ _) Hp2) as (st & Hupd & _ & _ & _ & Hkeep3).
  unfold Legacy.bind at 1. rewrite Hupd. rewrite legacy_withData_twice.
  set (p3 := set_ph_style (λ _, st) p2).
  set (d3 := <["placeholder" := Legacy.PlaceholderValue p3]> d2).
  assert (Hh3 : d3 !! "handlers"
                = Some (Legacy.HandlersValue {| scroll := h; resize := r |})).
  { subst d3 d2 d1. rewrite !lookup_insert_ne by discriminate. apply lookup_insert_eq. }
  rewrite (legacy_bindEvents_effect _ d3 _ (legacy_dataOf_withData _ _) Hh3).
  exists (Legacy.set_listeners
            (λ ls, (ls ++ Legacy.bound {| scroll := h; resize := r |})%list)
            (Legacy.withData d3 w2)), d3, p3.
  split; [reflexivity|]. split_and!.
  - apply legacy_dataOf_withData.
  - subst d3. rewrite legacy_placeholderOf_insert. now rewrite decide_True.
  - reflexivity.
  - reflexivity.
  - subst p3. cbn [ph_style set_ph_style]. rewrite Hkeep3.
    + subst p2. cbn [ph_style set_ph_style].
      rewrite lookup_insert_ne by discriminate. rewrite lookup_insert_eq.
      now rewrite decide_True.
    + rewrite !not_elem_of_cons. split_and!; try discriminate. apply not_elem_of_nil.
  - exact Hh3.
  - subst d3 d2 d1 d0. rewrite !lookup_insert_ne by discriminate.
    now rewrite lookup_singleton_ne.
  - subst w2. rewrite Hmeasured. reflexivity.
  - subst w2. rewrite Hmeasured. reflexivity.
  - subst w2. rewrite Hmeasured. reflexivity.
  - reflexivity.
  - subst w2. rewrite Hmeasured. reflexivity.
Qed.

(** *** Starting and ending to stick *)

Lemma legacy_startSticky_effect (sticky : Sticky) (w : Legacy.World)
    (data : gmap string Legacy.Value) (p : PlaceholderNode) :
  Legacy.dataOf w = Some data →
  Legacy.placeholderOf data = Some p →
  ∃ w' data' p',
    Legacy.startSticky sticky w = Legacy.Returns tt w'
    ∧ Legacy.dataOf w' = Some data'
    ∧ Legacy.placeholderOf data' = Some p'
    ∧ ph_parentNode p' = true
    ∧ Legacy.positionOf data' = Some (Style.getProperty (Legacy.el_style w) "position")
    ∧ data' !! "handlers" = data !! "handlers"
    ∧ Style.getProperty (Legacy.el_style w') "position" = "fixed"
    ∧ Legacy.el_className w'
      = Legacy.el_className (Legacy.addClass (activeClass sticky) w)
    ∧ Legacy.el_dispatched w' = (Legacy.el_dispatched w ++ ["stickystart"])%list
    ∧ Legacy.listeners w' = Legacy.listeners w.
Proof.
  intros Hd Hp.
  destruct (legacy_updatePlaceholderStyle_effect w data p Hd Hp) as (st & Hupd & _).
  unfold Legacy.startSticky. unfold Legacy.bind at 1. rewrite Hupd.
  set (p1 := set_ph_style (λ _, st) p).
  set (d1 := <["placeholder" := Legacy.PlaceholderValue p1]> data).
  unfold Legacy.bind at 1. unfold Legacy.gets at 1.
  change (Legacy.el_style (Legacy.withData d1 w)) with (Legacy.el_style w).
  unfold Legacy.bind at 1. unfold Legacy.modify at 1.
  rewrite legacy_store, legacy_dataOf_withData, legacy_withData_twice.
  cbn [default from_option]. unfold id.
  set (d2 := <["position" := Legacy.StringValue (Style.getProperty (Legacy.el_style w) "position")]> d1).
  unfold Legacy.bind at 1. unfold Legacy.modify at 1.
  rewrite legacy_copy_element_style. cbn [foldl].
  match goal with |- context [Legacy.set_el_style ?f (Legacy.withData d2 w)] =>
    set (w3 := Legacy.set_el_style f (Legacy.withData d2 w)) end.
  assert (Hd3 : Legacy.dataOf w3 = Some d2) by apply legacy_dataOf_withData.
  unfold Legacy.bind at 1. rewrite (legacy_theData_Some w3 d2 Hd3).
  assert (Hp2 : Legacy.placeholderOf d2 = Some p1).
  { subst d2 d1. rewrite legacy_placeholderOf_insert, decide_False by discriminate.
    rewrite legacy_placeholderOf_insert. now rewrite decide_True. }
  rewrite Hp2.
  unfold Legacy.bind at 1. unfold Legacy.modify at 1.
  rewrite legacy_copy_element_style.
  match goal with |- context [Legacy.set_el_style ?f w3] =>
    set (w4 := Legacy.set_el_style f w3) end.
  assert (Hd4 : Legacy.dataOf w4 = Some d2) by apply legacy_dataOf_withData.
  unfold Legacy.bind at 1. unfold Legacy.modify at 1.
  rewrite (legacy_set_placeholder _ w4 d2 p1 Hd4 Hp2).
  unfold Legacy.bind, Legacy.modify.
  eexists _, (<["placeholder" := Legacy.PlaceholderValue (set_ph_parentNode true p1)]> d2),
    (set_ph_parentNode true p1).
  split; [reflexivity|].
  split_and!.
  - rewrite legacy_addClass_world. exact (legacy_dataOf_withData _ w4).
  - rewrite legacy_placeholderOf_insert. now rewrite decide_True.
  - reflexivity.
  - rewrite legacy_positionOf_insert, decide_False by discriminate.
    subst d2. rewrite legacy_positionOf_insert. now rewrite decide_True.
  - subst d2 d1. now rewrite !lookup_insert_ne by discriminate.
  - rewrite legacy_addClass_world. cbn. unfold properties. cbn [foldl].
    rewrite !getProperty_insert.
    repeat (destruct (decide _) as [Heq|_]; [discriminate Heq|]).
    now rewrite decide_True.
  - now apply legacy_addClass_className.
  - rewrite legacy_addClass_world. reflexivity.
  - rewrite legacy_addClass_world. reflexivity.
Qed.


End Earlier.

(** ** The settings as objects *)

Section Settings.

(** *** Objects by reference *)




End Settings.

(** ** The two variants side by side *)

Section Variants.
Context `{Browser} `{Legacy.Browser}.

Lemma onScroll_exact (sticky : Sticky) (w : World) :
  let added := set_el_classList (classList_add (activeClass sticky)) w in
  let measured := set_el_classList (classList_remove (activeClass sticky)) added in
  onScroll sticky w
  = Returns
      {| sh_id := next_id w;
         sh_sticky := sticky;
         sh_side := if decide (getComputedStyle measured TheElement "top" ≠ "auto")
                    then StickToTop else StickToBottom;
         sh_stickyMargins :=
           {| marginBottom := getComputedStyle added TheElement "marginBottom";
              marginTop := getComputedStyle added TheElement "marginTop" |};
         sh_distanceFromSide :=
           if decide (getComputedStyle measured TheElement "top" ≠ "auto")
           then parseFloat (getComputedStyle measured TheElement "top")
           else parseFloat (getComputedStyle measured TheElement "bottom") |}
      (set_next_id S measured).
Proof. reflexivity. Qed.

(** [init] on an element without data, up to the call of the scroll
    handler, with the handlers it stores. *)
Lemma init_effect_exact (sticky : Sticky) (w : World) :
  el_store w = None →
  let added := set_el_classList (classList_add (activeClass sticky)) w in
  let measured := set_el_classList (classList_remove (activeClass sticky)) added in
  let h :=
    {| sh_id := next_id w;
       sh_sticky := sticky;
       sh_side := if decide (getComputedStyle measured TheElement "top" ≠ "auto")
                  then StickToTop else StickToBottom;
       sh_stickyMargins :=
         {| marginBottom := getComputedStyle added TheElement "marginBottom";
            marginTop := getComputedStyle added TheElement "marginTop" |};
       sh_distanceFromSide :=
         if decide (getComputedStyle measured TheElement "top" ≠ "auto")
         then parseFloat (getComputedStyle measured TheElement "top")
         else parseFloat (getComputedStyle measured TheElement "bottom") |} in
  let r := {| rh_id := S (next_id w); rh_sticky := sticky |} in
  ∃ wB data,
    init sticky w = callScroll h wB
    ∧ el_store wB = Some data
    ∧ handlers data = {| scroll := h; resize := r |}
    ∧ ph_parentNode (placeholder data) = false
    ∧ position data = Style.getProperty (el_style w) "position"
    ∧ listeners wB = (listeners w ++ bound (handlers data) (passiveSupported w))%list
    ∧ el_dispatched wB = el_dispatched w
    ∧ pageYOffset wB = pageYOffset w
    ∧ innerHeight wB = innerHeight w.
Proof.
  intros Hnone added measured h r. unfold init.
  unfold bind at 1. unfold gets at 1. unfold Store.getData at 1. rewrite Hnone.
  unfold bind at 1. unfold gets at 1.
  unfold bind at 1. rewrite (onScroll_exact sticky w). fold added. fold measured. fold h.
  unfold bind at 1. unfold onResize at 1.
  change (next_id (set_next_id S measured)) with (S (next_id w)). fold r.
  unfold bind at 1. unfold gets at 1.
  unfold bind at 1. unfold modify at 1.
  unfold bind at 1.
  match goal with |- context [getZIndex ?sel ?w0] =>
    pose proof (getZIndex_world sel w0) as Hz; destruct (getZIndex sel w0) as [z wz] end.
  cbn [snd] in Hz. subst wz.
  unfold bind at 1. unfold modify at 1.
  match goal with |- context [Style.copyStyleProperties ?a ?b ?c ?w0] =>
    set (wX := Style.copyStyleProperties a b c w0) end.
  assert (∃ dX, el_store wX = Some dX
                ∧ handlers dX = {| scroll := h; resize := r |}
                ∧ ph_parentNode (placeholder dX) = false
                ∧ position dX = Style.getProperty (el_style w) "position")
    as (dX & HsX & HhX & HaX & HpX).
  { eexists. split; [subst wX; cbn; reflexivity|]. cbn. repeat split; reflexivity. }
  destruct (updatePlaceholderStyle_effect wX dX HsX) as (st & Hupd & _).
  unfold bind at 1. rewrite Hupd.
  set (dB := with_placeholder (set_ph_style (λ _, st)) dX).
  assert (HsB : el_store (Store.setData dB wX) = Some dB) by reflexivity.
  unfold bind at 1. rewrite (bindEvents_effect _ _ HsB).
  match goal with |- context [set_listeners ?f ?w0] => set (wB := set_listeners f w0) end.
  assert (HsB' : el_store wB = Some dB) by reflexivity.
  unfold bind at 1. rewrite (theHandlers_Some _ _ HsB').
  assert (HhB : handlers dB = {| scroll := h; resize := r |}) by exact HhX.
  rewrite HhB. cbn [scroll].
  exists wB, dB. split; [reflexivity|].
  subst wB dB. cbn. rewrite HhX, HaX, HpX. subst wX. cbn.
  repeat split; reflexivity.
Qed.

(** C7, amended. In the ES-module variant, after [init] on a fresh page and
    any events, [destroy] returns with the inline [position] equal to its
    value before [init] and with each of the ten touched properties empty,
    whatever they held before [init]; so a touched property is back to its
    earlier value exactly when that value was empty; no data and no listener
    of the library remain. In the earlier variant [destroy] on an element
    with data empties eight of them and touches neither [top] nor [bottom]
    nor any other inline property; the inline [position] becomes the stored
    one and stays as it is when none is stored; directly after [init] on a
    fresh page it leaves [position], [top] and [bottom] as they were before
    [init]. What [startSticky] stores is the inline [position] it finds,
    before it makes the element fixed. *)
Theorem destroy_restores_position_and_clears :
  (∀ (sticky : Sticky) (w0 : World) (es : list Event),
     fresh w0 →
     ∃ w', destroy sticky (deliver_all (final_world (init sticky w0)) es) = Returns tt w'
           ∧ Style.getProperty (el_style w') "position"
             = Style.getProperty (el_style w0) "position"
           ∧ (∀ p, p ∈ touched → Style.getProperty (el_style w') p = "")
           ∧ (∀ p, p ∈ touched →
                Style.getProperty (el_style w') p = Style.getProperty (el_style w0) p
                ↔ Style.getProperty (el_style w0) p = "")
           ∧ fresh w')
  ∧ (∀ (sticky : Sticky) (w : Legacy.World) (data : gmap string Legacy.Value) (hs : Handlers),
       Legacy.dataOf w = Some data →
       data !! "handlers" = Some (Legacy.HandlersValue hs) →
       Legacy.listeners w = Legacy.bound hs →
       ∃ w', Legacy.destroy sticky w = Legacy.Returns tt w'
             ∧ Style.getProperty (Legacy.el_style w') "position"
               = default (Style.getProperty (Legacy.el_style w) "position")
                   (Legacy.positionOf data)
             ∧ (∀ p, p ∈ Legacy.touched → Style.getProperty (Legacy.el_style w') p = "")
             ∧ Legacy.el_style w' !! "top" = Legacy.el_style w !! "top"
             ∧ Legacy.el_style w' !! "bottom" = Legacy.el_style w !! "bottom"
             ∧ (∀ p, p ∉ "position" :: Legacy.touched →
                     Legacy.el_style w' !! p = Legacy.el_style w !! p)
             ∧ Legacy.dataOf w' = None
             ∧ Legacy.listeners w' = [])
  ∧ (∀ (sticky : Sticky) (w0 : Legacy.World),
       Legacy.dataOf w0 = None →
       Legacy.listeners w0 = [] →
       ∃ w', Legacy.destroy sticky (Legacy.final_world (Legacy.init sticky w0))
             = Legacy.Returns tt w'
             ∧ Style.getProperty (Legacy.el_style w') "position"
               = Style.getProperty (Legacy.el_style w0) "position"
             ∧ (∀ p, p ∈ Legacy.touched → Style.getProperty (Legacy.el_style w') p = "")
             ∧ Legacy.el_style w' !! "top" = Legacy.el_style w0 !! "top"
             ∧ Legacy.el_style w' !! "bottom" = Legacy.el_style w0 !! "bottom"
             ∧ Legacy.dataOf w' = None
             ∧ Legacy.listeners w' = [])
  ∧ (∀ (sticky : Sticky) (w : Legacy.World) (data : gmap string Legacy.Value)
       (p : PlaceholderNode),
       Legacy.dataOf w = Some data →
       Legacy.placeholderOf data = Some p →
       ∃ w' data',
         Legacy.startSticky sticky w = Legacy.Returns tt w'
         ∧ Legacy.dataOf w' = Some data'
         ∧ Legacy.positionOf data' = Some (Style.getProperty (Legacy.el_style w) "position")
         ∧ Style.getProperty (Legacy.el_style w') "position" = "fixed").
Proof.
  assert (Hoffsets : ∀ p, p = "top" ∨ p = "bottom" → p ∉ "position" :: Legacy.touched).
  { intros p [-> | ->]; unfold Legacy.touched; rewrite !not_elem_of_cons;
      split_and!; try discriminate; apply not_elem_of_nil. }
  split_and!.
  - intros sticky w0 es Hfresh.
    pose proof (reachable_initialized sticky w0 es Hfresh) as Hinit.
    destruct (destroy_effect sticky _ _ Hinit) as (w' & Hrun & Hfresh' & Hpos & Htouched & _).
    exists w'. split_and!; try assumption.
    intros p Hp. rewrite (Htouched p Hp). split; congruence.
  - intros sticky w data hs Hd Hh Hls.
    destruct (legacy_destroy_effect sticky w data hs Hd Hh Hls)
      as (w' & Hrun & Hnone & Hls' & Hpos & Htouched & Hframe & _).
    exists w'. split_and!; try assumption; apply Hframe, Hoffsets; auto.
  - intros sticky w0 Hnone Hls0.
    destruct (legacy_init_effect sticky w0 Hnone)
      as (w1 & data & p & Hinit & Hd & _ & _ & _ & _ & Hh & Hposition & Hls & Hstyle & _).
    rewrite Hls0 in Hls. cbn [app] in Hls.
    destruct (legacy_destroy_effect sticky w1 data _ Hd Hh Hls)
      as (w' & Hrun & Hnone' & Hls' & Hpos & Htouched & Hframe & _).
    rewrite Hinit. cbn [Legacy.final_world].
    exists w'. split_and!; try assumption.
    + rewrite Hpos. unfold Legacy.positionOf. rewrite Hposition.
      cbn [default from_option]. unfold id. now rewrite Hstyle.
    + rewrite <- Hstyle. apply Hframe, Hoffsets. auto.
    + rewrite <- Hstyle. apply Hframe, Hoffsets. auto.
  - intros sticky w data p Hd Hp.
    destruct (legacy_startSticky_effect sticky w data p Hd Hp)
      as (w' & data' & _ & Hrun & Hd' & _ & _ & Hsaved & _ & Hfixed & _).
    now exists w', data'.
Qed.

(** C1. In the earlier variant, with a computed [top] other than [auto],
    the boundaries are [start = elementTop - declaredTop] and
    [end = parentBottom - margin], each plus [window.pageYOffset], where the
    margin is [~~parseFloat(marginBottom)]: [0] when the parse is [NaN], and
    otherwise the parsed number converted to an integer of 32 bits, so that a
    fractional margin is not subtracted as it is. *)
Theorem legacy_calculateBoundaries_truncates_margin (element : Node)
    (stickyMargins : StickyMargins) (w : Legacy.World) :
  Legacy.getComputedStyle w element "top" ≠ "auto" →
  let declaredTop := Legacy.parseFloat (Legacy.getComputedStyle w element "top") in
  let margin := Legacy.toInt32 (Legacy.parseFloat (marginBottom stickyMargins)) in
  Legacy.calculateBoundaries element stickyMargins w =
    {| b_start := (rect_top (Legacy.getBoundingClientRect w element) - declaredTop
                   + Legacy.pageYOffset w)%float;
       b_end := (rect_bottom (Legacy.parentRect w element) - margin
                 + Legacy.pageYOffset w)%float |}
  ∧ (PrimFloat.is_nan (Legacy.parseFloat (marginBottom stickyMargins)) = true →
     margin = 0%float).
Proof.
  intros Htop declaredTop margin. split.
  - unfold Legacy.calculateBoundaries. destruct (decide _) as [_|Hauto]; [reflexivity|].
    now destruct Hauto.
  - intros Hnan. unfold margin, Legacy.toInt32.
    unfold PrimFloat.is_nan in Hnan. rewrite FloatAxioms.eqb_spec in Hnan.
    destruct (Prim2SF (Legacy.parseFloat (marginBottom stickyMargins))) as [s|s| |s m e];
      try reflexivity.
    exfalso. unfold SFeqb, SFcompare in Hnan. cbn in Hnan.
    destruct s; cbn in Hnan.
    + rewrite Z.compare_refl, Pos.compare_cont_refl in Hnan. discriminate Hnan.
    + rewrite Z.compare_refl, Pos.compare_cont_refl in Hnan. discriminate Hnan.
Qed.

(** C8, amended. [init] on an element without data returns normally. In
    the ES-module variant it stores the placeholder, the inline [position]
    and the handlers that [onScroll] and [onResize] build on that page;
    registers the scroll handler for [load] and for [scroll] (with
    [{ passive: true }] when the browser supports passive listeners, with
    [false] otherwise) and the resize handler for [resize]; and its outcome is
    that of one call of the stored scroll handler in the world so prepared:
    the placeholder ends up attached exactly when that call finds the page in
    range, [stickystart] is dispatched exactly then, and on a page without
    other listeners the placeholder is attached exactly when the element is
    sticking. In the earlier variant [init] stores the placeholder and the
    handlers, saves no position, registers the three listeners without
    options and returns without calling the handler: the placeholder is
    detached, no event is dispatched and the inline style is as before. *)
Theorem init_binds_then_calls_scroll :
  (∀ (sticky : Sticky) (w : World),
     el_store w = None →
     let added := set_el_classList (classList_add (activeClass sticky)) w in
     let measured := set_el_classList (classList_remove (activeClass sticky)) added in
     let h :=
       {| sh_id := next_id w;
          sh_sticky := sticky;
          sh_side := if decide (getComputedStyle measured TheElement "top" ≠ "auto")
                     then StickToTop else StickToBottom;
          sh_stickyMargins :=
            {| marginBottom := getComputedStyle added TheElement "marginBottom";
               marginTop := getComputedStyle added TheElement "marginTop" |};
          sh_distanceFromSide :=
            if decide (getComputedStyle measured TheElement "top" ≠ "auto")
            then parseFloat (getComputedStyle measured TheElement "top")
            else parseFloat (getComputedStyle measured TheElement "bottom") |} in
     let r := {| rh_id := S (next_id w); rh_sticky := sticky |} in
     ∃ wB data w',
       el_store wB = Some data
       ∧ handlers data = {| scroll := h; resize := r |}
       ∧ position data = Style.getProperty (el_style w) "position"
       ∧ ph_parentNode (placeholder data) = false
       ∧ listeners wB =
           (listeners w ++
            [ {| l_type := "load"; l_callback := ScrollCallback h; l_options := Omitted |};
              {| l_type := "scroll"; l_callback := ScrollCallback h;
                 l_options := if passiveSupported w then PassiveOptions true
                              else UseCapture false |};
              {| l_type := "resize"; l_callback := ResizeCallback r;
                 l_options := Omitted |} ])%list
       ∧ el_dispatched wB = el_dispatched w
       ∧ pageYOffset wB = pageYOffset w
       ∧ innerHeight wB = innerHeight w
       ∧ init sticky w = callScroll h wB
       ∧ init sticky w = Returns tt w'
       ∧ attached w' = isInRange h wB
       ∧ el_dispatched w'
         = (el_dispatched w ++ if isInRange h wB then ["stickystart"] else [])%list
       ∧ listeners w' = listeners wB
       ∧ (listeners w = [] → attached w' = isSticking sticky w'))
  ∧ (∀ (sticky : Sticky) (w : Legacy.World),
       Legacy.dataOf w = None →
       let placeholder0 :=
         {| ph_nodeName := Legacy.el_nodeName w; ph_style := ∅; ph_parentNode := false |} in
       let stored :=
         Legacy.withData {["placeholder" := Legacy.PlaceholderValue placeholder0]} w in
       let added := Legacy.addClass (activeClass sticky) stored in
       let measured := Legacy.removeClass (activeClass sticky) added in
       let h :=
         {| sh_id := Legacy.next_id w;
            sh_sticky := sticky;
            sh_side := if decide (Legacy.getComputedStyle measured TheElement "top" ≠ "auto")
                       then StickToTop else StickToBottom;
            sh_stickyMargins :=
              {| marginBottom := Legacy.getComputedStyle added TheElement "marginBottom";
                 marginTop := Legacy.getComputedStyle added TheElement "marginTop" |};
            sh_distanceFromSide :=
              if decide (Legacy.getComputedStyle measured TheElement "top" ≠ "auto")
              then Legacy.parseFloat (Legacy.getComputedStyle measured TheElement "top")
              else Legacy.parseFloat (Legacy.getComputedStyle measured TheElement "bottom") |} in
       let r := {| rh_id := S (Legacy.next_id w); rh_sticky := sticky |} in
       ∃ w' data,
         Legacy.init sticky w = Legacy.Returns tt w'
         ∧ Legacy.dataOf w' = Some data
         ∧ data !! "handlers" = Some (Legacy.HandlersValue {| scroll := h; resize := r |})
         ∧ data !! "position" = None
         ∧ Legacy.listeners w' =
             (Legacy.listeners w ++
              [ {| l_type := "load"; l_callback := ScrollCallback h; l_options := Omitted |};
                {| l_type := "scroll"; l_callback := ScrollCallback h; l_options := Omitted |};
                {| l_type := "resize"; l_callback := ResizeCallback r;
                   l_options := Omitted |} ])%list
         ∧ Legacy.attached w' = false
         ∧ Legacy.el_dispatched w' = Legacy.el_dispatched w
         ∧ Legacy.el_style w' = Legacy.el_style w
         ∧ Legacy.pageYOffset w' = Legacy.pageYOffset w).
Proof.
  split.
  - intros sticky w Hnone added measured h r.
    destruct (init_effect_exact sticky w Hnone)
      as (wB & data & Hinit & Hs & Hh & Ha & Hpos & Hls & Hev & Hy & Hi).
    fold added in Hinit, Hh. fold measured in Hinit, Hh. fold h in Hinit, Hh. fold r in Hh.
    destruct (callScroll_effect h wB data Hs) as (w' & Hrun & Heff).
    destruct Heff as ((data' & Hs' & _ & Ha' & _) & _ & _ & Hev' & Hls' & _).
    exists wB, data, w'. split_and!; try assumption.
    + rewrite Hls, Hh. reflexivity.
    + now rewrite Hinit.
    + unfold attached. now rewrite Hs', Ha'.
    + rewrite Hev', Hev, Ha. unfold transition. now destruct (isInRange h wB).
    + intros Hnil.
      destruct (init_establishes sticky w (conj Hnone Hnil)) as (w'' & Hrun' & Hinv).
      rewrite Hinit, Hrun in Hrun'. injection Hrun' as <-.
      exact (attached_sticking sticky _ w' Hinv).
  - intros sticky w Hnone placeholder0 stored added measured h r.
    destruct (legacy_init_effect sticky w Hnone)
      as (w' & data & p & Hinit & Hd & Hp & _ & Ha & _ & Hh & Hposition & Hls & Hstyle
          & Hev & _ & Hy).
    exists w', data. split_and!; try assumption.
    unfold Legacy.attached. change (Legacy.el_properties w' !! Legacy.namespace)
      with (Legacy.dataOf w'). now rewrite Hd, Hp.
Qed.


End Variants.

(** ** The two variants on the example pages *)

Module VariantExamples.

Import Demo.

Lemma legacy_calculateBoundaries_truncates_margin_witness :
  @Legacy.getComputedStyle (legacyBrowser topPage) (legacyWorld 0) TheElement "top" ≠ "auto"
  ∧ @Legacy.calculateBoundaries (legacyBrowser topPage) TheElement
      {| marginBottom := "12.5px"; marginTop := "0px" |} (legacyWorld 0)
    = {| b_start := 300; b_end := 1088 |}
  ∧ @calculateBoundaries (browser topPage) TheElement
      {| marginBottom := "12.5px"; marginTop := "0px" |} freshWorld
    = {| b_start := 300; b_end := 1087.5 |}.
Proof.
  assert (Htop : @Legacy.getComputedStyle (legacyBrowser topPage) (legacyWorld 0)
                   TheElement "top" ≠ "auto")
    by (vm_compute; intros Heq; discriminate Heq).
  split; [exact Htop|].
  destruct (@legacy_calculateBoundaries_truncates_margin (legacyBrowser topPage) TheElement
              {| marginBottom := "12.5px"; marginTop := "0px" |} (legacyWorld 0) Htop)
    as (Heq & _).
  split; [rewrite Heq|]; vm_compute; reflexivity.
Defined.

Lemma destroy_restores_position_and_clears_witness :
  fresh styledWorld
  ∧ returned (destroy sticky
                (@deliver_all (browser topPage)
                   (final_world (@init (browser topPage) sticky styledWorld))
                   [Scroll (at_offset 400)])) = true
  ∧ Legacy.el_style (legacyAt 1080) !! "top" = Some "-30px"
  ∧ Legacy.el_style (Legacy.final_world (Legacy.destroy legacySticky (legacyAt 1080))) !! "top"
    = Some "-30px"
  ∧ Style.getProperty
      (Legacy.el_style (Legacy.final_world (Legacy.destroy legacySticky (legacyAt 1080))))
      "width" = ""
  ∧ Legacy.dataOf (legacyWorld 0) = None
  ∧ Legacy.returned
      (Legacy.destroy legacySticky
         (Legacy.final_world (@Legacy.init (legacyBrowser topPage) legacySticky (legacyWorld 0))))
    = true.
Proof.
  assert (Hfresh : fresh styledWorld) by (split; reflexivity).
  destruct (@destroy_restores_position_and_clears (browser topPage) (legacyBrowser topPage))
    as (Hmodule & Hlocal & Hdirect & _).
  destruct (Hmodule sticky styledWorld [Scroll (at_offset 400)] Hfresh) as (w1 & Hrun1 & _).
  assert (Hdata : ∃ data,
            Legacy.dataOf (legacyAt 1080) = Some data
            ∧ data !! "handlers"
              = Some (Legacy.HandlersValue
                        {| scroll := legacyHandler;
                           resize := {| rh_id := 1; rh_sticky := legacySticky |} |}))
    by (vm_compute; eexists; split; reflexivity).
  destruct Hdata as (data & Hd & Hh).
  assert (Hls : Legacy.listeners (legacyAt 1080)
                = Legacy.bound {| scroll := legacyHandler;
                                  resize := {| rh_id := 1; rh_sticky := legacySticky |} |})
    by (vm_compute; reflexivity).
  destruct (Hlocal legacySticky (legacyAt 1080) data _ Hd Hh Hls)
    as (w2 & Hrun2 & _ & Htouched & Htop & _).
  destruct (Hdirect legacySticky (legacyWorld 0) eq_refl eq_refl) as (w3 & Hrun3 & _).
  assert (Hinline : Legacy.el_style (legacyAt 1080) !! "top" = Some "-30px")
    by (vm_compute; reflexivity).
  assert (Hwidth : "width" ∈ Legacy.touched) by (unfold Legacy.touched; constructor).
  split_and!.
  - exact Hfresh.
  - now rewrite Hrun1.
  - exact Hinline.
  - rewrite Hrun2; cbn [Legacy.final_world]; now rewrite Htop.
  - rewrite Hrun2; cbn [Legacy.final_world]; exact (Htouched _ Hwidth).
  - reflexivity.
  - now rewrite Hrun3.
Defined.

Lemma init_binds_then_calls_scroll_witness :
  el_store (set_viewport (at_offset 400) freshWorld) = None
  ∧ returned (@init (browser topPage) sticky (set_viewport (at_offset 400) freshWorld)) = true
  ∧ attached (final_world (@init (browser topPage) sticky
                             (set_viewport (at_offset 400) freshWorld))) = true
  ∧ el_dispatched (final_world (@init (browser topPage) sticky
                                  (set_viewport (at_offset 400) freshWorld)))
    = ["stickystart"]
  ∧ Legacy.dataOf (legacyWorld 400) = None
  ∧ Legacy.attached (legacyStarted 400) = false.
Proof.
  destruct (@init_binds_then_calls_scroll (browser topPage) (legacyBrowser topPage))
    as (Hmodule & Hearlier).
  destruct (Hmodule sticky (set_viewport (at_offset 400) freshWorld) eq_refl)
    as (wB & data & w' & _ & _ & _ & _ & _ & _ & _ & _ & _ & Hrun & _).
  destruct (Hearlier legacySticky (legacyWorld 400) eq_refl)
    as (w1 & data1 & Hrun1 & _ & _ & _ & _ & Hatt & _).
  split_and!.
  - reflexivity.
  - now rewrite Hrun.
  - vm_compute; reflexivity.
  - vm_compute; reflexivity.
  - reflexivity.
  - unfold legacyStarted; rewrite Hrun1; exact Hatt.
Defined.

(** C8 as specified fails on the earlier variant. On the top page scrolled
    to 400, inside the element's range, [init] returns with the placeholder
    detached, no event dispatched, the inline position as it was and all
    three listeners registered without options. The first call of the stored
    handler attaches the placeholder, as [init] of the ES-module variant does
    on that page. *)
Lemma init_calls_scroll_counterexample :
  Legacy.dataOf (legacyWorld 400) = None
  ∧ Legacy.returned (@Legacy.init (legacyBrowser topPage) legacySticky (legacyWorld 400)) = true
  ∧ Legacy.attached (legacyStarted 400) = false
  ∧ Legacy.el_dispatched (legacyStarted 400) = []
  ∧ Style.getProperty (Legacy.el_style (legacyStarted 400)) "position" = ""
  ∧ map l_options (Legacy.listeners (legacyStarted 400)) = [Omitted; Omitted; Omitted]
  ∧ Legacy.attached (legacyAt 400) = true
  ∧ attached (final_world (@init (browser topPage) sticky
                             (set_viewport (at_offset 400) freshWorld))) = true.
Proof. split_and!; vm_compute; reflexivity. Defined.


End VariantExamples.
